(** * Regal GL_QUADS emulation layer (src/regal/RegalQuads.cpp)

    A shallow embedding of [Regal::Emu::Quads]: the per-context state record,
    the state setters, and [Quads::glDrawArrays], which re-expresses
    GL_QUADS and GL_QUAD_STRIP draws as indexed triangles, indexed lines or
    points.  Calls made through the dispatch table are recorded, in order, in
    a trace of [GLcall]s. *)

From Stdlib Require Import ZArith Lia List Bool.
From stdpp Require Import base list.

Local Open Scope Z_scope.

(** ** OpenGL enumerants

    The numeric values of the tokens come from <GL/Regal.h>, which the
    source includes; they are the values the OpenGL registry assigns. *)

Definition GL_POINTS : Z := 0x0000.
Definition GL_LINES : Z := 0x0001.
Definition GL_TRIANGLES : Z := 0x0004.
Definition GL_QUADS : Z := 0x0007.
Definition GL_QUAD_STRIP : Z := 0x0008.
Definition GL_TRUE : Z := 1.
Definition GL_FRONT : Z := 0x0404.
Definition GL_BACK : Z := 0x0405.
Definition GL_FRONT_AND_BACK : Z := 0x0408.
Definition GL_CW : Z := 0x0900.
Definition GL_CCW : Z := 0x0901.
Definition GL_CULL_FACE : Z := 0x0B44.
Definition GL_UNSIGNED_INT : Z := 0x1405.
Definition GL_POINT : Z := 0x1B00.
Definition GL_LINE : Z := 0x1B01.
Definition GL_FILL : Z := 0x1B02.
Definition GL_FLAT : Z := 0x1D00.
Definition GL_SMOOTH : Z := 0x1D01.
Definition GL_ELEMENT_ARRAY_BUFFER : Z := 0x8893.
Definition GL_STATIC_DRAW : Z := 0x88E4.
Definition GL_FIRST_VERTEX_CONVENTION : Z := 0x8E4D.
Definition GL_LAST_VERTEX_CONVENTION : Z := 0x8E4E.

(** [#define EMU_QUADS_BUFFER_SIZE 1024] *)
Definition EMU_QUADS_BUFFER_SIZE : Z := 1024.

(** [sizeof(GLuint)] *)
Definition sizeof_GLuint : Z := 4.

(** A value stored into a [GLuint]: arithmetic modulo 2^32. *)
Definition u32 (x : Z) : Z := x mod 2 ^ 32.

(** ** The state of the layer: the data members of [Quads] *)

Record Quads : Type := mkQuads {
  elementArrayBuffer : Z;
  quadIndexBuffer : Z;
  windingMode : Z;
  frontFaceMode : Z;
  backFaceMode : Z;
  shadeMode : Z;
  provokeMode : Z;
  cullFace : Z;
  gl_quads_follow_provoking_vertex_convention : bool;
  cullingFaces : bool
}.

(** ** Calls through the dispatch table *)

(** The last argument of glDrawElements: a byte offset into the bound
    element array buffer, or a pointer to client memory, of which the
    cells the call reads are recorded. *)
Inductive IndexSource : Type :=
| BufferOffset (offset : Z)
| ClientIndices (data : list Z).

(** The entries of [DispatchTableGL] this layer is concerned with.  For
    glBufferData the [size / sizeof(GLuint)] cells read from the data
    pointer are recorded. *)
Inductive GLcall : Type :=
| GlGenBuffers (n : Z)
| GlDeleteBuffers (buffers : list Z)
| GlBindBuffer (target buffer : Z)
| GlBufferData (target size : Z) (data : list Z) (usage : Z)
| GlDrawElements (mode count type : Z) (indices : IndexSource)
| GlDrawArrays (mode first count : Z)
| GlPolygonMode (face mode : Z).

(** ** Methods as state transformers

    A method maps the object to a result, the object afterwards and the
    dispatch-table calls it made; [None] stands for a loop that was cut off
    before its exit test failed. *)

Definition Emu (A : Type) : Type := Quads -> option (A * Quads * list GLcall).

Definition Emu_ret {A} (a : A) : Emu A := fun q => Some (a, q, []).

Definition Emu_bind {A B} (k : A -> Emu B) (m : Emu A) : Emu B :=
  fun q =>
    match m q with
    | None => None
    | Some (a, q1, t1) =>
        match k a q1 with
        | None => None
        | Some (b, q2, t2) => Some (b, q2, t1 ++ t2)
        end
    end.

Notation "x <- m ; k" := (Emu_bind (fun x => k) m)
  (at level 20, m at level 100, k at level 200, only parsing).
Notation "m ;; k" := (Emu_bind (fun _ => k) m)
  (at level 100, k at level 200, right associativity, only parsing).

(** Read a data member. *)
Definition member {A} (f : Quads -> A) : Emu A := fun q => Some (f q, q, []).

(** Assign the object. *)
Definition assign (f : Quads -> Quads) : Emu unit := fun q => Some (tt, f q, []).

(** [dt.call(&dt.f)(...)]: the call goes down the dispatch chain and is
    recorded; it does not come back into this object. *)
Definition call (c : GLcall) : Emu unit := fun q => Some (tt, q, [c]).

Definition cut_off {A} : Emu A := fun _ => None.

Definition when (b : bool) (m : Emu unit) : Emu unit :=
  if b then m else Emu_ret tt.

(** ** Local index arrays *)

(** [GLuint indices[size];]: a local array.  Its cells hold no defined
    value before they are written; none is read before it is written. *)
Definition local_array (size : Z) : list Z := replicate (Z.to_nat size) 0.

(** Consecutive stores [a[base] = v0; a[base+1] = v1; ...]. *)
Fixpoint store (base : nat) (vals : list Z) (a : list Z) : list Z :=
  match vals with
  | [] => a
  | v :: vs => store (S base) vs (<[base := u32 v]> a)
  end.

Definition store_at (base : Z) (vals : list Z) (a : list Z) : list Z :=
  store (Z.to_nat base) vals a.

(** [for (GLuint ii = 0; ii < static_cast<GLuint>(n); ii++) body]; [n] is
    at least 1 wherever glDrawArrays reaches such a loop. *)
Definition for_ii (n : Z) (body : Z -> list Z -> list Z) (a : list Z) : list Z :=
  foldl (fun a ii => body ii a) a (seqZ 0 n).

(** [for (GLsizei ii = 0; ii < k; ii++) indices[ii] += d;] *)
Definition advance (k d : Z) (a : list Z) : list Z :=
  foldl (fun a ii => alter (fun x => u32 (x + d)) (Z.to_nat ii) a) a (seqZ 0 k).

(** ** The index patterns written by the fill loops of glDrawArrays *)

(** QUAD_STRIP to triangles, lines 204-209 (the branch under [#if 1]). *)
Definition strip_tri_smooth (first ii : Z) : list Z :=
  [ first + ii * 2 + 1; first + ii * 2 + 3; first + ii * 2 + 0;
    first + ii * 2 + 2; first + ii * 2 + 0; first + ii * 2 + 3 ].

(** Lines 243-248. *)
Definition strip_tri_flat_last (first ii : Z) : list Z :=
  [ first + ii * 2 + 0; first + ii * 2 + 1; first + ii * 2 + 3;
    first + ii * 2 + 2; first + ii * 2 + 0; first + ii * 2 + 3 ].

(** Lines 255-260. *)
Definition strip_tri_flat_first (first ii : Z) : list Z :=
  [ first + ii * 2 + 1; first + ii * 2 + 3; first + ii * 2 + 0;
    first + ii * 2 + 3; first + ii * 2 + 2; first + ii * 2 + 0 ].

(** QUADS to triangles, lines 292-297. *)
Definition quads_tri_smooth (first ii : Z) : list Z :=
  [ first + ii * 4 + 0; first + ii * 4 + 1; first + ii * 4 + 2;
    first + ii * 4 + 3; first + ii * 4 + 0; first + ii * 4 + 2 ].

(** Lines 306-311. *)
Definition quads_tri_flat_last (first ii : Z) : list Z :=
  [ first + ii * 4 + 0; first + ii * 4 + 1; first + ii * 4 + 3;
    first + ii * 4 + 1; first + ii * 4 + 2; first + ii * 4 + 3 ].

(** Lines 318-323. *)
Definition quads_tri_flat_first (first ii : Z) : list Z :=
  [ first + ii * 4 + 1; first + ii * 4 + 2; first + ii * 4 + 0;
    first + ii * 4 + 2; first + ii * 4 + 3; first + ii * 4 + 0 ].

(** QUAD_STRIP to outlines, lines 371-376. *)
Definition strip_line_flat_first (first ii : Z) : list Z :=
  [ first + ii * 2 + 3; first + ii * 2 + 1; first + ii * 2 + 1;
    first + ii * 2 + 0; first + ii * 2 + 2; first + ii * 2 + 0 ].

(** Lines 387-392. *)
Definition strip_line_other (first ii : Z) : list Z :=
  [ first + ii * 2 + 0; first + ii * 2 + 2; first + ii * 2 + 2;
    first + ii * 2 + 3; first + ii * 2 + 1; first + ii * 2 + 3 ].

(** QUADS to outlines, lines 420-427. *)
Definition quads_line_flat_first (first ii : Z) : list Z :=
  [ first + ii * 4 + 0; first + ii * 4 + 1; first + ii * 4 + 0;
    first + ii * 4 + 3; first + ii * 4 + 1; first + ii * 4 + 2;
    first + ii * 4 + 3; first + ii * 4 + 2 ].

(** Lines 434-441. *)
Definition quads_line_other (first ii : Z) : list Z :=
  [ first + ii * 4 + 1; first + ii * 4 + 0; first + ii * 4 + 0;
    first + ii * 4 + 3; first + ii * 4 + 1; first + ii * 4 + 2;
    first + ii * 4 + 2; first + ii * 4 + 3 ].

(** ** The chunk loops

    The four [while] loops of glDrawArrays have one shape,
<<
      while (myCount >= v) {
        submit the first (len n) cells of indices;
        myCount -= EMU_QUADS_BUFFER_SIZE * v;
        if (myCount >= v) {
          n = next_n(myCount);
          for (GLsizei ii = 0; ii < len n; ii++)
            indices[ii] += EMU_QUADS_BUFFER_SIZE * v;
        }
      }
>>
    with [v] = 4 for quads and 2 for strips. *)

Section ChunkLoop.
Variable v : Z.
Variable next_n : Z -> Z.
Variable len : Z -> Z.
Variable submit : Z -> list Z -> Emu unit.

Fixpoint chunk_loop (fuel : nat) (myCount n : Z) (indices : list Z) : Emu unit :=
  if myCount <? v then Emu_ret tt
  else
    match fuel with
    | O => cut_off
    | S fuel' =>
        submit n indices ;;
        let myCount := myCount - EMU_QUADS_BUFFER_SIZE * v in
        if myCount >=? v then
          let n := next_n myCount in
          chunk_loop fuel' myCount n
                     (advance (len n) (EMU_QUADS_BUFFER_SIZE * v) indices)
        else chunk_loop fuel' myCount n indices
    end.
End ChunkLoop.

(** [((myCount/2-1) < EMU_QUADS_BUFFER_SIZE) ? (myCount/2-1) : EMU_QUADS_BUFFER_SIZE] *)
Definition strip_n (myCount : Z) : Z :=
  if myCount `quot` 2 - 1 <? EMU_QUADS_BUFFER_SIZE
  then myCount `quot` 2 - 1 else EMU_QUADS_BUFFER_SIZE.

(** [((myCount/4) < EMU_QUADS_BUFFER_SIZE) ? (myCount/4) : EMU_QUADS_BUFFER_SIZE] *)
Definition quads_n (myCount : Z) : Z :=
  if myCount `quot` 4 <? EMU_QUADS_BUFFER_SIZE
  then myCount `quot` 4 else EMU_QUADS_BUFFER_SIZE.

(** [count &= (( mode == GL_QUADS ) ? (~0x3) : (~0x1))], on the parameter
    [count]. *)
Definition mask_count (mode count : Z) : Z :=
  Z.land count (if mode =? GL_QUADS then Z.lnot 0x3 else Z.lnot 0x1).

(** Lines 268-270 and 332-334: upload [n * 6] indices to the bound element
    array buffer and draw from it. *)
Definition submit_triangles (n : Z) (indices : list Z) : Emu unit :=
  call (GlBufferData GL_ELEMENT_ARRAY_BUFFER (n * 6 * sizeof_GLuint)
          (take (Z.to_nat (n * 6)) indices) GL_STATIC_DRAW) ;;
  call (GlDrawElements GL_TRIANGLES (n * 6) GL_UNSIGNED_INT (BufferOffset 0)).

(** Lines 399 and 448: draw [count] indices from the local array. *)
Definition submit_lines (count : Z) (indices : list Z) : Emu unit :=
  call (GlDrawElements GL_LINES count GL_UNSIGNED_INT
          (ClientIndices (take (Z.to_nat count) indices))).

(** An upper bound on the number of iterations of a chunk loop entered
    with [myCount <= count]. *)
Definition chunk_bound (count : Z) : nat := Z.to_nat (count `quot` 2048 + 1).

(** ** Assignments to the data members *)

Definition set_elementArrayBuffer (x : Z) (q : Quads) : Quads :=
  mkQuads x (quadIndexBuffer q) (windingMode q) (frontFaceMode q) (backFaceMode q)
          (shadeMode q) (provokeMode q) (cullFace q)
          (gl_quads_follow_provoking_vertex_convention q) (cullingFaces q).

Definition set_quadIndexBuffer (x : Z) (q : Quads) : Quads :=
  mkQuads (elementArrayBuffer q) x (windingMode q) (frontFaceMode q) (backFaceMode q)
          (shadeMode q) (provokeMode q) (cullFace q)
          (gl_quads_follow_provoking_vertex_convention q) (cullingFaces q).

Definition set_windingMode (x : Z) (q : Quads) : Quads :=
  mkQuads (elementArrayBuffer q) (quadIndexBuffer q) x (frontFaceMode q) (backFaceMode q)
          (shadeMode q) (provokeMode q) (cullFace q)
          (gl_quads_follow_provoking_vertex_convention q) (cullingFaces q).

Definition set_frontFaceMode (x : Z) (q : Quads) : Quads :=
  mkQuads (elementArrayBuffer q) (quadIndexBuffer q) (windingMode q) x (backFaceMode q)
          (shadeMode q) (provokeMode q) (cullFace q)
          (gl_quads_follow_provoking_vertex_convention q) (cullingFaces q).

Definition set_backFaceMode (x : Z) (q : Quads) : Quads :=
  mkQuads (elementArrayBuffer q) (quadIndexBuffer q) (windingMode q) (frontFaceMode q) x
          (shadeMode q) (provokeMode q) (cullFace q)
          (gl_quads_follow_provoking_vertex_convention q) (cullingFaces q).

Definition set_shadeMode (x : Z) (q : Quads) : Quads :=
  mkQuads (elementArrayBuffer q) (quadIndexBuffer q) (windingMode q) (frontFaceMode q)
          (backFaceMode q) x (provokeMode q) (cullFace q)
          (gl_quads_follow_provoking_vertex_convention q) (cullingFaces q).

Definition set_provokeMode (x : Z) (q : Quads) : Quads :=
  mkQuads (elementArrayBuffer q) (quadIndexBuffer q) (windingMode q) (frontFaceMode q)
          (backFaceMode q) (shadeMode q) x (cullFace q)
          (gl_quads_follow_provoking_vertex_convention q) (cullingFaces q).

Definition set_cullFace (x : Z) (q : Quads) : Quads :=
  mkQuads (elementArrayBuffer q) (quadIndexBuffer q) (windingMode q) (frontFaceMode q)
          (backFaceMode q) (shadeMode q) (provokeMode q) x
          (gl_quads_follow_provoking_vertex_convention q) (cullingFaces q).

Definition set_convention (x : bool) (q : Quads) : Quads :=
  mkQuads (elementArrayBuffer q) (quadIndexBuffer q) (windingMode q) (frontFaceMode q)
          (backFaceMode q) (shadeMode q) (provokeMode q) (cullFace q)
          x (cullingFaces q).

Definition set_cullingFaces (x : bool) (q : Quads) : Quads :=
  mkQuads (elementArrayBuffer q) (quadIndexBuffer q) (windingMode q) (frontFaceMode q)
          (backFaceMode q) (shadeMode q) (provokeMode q) (cullFace q)
          (gl_quads_follow_provoking_vertex_convention q) x.

(** ** Quads::Init and Quads::Cleanup *)

(** [ctx_convention] is [ctx.info->gl_quads_follow_provoking_vertex_convention];
    [name] is the buffer name the next layer's glGenBuffers stores into
    [quadIndexBuffer]. *)
Definition Init (ctx_convention : Z) (name : Z) : Emu unit :=
  assign (set_elementArrayBuffer 0) ;;
  call (GlGenBuffers 1) ;;
  assign (set_quadIndexBuffer name) ;;
  assign (set_windingMode GL_CCW) ;;
  assign (set_backFaceMode GL_FILL) ;;
  assign (set_frontFaceMode GL_FILL) ;;
  assign (set_shadeMode GL_SMOOTH) ;;
  assign (set_provokeMode GL_LAST_VERTEX_CONVENTION) ;;
  assign (set_cullFace GL_BACK) ;;
  assign (set_convention (ctx_convention =? GL_TRUE)) ;;
  assign (set_cullingFaces false).

(** The body is [UNUSED_PARAMETER(ctx);]. *)
Definition Cleanup : Emu unit := Emu_ret tt.

(** ** Quads::glDrawArrays *)

(** Lines 141-167: [drawQuads], [drawLines], [drawPoints]; [None] is the
    [return true] of line 166. *)
Definition draw_flags (q : Quads) : option (bool * bool * bool) :=
  if negb (cullingFaces q) then
    Some ((frontFaceMode q =? GL_FILL) || (backFaceMode q =? GL_FILL),
          (frontFaceMode q =? GL_LINE) || (backFaceMode q =? GL_LINE),
          (frontFaceMode q =? GL_POINT) || (backFaceMode q =? GL_POINT))
  else if cullFace q =? GL_BACK then
    Some (frontFaceMode q =? GL_FILL, frontFaceMode q =? GL_LINE,
          frontFaceMode q =? GL_POINT)
  else if cullFace q =? GL_FRONT then
    Some (backFaceMode q =? GL_FILL, backFaceMode q =? GL_LINE,
          backFaceMode q =? GL_POINT)
  else None.

(** [!gl_quads_follow_provoking_vertex_convention ||
     (provokeMode == GL_LAST_VERTEX_CONVENTION)] *)
Definition last_vertex (q : Quads) : bool :=
  negb (gl_quads_follow_provoking_vertex_convention q)
  || (provokeMode q =? GL_LAST_VERTEX_CONVENTION).

(** [shadeMode == GL_FLAT && gl_quads_follow_provoking_vertex_convention &&
     (provokeMode == GL_FIRST_VERTEX_CONVENTION)] *)
Definition flat_first_vertex (q : Quads) : bool :=
  (shadeMode q =? GL_FLAT) && gl_quads_follow_provoking_vertex_convention q
  && (provokeMode q =? GL_FIRST_VERTEX_CONVENTION).

(** Lines 196-263: the index array of the strip-to-triangles branch. *)
Definition strip_tri_indices (q : Quads) (first n : Z) : list Z :=
  let indices := local_array (EMU_QUADS_BUFFER_SIZE * 6) in
  if negb (shadeMode q =? GL_FLAT) then
    for_ii n (fun ii => store_at (ii * 6) (strip_tri_smooth first ii)) indices
  else if last_vertex q then
    for_ii n (fun ii => store_at (ii * 6) (strip_tri_flat_last first ii)) indices
  else
    for_ii n (fun ii => store_at (ii * 6) (strip_tri_flat_first first ii)) indices.

(** Lines 286-326: the index array of the quads-to-triangles branch. *)
Definition quads_tri_indices (q : Quads) (first n : Z) : list Z :=
  let indices := local_array (EMU_QUADS_BUFFER_SIZE * 6) in
  if negb (shadeMode q =? GL_FLAT) then
    for_ii n (fun ii => store_at (ii * 6) (quads_tri_smooth first ii)) indices
  else if last_vertex q then
    for_ii n (fun ii => store_at (ii * 6) (quads_tri_flat_last first ii)) indices
  else
    for_ii n (fun ii => store_at (ii * 6) (quads_tri_flat_first first ii)) indices.

(** Lines 364-394: the index array of the strip-to-outlines branch. *)
Definition strip_line_indices (q : Quads) (first n : Z) : list Z :=
  let indices := local_array (EMU_QUADS_BUFFER_SIZE * 6 + 2) in
  if flat_first_vertex q then
    let indices :=
      for_ii n (fun ii => store_at (ii * 6) (strip_line_flat_first first ii)) indices in
    store_at (n * 6) [ first + n * 2 + 1; first + n * 2 + 0 ] indices
  else
    let indices := store_at 0 [ first + 0; first + 1 ] indices in
    for_ii n (fun ii => store_at (ii * 6 + 2) (strip_line_other first ii)) indices.

(** Lines 414-443: the index array of the quads-to-outlines branch. *)
Definition quads_line_indices (q : Quads) (first n : Z) : list Z :=
  let indices := local_array (EMU_QUADS_BUFFER_SIZE * 8) in
  if flat_first_vertex q then
    for_ii n (fun ii => store_at (ii * 8) (quads_line_flat_first first ii)) indices
  else
    for_ii n (fun ii => store_at (ii * 8) (quads_line_other first ii)) indices.

(** Lines 185-352: [if (drawQuads) { ... }]. *)
Definition draw_triangles (fuel : nat) (mode first count : Z) : Emu unit :=
  front <- member frontFaceMode;
  back <- member backFaceMode;
  when (negb (front =? GL_FILL) || negb (back =? GL_FILL))
       (call (GlPolygonMode GL_FRONT_AND_BACK GL_FILL)) ;;
  let myCount := mask_count mode count in
  (if mode =? GL_QUAD_STRIP then
     q <- member id;
     let n := strip_n myCount in
     let indices := strip_tri_indices q first n in
     call (GlBindBuffer GL_ELEMENT_ARRAY_BUFFER (quadIndexBuffer q)) ;;
     chunk_loop 2 strip_n (fun n => n * 6) submit_triangles fuel myCount n indices ;;
     saved <- member elementArrayBuffer;
     call (GlBindBuffer GL_ELEMENT_ARRAY_BUFFER saved)
   else if mode =? GL_QUADS then
     q <- member id;
     let n := quads_n myCount in
     let indices := quads_tri_indices q first n in
     call (GlBindBuffer GL_ELEMENT_ARRAY_BUFFER (quadIndexBuffer q)) ;;
     chunk_loop 4 quads_n (fun n => n * 6) submit_triangles fuel myCount n indices ;;
     saved <- member elementArrayBuffer;
     call (GlBindBuffer GL_ELEMENT_ARRAY_BUFFER saved)
   else Emu_ret tt) ;;
  front <- member frontFaceMode;
  when (negb (front =? GL_FILL)) (call (GlPolygonMode GL_FRONT front)) ;;
  back <- member backFaceMode;
  when (negb (back =? GL_FILL)) (call (GlPolygonMode GL_BACK back)).

(** Lines 353-464: [else if (drawLines) { ... }]. *)
Definition draw_lines (fuel : nat) (mode first count : Z) : Emu unit :=
  front <- member frontFaceMode;
  back <- member backFaceMode;
  when (negb (front =? GL_LINE) || negb (back =? GL_LINE))
       (call (GlPolygonMode GL_FRONT_AND_BACK GL_LINE)) ;;
  let myCount := mask_count mode count in
  (if mode =? GL_QUAD_STRIP then
     q <- member id;
     let n := strip_n myCount in
     let indices := strip_line_indices q first n in
     chunk_loop 2 strip_n (fun n => n * 6 + 2)
                (fun n => submit_lines (n * 6 + 2)) fuel myCount n indices
   else if mode =? GL_QUADS then
     q <- member id;
     let n := quads_n myCount in
     let indices := quads_line_indices q first n in
     chunk_loop 4 quads_n (fun n => n * 8)
                (fun n => submit_lines (n * 8)) fuel myCount n indices
   else Emu_ret tt) ;;
  front <- member frontFaceMode;
  when (negb (front =? GL_LINE)) (call (GlPolygonMode GL_FRONT front)) ;;
  back <- member backFaceMode;
  when (negb (back =? GL_LINE)) (call (GlPolygonMode GL_BACK back)).

(** Lines 465-480: [else if (drawPoints) { ... }]. *)
Definition draw_points (mode first count : Z) : Emu unit :=
  front <- member frontFaceMode;
  back <- member backFaceMode;
  when (negb (front =? GL_POINT) || negb (back =? GL_POINT))
       (call (GlPolygonMode GL_FRONT_AND_BACK GL_POINT)) ;;
  let myCount := mask_count mode count in
  call (GlDrawArrays GL_POINTS first myCount) ;;
  front <- member frontFaceMode;
  when (negb (front =? GL_POINT)) (call (GlPolygonMode GL_FRONT front)) ;;
  back <- member backFaceMode;
  when (negb (back =? GL_POINT)) (call (GlPolygonMode GL_BACK back)).

(** [glDrawArrays] with the chunk loops cut off after [fuel] iterations. *)
Definition glDrawArrays_fuel (fuel : nat) (mode first count : Z) : Emu bool :=
  if negb (mode =? GL_QUADS) && negb (mode =? GL_QUAD_STRIP) then Emu_ret false
  else if count <? 0 then Emu_ret false
  else if count <? 4 then Emu_ret true
  else
    q <- member id;
    if cullingFaces q && (cullFace q =? GL_FRONT_AND_BACK) then Emu_ret true
    else
      match draw_flags q with
      | None => Emu_ret true
      | Some (drawQuads, drawLines, drawPoints) =>
          (if drawQuads then draw_triangles fuel mode first count
           else if drawLines then draw_lines fuel mode first count
           else if drawPoints then draw_points mode first count
           else Emu_ret tt) ;;
          Emu_ret true
      end.

(** [bool Quads::glDrawArrays(RegalContext *ctx, GLenum mode, GLint first,
    GLsizei count)]; the chunk loops get as many iterations as they can
    need; more would change nothing (see [glDrawArrays_fuel_runs]). *)
Definition glDrawArrays (mode first count : Z) : Emu bool :=
  glDrawArrays_fuel (chunk_bound count) mode first count.

(** ** The state setters *)

Definition glBindBuffer (target buffer : Z) : Emu unit :=
  when (target =? GL_ELEMENT_ARRAY_BUFFER) (assign (set_elementArrayBuffer buffer)).

Definition glFrontFace (mode : Z) : Emu unit :=
  if (mode =? GL_CW) || (mode =? GL_CCW) then assign (set_windingMode mode)
  else Emu_ret tt.

Definition glPolygonMode (f m : Z) : Emu unit :=
  if f =? GL_FRONT then assign (set_frontFaceMode m)
  else if f =? GL_BACK then assign (set_backFaceMode m)
  else if f =? GL_FRONT_AND_BACK then
    assign (set_backFaceMode m) ;; assign (set_frontFaceMode m)
  else Emu_ret tt.

Definition glShadeModel (mode : Z) : Emu unit :=
  when ((mode =? GL_SMOOTH) || (mode =? GL_FLAT)) (assign (set_shadeMode mode)).

Definition glProvokingVertex (mode : Z) : Emu unit :=
  when ((mode =? GL_FIRST_VERTEX_CONVENTION) || (mode =? GL_LAST_VERTEX_CONVENTION))
       (assign (set_provokeMode mode)).

Definition glCullFace (face : Z) : Emu unit :=
  if (face =? GL_FRONT) || (face =? GL_BACK) || (face =? GL_FRONT_AND_BACK)
  then assign (set_cullFace face)
  else Emu_ret tt.

Definition glEnable (cap : Z) : Emu unit :=
  when (cap =? GL_CULL_FACE) (assign (set_cullingFaces true)).

Definition glDisable (cap : Z) : Emu unit :=
  when (cap =? GL_CULL_FACE) (assign (set_cullingFaces false)).

(** ** Observing a run *)

(** The chunks a chunk loop submits: for each iteration, the value of [n]
    and the index array at the time of the submission.  This is
    [chunk_loop] with the calls left out. *)
Section Chunks.
Variable v : Z.
Variable next_n : Z -> Z.
Variable len : Z -> Z.

Fixpoint chunks (fuel : nat) (myCount n : Z) (indices : list Z) : list (Z * list Z) :=
  if myCount <? v then []
  else
    match fuel with
    | O => []
    | S fuel' =>
        (n, indices) ::
        let myCount := myCount - EMU_QUADS_BUFFER_SIZE * v in
        if myCount >=? v then
          let n := next_n myCount in
          chunks fuel' myCount n (advance (len n) (EMU_QUADS_BUFFER_SIZE * v) indices)
        else chunks fuel' myCount n indices
    end.
End Chunks.

(** The calls [submit_triangles] and [submit_lines] make. *)
Definition triangles_calls (n : Z) (indices : list Z) : list GLcall :=
  [ GlBufferData GL_ELEMENT_ARRAY_BUFFER (n * 6 * sizeof_GLuint)
      (take (Z.to_nat (n * 6)) indices) GL_STATIC_DRAW;
    GlDrawElements GL_TRIANGLES (n * 6) GL_UNSIGNED_INT (BufferOffset 0) ].

Definition lines_calls (count : Z) (indices : list Z) : list GLcall :=
  [ GlDrawElements GL_LINES count GL_UNSIGNED_INT
      (ClientIndices (take (Z.to_nat count) indices)) ].

(** Modelled from the spec: the backend behind the dispatch table (section
    6, "forwarding interface"; the backend itself is an external
    collaborator and not part of RegalQuads.cpp).  Only what the claims
    observe is kept: the buffer bound to the element array binding point,
    the index data of each buffer object, and the draws that reach the
    backend.  Binding replaces the element array binding; glBufferData
    replaces the data of the bound buffer; an indexed draw reads [count]
    indices from the bound buffer at the given byte offset, or from client
    memory. *)
Record Backend : Type := mkBackend {
  element_binding : Z;
  buffer_data : Z -> list Z
}.

Inductive Submission : Type :=
| Indexed (mode : Z) (indices : list Z)
| Arrays (mode first count : Z).

Definition backend_call (c : GLcall) (s : Backend) : Backend * list Submission :=
  match c with
  | GlBindBuffer target buffer =>
      if target =? GL_ELEMENT_ARRAY_BUFFER
      then (mkBackend buffer (buffer_data s), [])
      else (s, [])
  | GlBufferData target size data usage =>
      if target =? GL_ELEMENT_ARRAY_BUFFER
      then (mkBackend (element_binding s)
              (fun b => if b =? element_binding s then data else buffer_data s b), [])
      else (s, [])
  | GlDrawElements mode count type (BufferOffset offset) =>
      (s, [Indexed mode
             (take (Z.to_nat count)
                (drop (Z.to_nat (offset `quot` sizeof_GLuint))
                   (buffer_data s (element_binding s))))])
  | GlDrawElements mode count type (ClientIndices data) =>
      (s, [Indexed mode (take (Z.to_nat count) data)])
  | GlDrawArrays mode first count => (s, [Arrays mode first count])
  | GlGenBuffers _ | GlDeleteBuffers _ | GlPolygonMode _ _ => (s, [])
  end.

Fixpoint backend_run (t : list GLcall) (s : Backend) : Backend * list Submission :=
  match t with
  | [] => (s, [])
  | c :: t =>
      let '(s1, o1) := backend_call c s in
      let '(s2, o2) := backend_run t s1 in
      (s2, o1 ++ o2)
  end.

(** The draws a trace submits to a backend in state [s]. *)
Definition submissions (t : list GLcall) (s : Backend) : list Submission :=
  (backend_run t s).2.

(** The element array binding a trace leaves behind. *)
Definition binding_after (t : list GLcall) (s : Backend) : Z :=
  element_binding (backend_run t s).1.

(** Section 4.2 of the specification, step 2: the active face style set.
    It is empty where step 1 (or an unknown cull face) lets nothing be
    drawn. *)
Definition active_styles (q : Quads) : list Z :=
  if negb (cullingFaces q) then [frontFaceMode q; backFaceMode q]
  else if cullFace q =? GL_BACK then [frontFaceMode q]
  else if cullFace q =? GL_FRONT then [backFaceMode q]
  else [].

(** The pattern each fill loop writes, as selected by the shading state. *)
Definition strip_tri_pattern (q : Quads) : Z -> Z -> list Z :=
  if negb (shadeMode q =? GL_FLAT) then strip_tri_smooth
  else if last_vertex q then strip_tri_flat_last
  else strip_tri_flat_first.

Definition quads_tri_pattern (q : Quads) : Z -> Z -> list Z :=
  if negb (shadeMode q =? GL_FLAT) then quads_tri_smooth
  else if last_vertex q then quads_tri_flat_last
  else quads_tri_flat_first.

(** The indices of primitives [o], ..., [o + n - 1] under a pattern. *)
Definition pattern_run (pat : Z -> list Z) (o n : Z) : list Z :=
  concat ((fun ii => u32 <$> pat ii) <$> seqZ o n).

(** The calls of glDrawArrays, branch by branch.  [force] and [restore] are
    the glPolygonMode calls around a branch that draws in [style]. *)
Definition force (q : Quads) (style : Z) : list GLcall :=
  if negb (frontFaceMode q =? style) || negb (backFaceMode q =? style)
  then [GlPolygonMode GL_FRONT_AND_BACK style] else [].

Definition restore (q : Quads) (style : Z) : list GLcall :=
  (if negb (frontFaceMode q =? style)
   then [GlPolygonMode GL_FRONT (frontFaceMode q)] else [])
  ++ (if negb (backFaceMode q =? style)
      then [GlPolygonMode GL_BACK (backFaceMode q)] else []).

Definition strip_tri_chunks (q : Quads) (first count : Z) : list (Z * list Z) :=
  let myCount := mask_count GL_QUAD_STRIP count in
  chunks 2 strip_n (fun n => n * 6) (chunk_bound count) myCount (strip_n myCount)
         (strip_tri_indices q first (strip_n myCount)).

Definition quads_tri_chunks (q : Quads) (first count : Z) : list (Z * list Z) :=
  let myCount := mask_count GL_QUADS count in
  chunks 4 quads_n (fun n => n * 6) (chunk_bound count) myCount (quads_n myCount)
         (quads_tri_indices q first (quads_n myCount)).

Definition strip_line_chunks (q : Quads) (first count : Z) : list (Z * list Z) :=
  let myCount := mask_count GL_QUAD_STRIP count in
  chunks 2 strip_n (fun n => n * 6 + 2) (chunk_bound count) myCount (strip_n myCount)
         (strip_line_indices q first (strip_n myCount)).

Definition quads_line_chunks (q : Quads) (first count : Z) : list (Z * list Z) :=
  let myCount := mask_count GL_QUADS count in
  chunks 4 quads_n (fun n => n * 8) (chunk_bound count) myCount (quads_n myCount)
         (quads_line_indices q first (quads_n myCount)).

Definition triangles_trace (q : Quads) (mode first count : Z) : list GLcall :=
  force q GL_FILL
  ++ (if mode =? GL_QUAD_STRIP then
        GlBindBuffer GL_ELEMENT_ARRAY_BUFFER (quadIndexBuffer q)
        :: concat ((fun p => triangles_calls p.1 p.2) <$> strip_tri_chunks q first count)
        ++ [GlBindBuffer GL_ELEMENT_ARRAY_BUFFER (elementArrayBuffer q)]
      else if mode =? GL_QUADS then
        GlBindBuffer GL_ELEMENT_ARRAY_BUFFER (quadIndexBuffer q)
        :: concat ((fun p => triangles_calls p.1 p.2) <$> quads_tri_chunks q first count)
        ++ [GlBindBuffer GL_ELEMENT_ARRAY_BUFFER (elementArrayBuffer q)]
      else [])
  ++ restore q GL_FILL.

Definition lines_trace (q : Quads) (mode first count : Z) : list GLcall :=
  force q GL_LINE
  ++ (if mode =? GL_QUAD_STRIP then
        concat ((fun p => lines_calls (p.1 * 6 + 2) p.2) <$> strip_line_chunks q first count)
      else if mode =? GL_QUADS then
        concat ((fun p => lines_calls (p.1 * 8) p.2) <$> quads_line_chunks q first count)
      else [])
  ++ restore q GL_LINE.

Definition points_trace (q : Quads) (mode first count : Z) : list GLcall :=
  force q GL_POINT
  ++ [GlDrawArrays GL_POINTS first (mask_count mode count)]
  ++ restore q GL_POINT.

(** The result and the calls of glDrawArrays on the object [q]. *)
Definition glDrawArrays_result (q : Quads) (mode first count : Z) : bool * list GLcall :=
  if negb (mode =? GL_QUADS) && negb (mode =? GL_QUAD_STRIP) then (false, [])
  else if count <? 0 then (false, [])
  else if count <? 4 then (true, [])
  else if cullingFaces q && (cullFace q =? GL_FRONT_AND_BACK) then (true, [])
  else
    match draw_flags q with
    | None => (true, [])
    | Some (drawQuads, drawLines, drawPoints) =>
        (true,
         if drawQuads then triangles_trace q mode first count
         else if drawLines then lines_trace q mode first count
         else if drawPoints then points_trace q mode first count
         else [])
    end.

(** The primitive kind of a draw. *)
Definition submission_mode (sub : Submission) : Z :=
  match sub with
  | Indexed mode _ => mode
  | Arrays mode _ _ => mode
  end.

(** ** Concrete objects *)

(** The object [Init] leaves behind (see [Init_runs]). *)
Definition initial (name : Z) (convention : bool) : Quads :=
  mkQuads 0 name GL_CCW GL_FILL GL_FILL GL_SMOOTH GL_LAST_VERTEX_CONVENTION GL_BACK
          convention false.

(** A backend with nothing bound and no buffer data. *)
Definition idle_backend : Backend := mkBackend 0 (fun _ => []).

(** ** Further observations *)

(** The pattern the quads-to-outlines fill loop writes. *)
Definition quads_line_pattern (q : Quads) : Z -> Z -> list Z :=
  if flat_first_vertex q then quads_line_flat_first else quads_line_other.

(** The indices of an indexed draw. *)
Definition submission_indices (sub : Submission) : list Z :=
  match sub with
  | Indexed _ indices => indices
  | Arrays _ _ _ => []
  end.

(** Modelled from the spec: the polygon mode of the backend (section 6,
    "set-polygon-mode"), as the pair of the front and the back face style;
    a glPolygonMode call replaces the style of the faces it names. *)
Definition polygon_call (c : GLcall) (pm : Z * Z) : Z * Z :=
  match c with
  | GlPolygonMode face mode =>
      if face =? GL_FRONT then (mode, pm.2)
      else if face =? GL_BACK then (pm.1, mode)
      else if face =? GL_FRONT_AND_BACK then (mode, mode)
      else pm
  | _ => pm
  end.

Definition polygon_after (t : list GLcall) (pm : Z * Z) : Z * Z :=
  foldl (fun pm c => polygon_call c pm) pm t.

(** The entry points of the layer, as the dispatch layer calls them. *)
Inductive Op : Type :=
| OpBindBuffer (target buffer : Z)
| OpFrontFace (mode : Z)
| OpPolygonMode (f m : Z)
| OpShadeModel (mode : Z)
| OpProvokingVertex (mode : Z)
| OpCullFace (face : Z)
| OpEnable (cap : Z)
| OpDisable (cap : Z)
| OpDrawArrays (mode first count : Z).

Definition run_op (op : Op) : Emu unit :=
  match op with
  | OpBindBuffer target buffer => glBindBuffer target buffer
  | OpFrontFace mode => glFrontFace mode
  | OpPolygonMode f m => glPolygonMode f m
  | OpShadeModel mode => glShadeModel mode
  | OpProvokingVertex mode => glProvokingVertex mode
  | OpCullFace face => glCullFace face
  | OpEnable cap => glEnable cap
  | OpDisable cap => glDisable cap
  | OpDrawArrays mode first count => glDrawArrays mode first count ;; Emu_ret tt
  end.

Fixpoint run_ops (ops : list Op) : Emu unit :=
  match ops with
  | [] => Emu_ret tt
  | op :: ops => run_op op ;; run_ops ops
  end.

(** The values the setters accept. *)
Definition enums_valid (q : Quads) : Prop :=
  (windingMode q = GL_CW \/ windingMode q = GL_CCW)
  /\ (shadeMode q = GL_SMOOTH \/ shadeMode q = GL_FLAT)
  /\ (provokeMode q = GL_FIRST_VERTEX_CONVENTION
      \/ provokeMode q = GL_LAST_VERTEX_CONVENTION)
  /\ (cullFace q = GL_FRONT \/ cullFace q = GL_BACK \/ cullFace q = GL_FRONT_AND_BACK).

Definition style_valid (m : Z) : Prop := m = GL_FILL \/ m = GL_LINE \/ m = GL_POINT.

(** The glPolygonMode calls among [ops] pass a style that OpenGL knows. *)
Definition styles_valid (ops : list Op) : Prop :=
  Forall (fun op => match op with OpPolygonMode _ m => style_valid m | _ => True end) ops.

(** The number of indices of each draw, in order. *)
Definition submission_sizes (subs : list Submission) : list Z :=
  (fun sub => Z.of_nat (length (submission_indices sub))) <$> subs.

(** What a chunked draw comes to, from the loops of [glDrawArrays]: the
    quads ([myCount / 4]) or strip steps ([myCount / 2 - 1]) it covers,
    and the number of passes of the loop, each pass taking at most
    EMU_QUADS_BUFFER_SIZE of them and a strip going through one last pass
    of zero steps when its steps are a multiple of that size. *)
Definition primitives (mode count : Z) : Z :=
  if mode =? GL_QUADS then count `div` 4 else count `div` 2 - 1.

Definition passes (mode count : Z) : Z :=
  if mode =? GL_QUADS then (count `div` 4 - 1) `div` EMU_QUADS_BUFFER_SIZE + 1
  else (count `div` 2 - 1) `div` EMU_QUADS_BUFFER_SIZE + 1.

(** The quads or steps of pass [j]. *)
Definition pass_primitives (mode count j : Z) : Z :=
  Z.min (primitives mode count - EMU_QUADS_BUFFER_SIZE * j) EMU_QUADS_BUFFER_SIZE.

(** * Properties *)

(** ** Index arrays: stores, fill loops and the in-place shift *)

Lemma length_store (vals : list Z) (base : nat) (a : list Z) :
  length (store base vals a) = length a.
Proof.
  revert base a. induction vals as [|x vs IH]; intros base a; simpl; [done|].
  by rewrite IH, length_insert.
Qed.

Lemma store_take_drop (vals : list Z) (base : nat) (a : list Z) :
  (base + length vals <= length a)%nat ->
  store base vals a = take base a ++ (u32 <$> vals) ++ drop (base + length vals) a.
Proof.
  revert base a. induction vals as [|x vs IH]; intros base a Hlen; simpl in *.
  - by rewrite Nat.add_0_r, take_drop.
  - rewrite IH by (rewrite length_insert; lia).
    rewrite (take_S_r _ _ (u32 x))
      by (apply list_lookup_insert_eq; lia).
    rewrite take_insert_ge by lia.
    rewrite drop_insert_lt by lia.
    rewrite <- app_assoc. simpl.
    by replace (base + S (length vs))%nat with (S (base + length vs)) by lia.
Qed.

Lemma length_for_ii_store (pos : Z -> Z) (pat : Z -> list Z) (n : Z) (a : list Z) :
  length (for_ii n (fun ii => store_at (pos ii) (pat ii)) a) = length a.
Proof.
  unfold for_ii. generalize (seqZ 0 n). intros l. revert a.
  induction l as [|i l IH]; intros a; simpl; [done|].
  rewrite IH. apply length_store.
Qed.

(** A fill loop that writes [W] cells per iteration, starting at cell [B],
    leaves the array as: the first [B] cells, then the patterns of
    iterations 0 .. n-1, then the cells the loop did not reach. *)
Lemma for_ii_store (B W : nat) (pos : Z -> Z) (pat : Z -> list Z) (n : Z) (a : list Z) :
  (forall ii, 0 <= ii -> pos ii = Z.of_nat B + Z.of_nat W * ii) ->
  (forall ii, length (pat ii) = W) ->
  0 <= n ->
  (B + W * Z.to_nat n <= length a)%nat ->
  for_ii n (fun ii => store_at (pos ii) (pat ii)) a
  = take B a ++ concat ((fun ii => u32 <$> pat ii) <$> seqZ 0 n)
      ++ drop (B + W * Z.to_nat n) a.
Proof.
  intros Hpos Hpat Hn.
  assert (Hk : n = Z.of_nat (Z.to_nat n)) by lia.
  revert Hk. generalize (Z.to_nat n). intros k ->. clear Hn.
  induction k as [|k IH]; intros Hlen.
  - unfold for_ii. simpl. by rewrite Nat.mul_0_r, Nat.add_0_r, take_drop.
  - unfold for_ii in *. rewrite seqZ_S, foldl_app. simpl.
    rewrite IH by lia. unfold store_at.
    rewrite Hpos by lia.
    replace (Z.to_nat (Z.of_nat B + Z.of_nat W * (0 + Z.of_nat k)))
      with (B + W * k)%nat by lia.
    set (body := concat ((fun ii => u32 <$> pat ii) <$> seqZ 0 (Z.of_nat k))).
    assert (Hbody : length body = (W * k)%nat).
    { unfold body. clear -Hpat. induction k as [|k IHk]; [done|].
      rewrite seqZ_S, fmap_app, concat_app, length_app, IHk. simpl.
      rewrite length_app, length_fmap, Hpat. simpl. lia. }
    assert (HB : length (take B a) = B) by (rewrite length_take; lia).
    rewrite store_take_drop.
    2:{ rewrite !length_app, HB, Hbody, length_drop, Hpat. lia. }
    rewrite Hpat, fmap_app, concat_app. simpl. rewrite app_nil_r.
    fold body.
    replace (take (B + W * k) (take B a ++ body ++ drop (B + W * k) a))
      with (take B a ++ body).
    2:{ rewrite app_assoc. symmetry. apply take_app_length'.
        rewrite length_app, HB, Hbody. done. }
    rewrite <- !app_assoc. do 3 f_equal.
    rewrite app_assoc.
    rewrite drop_app_ge by (rewrite length_app, HB, Hbody; lia).
    rewrite length_app, HB, Hbody, drop_drop. f_equal. lia.
Qed.

Lemma length_advance (k d : Z) (a : list Z) : length (advance k d a) = length a.
Proof.
  unfold advance. generalize (seqZ 0 k). intros l. revert a.
  induction l as [|i l IH]; intros a; simpl; [done|].
  by rewrite IH, length_alter.
Qed.

(** The shift loop adds [d] to the first [k] cells and leaves the rest. *)
Lemma advance_take_drop (k d : Z) (a : list Z) :
  0 <= k -> (Z.to_nat k <= length a)%nat ->
  advance k d a
  = ((fun x => u32 (x + d)) <$> take (Z.to_nat k) a) ++ drop (Z.to_nat k) a.
Proof.
  intros Hk.
  assert (Hk' : k = Z.of_nat (Z.to_nat k)) by lia.
  revert Hk'. generalize (Z.to_nat k). intros k' ->. clear Hk. rename k' into k.
  induction k as [|k IH]; intros Hlen.
  - unfold advance. simpl. by rewrite drop_0.
  - unfold advance in *. rewrite seqZ_S, foldl_app. simpl.
    rewrite IH by lia. rewrite Z.add_0_l, Nat2Z.id.
    destruct (lookup_lt_is_Some_2 a k) as [x Hx]; [lia|].
    rewrite (take_S_r _ _ x) by done.
    rewrite (drop_S _ x k) by done.
    rewrite alter_app_r_alt by (rewrite length_fmap, length_take; lia).
    rewrite length_fmap, length_take.
    replace (k - k `min` length a)%nat with 0%nat by lia. simpl.
    by rewrite fmap_app, <- app_assoc.
Qed.

Lemma take_advance (k d : Z) (a : list Z) :
  0 <= k -> (Z.to_nat k <= length a)%nat ->
  take (Z.to_nat k) (advance k d a) = (fun x => u32 (x + d)) <$> take (Z.to_nat k) a.
Proof.
  intros Hk Hlen. rewrite advance_take_drop by done.
  apply take_app_length'. rewrite length_fmap, length_take. lia.
Qed.

(** ** Running methods *)

Lemma Emu_bind_runs {A B} (k : A -> Emu B) (m : Emu A) q a q1 t1 b q2 t2 :
  m q = Some (a, q1, t1) -> k a q1 = Some (b, q2, t2) ->
  Emu_bind k m q = Some (b, q2, t1 ++ t2).
Proof. intros H1 H2. unfold Emu_bind. by rewrite H1, H2. Qed.

Lemma u32_add_l (x d : Z) : u32 (u32 x + d) = u32 (x + d).
Proof. unfold u32. apply Zplus_mod_idemp_l. Qed.

Lemma u32_small (x : Z) : 0 <= x < 2 ^ 32 -> u32 x = x.
Proof. apply Z.mod_small. Qed.

(** ** The chunk loops *)

Section ChunkLoopRun.
Variable v : Z.
Variable next_n : Z -> Z.
Variable len : Z -> Z.
Variable submit : Z -> list Z -> Emu unit.
Variable out : Z -> list Z -> list GLcall.
Hypothesis v_pos : 0 < v.
Hypothesis submit_out : forall n a q, submit n a q = Some (tt, q, out n a).

Lemma chunks_done fuel c n a : c < v -> chunks v next_n len fuel c n a = [].
Proof.
  intros Hc. apply Z.ltb_lt in Hc. destruct fuel; simpl; by rewrite Hc.
Qed.

(** With enough iterations allowed the loop reaches its exit test, leaves
    the object alone, and has made the calls of its chunks, in order. *)
Lemma chunk_loop_runs fuel c n a q :
  c < v + Z.of_nat fuel * (EMU_QUADS_BUFFER_SIZE * v) ->
  chunk_loop v next_n len submit fuel c n a q
  = Some (tt, q, concat ((fun p => out p.1 p.2) <$> chunks v next_n len fuel c n a)).
Proof.
  unfold EMU_QUADS_BUFFER_SIZE.
  revert c n a. induction fuel as [|fuel IH]; intros c n a Hfuel.
  - simpl. destruct (c <? v) eqn:E; [done|]. apply Z.ltb_ge in E. lia.
  - simpl. destruct (c <? v) eqn:E; [done|].
    eapply Emu_bind_runs; [apply submit_out|].
    unfold EMU_QUADS_BUFFER_SIZE.
    destruct (c - 1024 * v >=? v); apply IH; lia.
Qed.

(** No chunk is submitted when the loop is entered below its threshold;
    otherwise the first chunk is the array it was entered with. *)
Lemma chunks_first fuel c n a :
  v <= c -> c < v + Z.of_nat fuel * (EMU_QUADS_BUFFER_SIZE * v) ->
  exists rest, chunks v next_n len fuel c n a = (n, a) :: rest.
Proof.
  unfold EMU_QUADS_BUFFER_SIZE. intros Hc Hfuel.
  destruct fuel as [|fuel]; [lia|]. simpl.
  destruct (c <? v) eqn:E; [apply Z.ltb_lt in E; lia|]. eauto.
Qed.

(** Iterations allowed beyond the exit of the loop change nothing. *)
Lemma chunks_fuel fuel1 fuel2 c n a :
  c < v + Z.of_nat fuel1 * (EMU_QUADS_BUFFER_SIZE * v) ->
  c < v + Z.of_nat fuel2 * (EMU_QUADS_BUFFER_SIZE * v) ->
  chunks v next_n len fuel1 c n a = chunks v next_n len fuel2 c n a.
Proof.
  unfold EMU_QUADS_BUFFER_SIZE.
  revert fuel2 c n a. induction fuel1 as [|fuel1 IH]; intros fuel2 c n a H1 H2.
  - rewrite !chunks_done by lia. done.
  - destruct (Z.ltb_spec c v) as [Hc|Hc]; [by rewrite !chunks_done by lia|].
    destruct fuel2 as [|fuel2]; [lia|]. simpl.
    destruct (c <? v); [done|]. f_equal. unfold EMU_QUADS_BUFFER_SIZE.
    destruct (c - 1024 * v >=? v); apply IH; lia.
Qed.

(** *** The contents of the chunks

    [image o n] is what the first [len n] cells of the array are to hold
    when a chunk of [n] primitives starts at primitive [o]. *)
Variable image : Z -> Z -> list Z.
Hypothesis len_nonneg : forall n, 0 <= n -> 0 <= len n.
Hypothesis len_mono : forall n n', 0 <= n' <= n -> len n' <= len n.
Hypothesis image_shift : forall o n n',
  0 <= n' <= n ->
  (fun x => u32 (x + 1024 * v)) <$> take (Z.to_nat (len n')) (image o n)
  = image (o + 1024) n'.
Hypothesis next_n_step : forall c,
  v <= c - 1024 * v -> 0 <= next_n (c - 1024 * v) <= next_n c.

Lemma chunks_image fuel c a o :
  v <= c -> c < v + Z.of_nat fuel * (EMU_QUADS_BUFFER_SIZE * v) ->
  (Z.to_nat (len (next_n c)) <= length a)%nat ->
  take (Z.to_nat (len (next_n c))) a = image o (next_n c) ->
  (fun p => (p.1, take (Z.to_nat (len p.1)) p.2))
    <$> chunks v next_n len fuel c (next_n c) a
  = (fun j => (next_n (c - 1024 * v * j),
               image (o + 1024 * j) (next_n (c - 1024 * v * j))))
      <$> seqZ 0 ((c - v) `div` (1024 * v) + 1).
Proof.
  unfold EMU_QUADS_BUFFER_SIZE.
  revert c a o. induction fuel as [|fuel IH]; intros c a o Hc Hfuel Hlen Himg;
    [lia|].
  simpl. destruct (c <? v) eqn:E; [apply Z.ltb_lt in E; lia|]. clear E.
  unfold EMU_QUADS_BUFFER_SIZE.
  destruct (c - 1024 * v >=? v) eqn:E.
  - rewrite Z.geb_leb in E. apply Z.leb_le in E.
    pose proof (next_n_step c E) as Hn.
    pose proof (len_nonneg _ (proj1 Hn)) as Hl0.
    pose proof (len_mono _ _ Hn) as Hl1.
    assert (HJ : (c - v) `div` (1024 * v) = (c - 1024 * v - v) `div` (1024 * v) + 1).
    { replace (c - v) with ((c - 1024 * v - v) + 1 * (1024 * v)) by lia.
      apply Z.div_add. lia. }
    assert (0 <= (c - 1024 * v - v) `div` (1024 * v))
      by (apply Z.div_pos; lia).
    rewrite seqZ_cons by lia. simpl.
    rewrite Z.mul_0_r, Z.sub_0_r, Z.add_0_r, Himg. f_equal.
    rewrite (IH _ _ (o + 1024)); try lia.
    + replace (Z.pred ((c - v) `div` (1024 * v) + 1))
        with ((c - 1024 * v - v) `div` (1024 * v) + 1) by lia.
      change (Z.succ 0) with 1.
      rewrite <- (fmap_add_seqZ 1 0), <- list_fmap_compose.
      apply list_fmap_ext. intros _ j _. simpl.
      f_equal; [f_equal|f_equal; [|f_equal]]; lia.
    + rewrite length_advance. lia.
    + rewrite take_advance by lia.
      rewrite <- (image_shift o (next_n c)) by lia.
      rewrite <- Himg, take_take. do 2 f_equal. lia.
  - rewrite Z.geb_leb in E. apply Z.leb_gt in E.
    rewrite chunks_done by lia.
    rewrite Z.div_small by lia. simpl. unfold seqZ. simpl.
    by rewrite Z.mul_0_r, Z.sub_0_r, Z.add_0_r, Himg.
Qed.
End ChunkLoopRun.

(** ** Arithmetic of the counts *)

Ltac lia_div := Z.to_euclidean_division_equations; lia.

Lemma mask_count_quads (count : Z) :
  0 <= count -> mask_count GL_QUADS count = 4 * (count `div` 4).
Proof.
  intros H. unfold mask_count. simpl. change 3 with (Z.ones 2).
  rewrite <- Z.ldiff_land, Z.ldiff_ones_r by lia.
  rewrite Z.shiftr_div_pow2, Z.shiftl_mul_pow2 by lia. change (2 ^ 2) with 4. lia.
Qed.

Lemma mask_count_strip (count : Z) :
  0 <= count -> mask_count GL_QUAD_STRIP count = 2 * (count `div` 2).
Proof.
  intros H. unfold mask_count. simpl. change 1 with (Z.ones 1).
  rewrite <- Z.ldiff_land, Z.ldiff_ones_r by lia.
  rewrite Z.shiftr_div_pow2, Z.shiftl_mul_pow2 by lia. change (2 ^ 1) with 2. lia.
Qed.

Lemma quads_n_min (c : Z) : 0 <= c -> quads_n c = Z.min (c `div` 4) 1024.
Proof.
  intros H. unfold quads_n, EMU_QUADS_BUFFER_SIZE.
  rewrite Z.quot_div_nonneg by lia.
  destruct (Z.ltb_spec (c `div` 4) 1024); lia.
Qed.

Lemma strip_n_min (c : Z) : 0 <= c -> strip_n c = Z.min (c `div` 2 - 1) 1024.
Proof.
  intros H. unfold strip_n, EMU_QUADS_BUFFER_SIZE.
  rewrite Z.quot_div_nonneg by lia.
  destruct (Z.ltb_spec (c `div` 2 - 1) 1024); lia.
Qed.

Lemma quads_n_step (c : Z) :
  4 <= c - 1024 * 4 -> 0 <= quads_n (c - 1024 * 4) <= quads_n c.
Proof. intros H. rewrite !quads_n_min by lia. lia_div. Qed.

Lemma strip_n_step (c : Z) :
  2 <= c - 1024 * 2 -> 0 <= strip_n (c - 1024 * 2) <= strip_n c.
Proof. intros H. rewrite !strip_n_min by lia. lia_div. Qed.

Lemma chunk_bound_quads (count : Z) :
  0 <= count ->
  mask_count GL_QUADS count
  < 4 + Z.of_nat (chunk_bound count) * (EMU_QUADS_BUFFER_SIZE * 4).
Proof.
  intros H. rewrite mask_count_quads by done.
  unfold chunk_bound, EMU_QUADS_BUFFER_SIZE.
  rewrite Z.quot_div_nonneg by lia. rewrite Z2Nat.id by lia_div. lia_div.
Qed.

Lemma chunk_bound_strip (count : Z) :
  0 <= count ->
  mask_count GL_QUAD_STRIP count
  < 2 + Z.of_nat (chunk_bound count) * (EMU_QUADS_BUFFER_SIZE * 2).
Proof.
  intros H. rewrite mask_count_strip by done.
  unfold chunk_bound, EMU_QUADS_BUFFER_SIZE.
  rewrite Z.quot_div_nonneg by lia. rewrite Z2Nat.id by lia_div. lia_div.
Qed.

(** ** Runs of a pattern *)

Section PatternRun.
Variable W : nat.
Variable pat : Z -> list Z.
Hypothesis length_pat : forall ii, length (pat ii) = W.

Lemma length_pattern_run o n :
  0 <= n -> length (pattern_run pat o n) = (W * Z.to_nat n)%nat.
Proof.
  intros Hn. assert (Hk : n = Z.of_nat (Z.to_nat n)) by lia.
  revert Hk. generalize (Z.to_nat n). intros k ->. clear Hn.
  unfold pattern_run.
  induction k as [|k IH]; [done|].
  rewrite seqZ_S, fmap_app, concat_app, length_app, IH. simpl.
  rewrite length_app, length_fmap, length_pat. simpl. lia.
Qed.

Lemma pattern_run_app o n1 n2 :
  0 <= n1 -> 0 <= n2 ->
  pattern_run pat o (n1 + n2) = pattern_run pat o n1 ++ pattern_run pat (o + n1) n2.
Proof.
  intros H1 H2. unfold pattern_run.
  by rewrite seqZ_app, fmap_app, concat_app by done.
Qed.

Lemma take_pattern_run o n n' :
  0 <= n' <= n ->
  take (W * Z.to_nat n') (pattern_run pat o n) = pattern_run pat o n'.
Proof.
  intros H. replace n with (n' + (n - n')) by lia.
  rewrite pattern_run_app by lia.
  apply take_app_length'. rewrite length_pattern_run; lia.
Qed.

(** Adding [d] to a run gives the run [k] primitives further on, when
    that is so for each single pattern. *)
Lemma shift_pattern_run d k o n :
  (forall ii, (fun x => u32 (x + d)) <$> (u32 <$> pat ii) = u32 <$> pat (ii + k)) ->
  (fun x => u32 (x + d)) <$> pattern_run pat o n = pattern_run pat (o + k) n.
Proof.
  intros Hshift. unfold pattern_run.
  rewrite <- (Z.add_comm k), <- fmap_add_seqZ, <- list_fmap_compose.
  generalize (seqZ o n). intros l.
  induction l as [|i l IH]; [done|]. csimpl.
  rewrite fmap_app, IH, Hshift. by rewrite (Z.add_comm k).
Qed.
End PatternRun.

(** ** glDrawArrays: result, object and calls *)

Lemma draw_triangles_runs fuel q mode first count :
  0 <= count -> (chunk_bound count <= fuel)%nat ->
  draw_triangles fuel mode first count q
  = Some (tt, q, triangles_trace q mode first count).
Proof.
  intros Hc Hfuel. unfold draw_triangles, triangles_trace, force, restore.
  unfold strip_tri_chunks, quads_tri_chunks.
  pose proof (chunk_bound_strip count Hc) as Hs.
  pose proof (chunk_bound_quads count Hc) as Hq.
  unfold EMU_QUADS_BUFFER_SIZE in Hs, Hq.
  unfold Emu_bind, member, when, call, Emu_ret, id.
  destruct (negb (frontFaceMode q =? GL_FILL) || negb (backFaceMode q =? GL_FILL));
    destruct (mode =? GL_QUAD_STRIP) eqn:Es.
  all: try (apply Z.eqb_eq in Es; subst mode;
            rewrite (chunk_loop_runs 2 strip_n _ _ triangles_calls),
              (chunks_fuel 2 strip_n _ fuel (chunk_bound count))
              by (done || unfold EMU_QUADS_BUFFER_SIZE; lia)).
  all: try (destruct (mode =? GL_QUADS) eqn:Eq;
            [apply Z.eqb_eq in Eq; subst mode;
             rewrite (chunk_loop_runs 4 quads_n _ _ triangles_calls),
               (chunks_fuel 4 quads_n _ fuel (chunk_bound count))
               by (done || unfold EMU_QUADS_BUFFER_SIZE; lia)|]).
  all: destruct (negb (frontFaceMode q =? GL_FILL));
    destruct (negb (backFaceMode q =? GL_FILL)); simpl;
    rewrite ?app_nil_r, <- ?app_assoc; reflexivity.
Qed.

Lemma draw_lines_runs fuel q mode first count :
  0 <= count -> (chunk_bound count <= fuel)%nat ->
  draw_lines fuel mode first count q
  = Some (tt, q, lines_trace q mode first count).
Proof.
  intros Hc Hfuel. unfold draw_lines, lines_trace, force, restore.
  unfold strip_line_chunks, quads_line_chunks.
  pose proof (chunk_bound_strip count Hc) as Hs.
  pose proof (chunk_bound_quads count Hc) as Hq.
  unfold EMU_QUADS_BUFFER_SIZE in Hs, Hq.
  unfold Emu_bind, member, when, call, Emu_ret, id.
  destruct (negb (frontFaceMode q =? GL_LINE) || negb (backFaceMode q =? GL_LINE));
    destruct (mode =? GL_QUAD_STRIP) eqn:Es.
  all: try (apply Z.eqb_eq in Es; subst mode;
            rewrite (chunk_loop_runs 2 strip_n _ _
                       (fun n => lines_calls (n * 6 + 2))),
              (chunks_fuel 2 strip_n _ fuel (chunk_bound count))
              by (done || unfold EMU_QUADS_BUFFER_SIZE; lia)).
  all: try (destruct (mode =? GL_QUADS) eqn:Eq;
            [apply Z.eqb_eq in Eq; subst mode;
             rewrite (chunk_loop_runs 4 quads_n _ _
                        (fun n => lines_calls (n * 8))),
               (chunks_fuel 4 quads_n _ fuel (chunk_bound count))
               by (done || unfold EMU_QUADS_BUFFER_SIZE; lia)|]).
  all: destruct (negb (frontFaceMode q =? GL_LINE));
    destruct (negb (backFaceMode q =? GL_LINE)); simpl;
    rewrite ?app_nil_r, <- ?app_assoc; reflexivity.
Qed.

Lemma draw_points_runs q mode first count :
  draw_points mode first count q = Some (tt, q, points_trace q mode first count).
Proof.
  unfold draw_points, points_trace, force, restore.
  unfold Emu_bind, member, when, call, Emu_ret.
  destruct (negb (frontFaceMode q =? GL_POINT) || negb (backFaceMode q =? GL_POINT));
    destruct (negb (frontFaceMode q =? GL_POINT));
    destruct (negb (backFaceMode q =? GL_POINT)); reflexivity.
Qed.

(** With [chunk_bound count] iterations or more allowed to its loops,
    glDrawArrays returns, with the object as it found it; its result and
    its calls are those of [glDrawArrays_result]. *)
Lemma glDrawArrays_fuel_runs fuel q mode first count :
  (chunk_bound count <= fuel)%nat ->
  glDrawArrays_fuel fuel mode first count q
  = Some ((glDrawArrays_result q mode first count).1, q,
          (glDrawArrays_result q mode first count).2).
Proof.
  intros Hfuel. unfold glDrawArrays_fuel, glDrawArrays_result.
  destruct (negb (mode =? GL_QUADS) && negb (mode =? GL_QUAD_STRIP)); [done|].
  destruct (Z.ltb_spec count 0); [done|].
  destruct (count <? 4); [done|].
  unfold Emu_bind at 1. unfold member at 1. unfold id.
  destruct (cullingFaces q && (cullFace q =? GL_FRONT_AND_BACK)); [done|].
  destruct (draw_flags q) as [[[dq dl] dp]|]; [|done].
  unfold Emu_bind.
  destruct dq; [rewrite draw_triangles_runs by done; simpl; by rewrite app_nil_r|].
  destruct dl; [rewrite draw_lines_runs by done; simpl; by rewrite app_nil_r|].
  destruct dp; [rewrite draw_points_runs; simpl; by rewrite app_nil_r|done].
Qed.

Lemma glDrawArrays_runs q mode first count :
  glDrawArrays mode first count q
  = Some ((glDrawArrays_result q mode first count).1, q,
          (glDrawArrays_result q mode first count).2).
Proof. unfold glDrawArrays. apply glDrawArrays_fuel_runs. lia. Qed.

(** ** What reaches the backend *)

Lemma backend_run_app t1 t2 s :
  backend_run (t1 ++ t2) s
  = ((backend_run t2 (backend_run t1 s).1).1,
     (backend_run t1 s).2 ++ (backend_run t2 (backend_run t1 s).1).2).
Proof.
  revert s. induction t1 as [|c t1 IH]; intros s; simpl.
  - by destruct (backend_run t2 s).
  - destruct (backend_call c s) as [s1 o1]. rewrite IH.
    destruct (backend_run t1 s1) as [s2 o2]. simpl.
    destruct (backend_run t2 s2) as [s3 o3]. simpl. by rewrite app_assoc.
Qed.

Lemma backend_run_force q style s : backend_run (force q style) s = (s, []).
Proof. unfold force. by destruct (_ || _). Qed.

Lemma backend_run_restore q style s : backend_run (restore q style) s = (s, []).
Proof.
  unfold restore.
  by destruct (negb (frontFaceMode q =? style)), (negb (backFaceMode q =? style)).
Qed.

(** The chunks of a triangle loop are drawn from the bound buffer, each
    right after its upload: the draw reads the indices just uploaded. *)
Lemma backend_run_triangles (cs : list (Z * list Z)) s :
  (backend_run (concat ((fun p => triangles_calls p.1 p.2) <$> cs)) s).2
  = (fun p => Indexed GL_TRIANGLES (take (Z.to_nat (p.1 * 6)) p.2)) <$> cs
  /\ element_binding
       (backend_run (concat ((fun p => triangles_calls p.1 p.2) <$> cs)) s).1
     = element_binding s.
Proof.
  revert s. induction cs as [|[n a] cs IH]; intros s; [done|].
  csimpl.
  set (s1 := mkBackend _ _).
  destruct (IH s1) as [IH1 IH2].
  destruct (backend_run _ s1) as [s2 o2]. simpl in *. subst o2. split; [|done].
  f_equal. rewrite Z.eqb_refl. f_equal.
  change (Z.to_nat (0 `quot` sizeof_GLuint)) with 0%nat.
  rewrite drop_0, take_take. f_equal. lia.
Qed.

Lemma backend_run_lines (len : Z -> Z) (cs : list (Z * list Z)) s :
  backend_run (concat ((fun p => lines_calls (len p.1) p.2) <$> cs)) s
  = (s, (fun p => Indexed GL_LINES (take (Z.to_nat (len p.1)) p.2)) <$> cs).
Proof.
  induction cs as [|[n a] cs IH]; [done|].
  csimpl. rewrite IH. simpl. do 3 f_equal. rewrite take_take. f_equal. lia.
Qed.

Lemma backend_run_wrapped q style body s :
  backend_run (force q style ++ body ++ restore q style) s = backend_run body s.
Proof.
  rewrite backend_run_app, backend_run_force. simpl.
  rewrite backend_run_app, backend_run_restore. simpl.
  rewrite app_nil_r. by destruct (backend_run body s).
Qed.

(** Binding the scratch buffer, drawing the chunks, binding [saved]. *)
Lemma backend_run_scratch scratch saved (cs : list (Z * list Z)) s :
  (backend_run
     (GlBindBuffer GL_ELEMENT_ARRAY_BUFFER scratch
      :: concat ((fun p => triangles_calls p.1 p.2) <$> cs)
      ++ [GlBindBuffer GL_ELEMENT_ARRAY_BUFFER saved]) s).2
  = (fun p => Indexed GL_TRIANGLES (take (Z.to_nat (p.1 * 6)) p.2)) <$> cs
  /\ element_binding
       (backend_run
          (GlBindBuffer GL_ELEMENT_ARRAY_BUFFER scratch
           :: concat ((fun p => triangles_calls p.1 p.2) <$> cs)
           ++ [GlBindBuffer GL_ELEMENT_ARRAY_BUFFER saved]) s).1
     = saved.
Proof.
  change (GlBindBuffer GL_ELEMENT_ARRAY_BUFFER scratch :: ?l)
    with ([GlBindBuffer GL_ELEMENT_ARRAY_BUFFER scratch] ++ l).
  rewrite !backend_run_app. simpl.
  by rewrite (proj1 (backend_run_triangles _ _)), app_nil_r.
Qed.

Lemma submissions_triangles_quads q first count s :
  submissions (triangles_trace q GL_QUADS first count) s
  = (fun p => Indexed GL_TRIANGLES (take (Z.to_nat (p.1 * 6)) p.2))
      <$> quads_tri_chunks q first count.
Proof.
  unfold submissions, triangles_trace. rewrite backend_run_wrapped.
  apply backend_run_scratch.
Qed.

Lemma submissions_triangles_strip q first count s :
  submissions (triangles_trace q GL_QUAD_STRIP first count) s
  = (fun p => Indexed GL_TRIANGLES (take (Z.to_nat (p.1 * 6)) p.2))
      <$> strip_tri_chunks q first count.
Proof.
  unfold submissions, triangles_trace. rewrite backend_run_wrapped.
  apply backend_run_scratch.
Qed.

Lemma submissions_lines_strip q first count s :
  submissions (lines_trace q GL_QUAD_STRIP first count) s
  = (fun p => Indexed GL_LINES (take (Z.to_nat (p.1 * 6 + 2)) p.2))
      <$> strip_line_chunks q first count.
Proof.
  unfold submissions, lines_trace. rewrite backend_run_wrapped.
  change (GL_QUAD_STRIP =? GL_QUAD_STRIP) with true. cbv iota.
  by rewrite (backend_run_lines (fun n => n * 6 + 2)).
Qed.

Lemma submissions_lines_quads q first count s :
  submissions (lines_trace q GL_QUADS first count) s
  = (fun p => Indexed GL_LINES (take (Z.to_nat (p.1 * 8)) p.2))
      <$> quads_line_chunks q first count.
Proof.
  unfold submissions, lines_trace. rewrite backend_run_wrapped.
  change (GL_QUADS =? GL_QUAD_STRIP) with false.
  change (GL_QUADS =? GL_QUADS) with true. cbv iota.
  by rewrite (backend_run_lines (fun n => n * 8)).
Qed.

Lemma submissions_points q mode first count s :
  submissions (points_trace q mode first count) s
  = [Arrays GL_POINTS first (mask_count mode count)].
Proof. unfold submissions, points_trace. by rewrite backend_run_wrapped. Qed.

Lemma binding_after_triangles q mode first count s :
  mode = GL_QUADS \/ mode = GL_QUAD_STRIP ->
  binding_after (triangles_trace q mode first count) s = elementArrayBuffer q.
Proof.
  intros Hmode. unfold binding_after, triangles_trace.
  rewrite backend_run_wrapped.
  destruct Hmode as [-> | ->]; apply backend_run_scratch.
Qed.

Lemma binding_after_lines q mode first count s :
  binding_after (lines_trace q mode first count) s = element_binding s.
Proof.
  unfold binding_after, lines_trace. rewrite backend_run_wrapped.
  destruct (mode =? GL_QUAD_STRIP).
  - by rewrite (backend_run_lines (fun n => n * 6 + 2)).
  - destruct (mode =? GL_QUADS); [|done].
    by rewrite (backend_run_lines (fun n => n * 8)).
Qed.

Lemma binding_after_points q mode first count s :
  binding_after (points_trace q mode first count) s = element_binding s.
Proof. unfold binding_after, points_trace. by rewrite backend_run_wrapped. Qed.

(** ** The index arrays after the fill loops *)

Lemma length_local_array size : 0 <= size -> length (local_array size) = Z.to_nat size.
Proof. intros _. apply length_replicate. Qed.

Lemma take_for_ii_store (W : nat) (pat : Z -> list Z) (n : Z) (a : list Z) :
  (forall ii, length (pat ii) = W) ->
  0 <= n -> (W * Z.to_nat n <= length a)%nat ->
  take (W * Z.to_nat n) (for_ii n (fun ii => store_at (ii * Z.of_nat W) (pat ii)) a)
  = pattern_run pat 0 n.
Proof.
  intros Hpat Hn Hlen.
  rewrite (for_ii_store 0 W) by (done || lia). simpl.
  apply take_app_length'. fold (pattern_run pat 0 n).
  by rewrite (length_pattern_run W).
Qed.

Lemma length_strip_tri_pattern q first ii : length (strip_tri_pattern q first ii) = 6%nat.
Proof.
  unfold strip_tri_pattern.
  by destruct (negb (shadeMode q =? GL_FLAT)), (last_vertex q).
Qed.

Lemma length_quads_tri_pattern q first ii : length (quads_tri_pattern q first ii) = 6%nat.
Proof.
  unfold quads_tri_pattern.
  by destruct (negb (shadeMode q =? GL_FLAT)), (last_vertex q).
Qed.

Lemma strip_tri_indices_fill q first n :
  strip_tri_indices q first n
  = for_ii n (fun ii => store_at (ii * 6) (strip_tri_pattern q first ii))
      (local_array (EMU_QUADS_BUFFER_SIZE * 6)).
Proof.
  unfold strip_tri_indices, strip_tri_pattern.
  by destruct (negb (shadeMode q =? GL_FLAT)), (last_vertex q).
Qed.

Lemma quads_tri_indices_fill q first n :
  quads_tri_indices q first n
  = for_ii n (fun ii => store_at (ii * 6) (quads_tri_pattern q first ii))
      (local_array (EMU_QUADS_BUFFER_SIZE * 6)).
Proof.
  unfold quads_tri_indices, quads_tri_pattern.
  by destruct (negb (shadeMode q =? GL_FLAT)), (last_vertex q).
Qed.

Lemma length_strip_tri_indices q first n :
  length (strip_tri_indices q first n) = Z.to_nat (EMU_QUADS_BUFFER_SIZE * 6).
Proof.
  rewrite strip_tri_indices_fill, length_for_ii_store. by apply length_local_array.
Qed.

Lemma length_quads_tri_indices q first n :
  length (quads_tri_indices q first n) = Z.to_nat (EMU_QUADS_BUFFER_SIZE * 6).
Proof.
  rewrite quads_tri_indices_fill, length_for_ii_store. by apply length_local_array.
Qed.

Lemma take_strip_tri_indices q first n :
  0 <= n <= 1024 ->
  take (Z.to_nat (n * 6)) (strip_tri_indices q first n)
  = pattern_run (strip_tri_pattern q first) 0 n.
Proof.
  intros Hn. rewrite strip_tri_indices_fill.
  replace (Z.to_nat (n * 6)) with (6 * Z.to_nat n)%nat by lia.
  apply (take_for_ii_store 6); [apply length_strip_tri_pattern|lia|].
  rewrite length_local_array by done. unfold EMU_QUADS_BUFFER_SIZE. lia.
Qed.

Lemma take_quads_tri_indices q first n :
  0 <= n <= 1024 ->
  take (Z.to_nat (n * 6)) (quads_tri_indices q first n)
  = pattern_run (quads_tri_pattern q first) 0 n.
Proof.
  intros Hn. rewrite quads_tri_indices_fill.
  replace (Z.to_nat (n * 6)) with (6 * Z.to_nat n)%nat by lia.
  apply (take_for_ii_store 6); [apply length_quads_tri_pattern|lia|].
  rewrite length_local_array by done. unfold EMU_QUADS_BUFFER_SIZE. lia.
Qed.

Lemma length_strip_line_indices q first n :
  length (strip_line_indices q first n) = Z.to_nat (EMU_QUADS_BUFFER_SIZE * 6 + 2).
Proof.
  unfold strip_line_indices. destruct (flat_first_vertex q).
  - unfold store_at at 1. rewrite length_store, length_for_ii_store.
    by apply length_local_array.
  - rewrite length_for_ii_store. unfold store_at. rewrite length_store.
    by apply length_local_array.
Qed.

(** Outside flat shading with the first-vertex convention, the strip
    outline array starts with the pair [first], [first + 1], followed by
    the edges of each step. *)
Lemma take_strip_line_indices q first n :
  flat_first_vertex q = false -> 0 <= n <= 1024 ->
  take (Z.to_nat (n * 6 + 2)) (strip_line_indices q first n)
  = [u32 (first + 0); u32 (first + 1)] ++ pattern_run (strip_line_other first) 0 n.
Proof.
  intros Hq Hn. unfold strip_line_indices. rewrite Hq.
  rewrite (for_ii_store 2 6); [|intros; lia|done|lia|].
  2:{ unfold store_at. rewrite length_store, length_local_array by done.
      unfold EMU_QUADS_BUFFER_SIZE. lia. }
  fold (pattern_run (strip_line_other first) 0 n).
  unfold store_at at 1. rewrite store_take_drop
    by (rewrite length_local_array by done; cbn [length];
        unfold EMU_QUADS_BUFFER_SIZE; lia).
  simpl take at 2. rewrite app_assoc.
  apply take_app_length'. rewrite length_app, (length_pattern_run 6) by (done || lia).
  simpl. lia.
Qed.

(** ** Shifting a pattern by one chunk *)

Ltac shift_pattern :=
  intros; cbn [fmap list_fmap]; rewrite !u32_add_l;
  repeat (apply (f_equal2 cons); [f_equal; lia|]); reflexivity.

Lemma strip_tri_pattern_shift q first ii :
  (fun x => u32 (x + 1024 * 2)) <$> (u32 <$> strip_tri_pattern q first ii)
  = u32 <$> strip_tri_pattern q first (ii + 1024).
Proof.
  unfold strip_tri_pattern.
  destruct (negb (shadeMode q =? GL_FLAT)), (last_vertex q);
    unfold strip_tri_smooth, strip_tri_flat_last, strip_tri_flat_first; shift_pattern.
Qed.

Lemma quads_tri_pattern_shift q first ii :
  (fun x => u32 (x + 1024 * 4)) <$> (u32 <$> quads_tri_pattern q first ii)
  = u32 <$> quads_tri_pattern q first (ii + 1024).
Proof.
  unfold quads_tri_pattern.
  destruct (negb (shadeMode q =? GL_FLAT)), (last_vertex q);
    unfold quads_tri_smooth, quads_tri_flat_last, quads_tri_flat_first; shift_pattern.
Qed.

Lemma strip_line_other_shift first ii :
  (fun x => u32 (x + 1024 * 2)) <$> (u32 <$> strip_line_other first ii)
  = u32 <$> strip_line_other first (ii + 1024).
Proof. unfold strip_line_other. shift_pattern. Qed.

(** ** The chunks of each loop *)

Lemma fmap_seqZ_ext {A} (f g : Z -> A) (m n : Z) :
  (forall j, m <= j < m + n -> f j = g j) -> f <$> seqZ m n = g <$> seqZ m n.
Proof.
  intros H. apply list_fmap_ext. intros i x Hx.
  apply lookup_seqZ in Hx as [-> Hi]. apply H. lia.
Qed.

(** Quads to triangles: chunk [j] holds the patterns of the quads from
    [1024 * j] on, at most 1024 of them. *)
Lemma quads_tri_chunks_image q first count :
  4 <= count ->
  (fun p => take (Z.to_nat (p.1 * 6)) p.2) <$> quads_tri_chunks q first count
  = (fun j => pattern_run (quads_tri_pattern q first) (1024 * j)
                (Z.min (count `div` 4 - 1024 * j) 1024))
      <$> seqZ 0 ((count `div` 4 - 1) `div` 1024 + 1).
Proof.
  intros Hc. unfold quads_tri_chunks.
  pose proof (mask_count_quads count ltac:(lia)) as Hm.
  set (c := mask_count GL_QUADS count) in *.
  assert (Hc4 : 4 <= c) by (rewrite Hm; lia_div).
  change (fun p : Z * list Z => take (Z.to_nat (p.1 * 6)) p.2)
    with (snd ∘ (fun p : Z * list Z => (p.1, take (Z.to_nat (p.1 * 6)) p.2))).
  rewrite list_fmap_compose.
  rewrite (chunks_image 4 quads_n (fun n => n * 6) ltac:(lia)
             (pattern_run (quads_tri_pattern q first))) with (o := 0).
  - rewrite <- list_fmap_compose.
    replace ((c - 4) `div` (1024 * 4) + 1) with ((count `div` 4 - 1) `div` 1024 + 1)
      by (rewrite Hm; lia_div).
    apply fmap_seqZ_ext. intros j Hj. simpl.
    assert (0 <= c - 1024 * 4 * j) by (rewrite Hm; lia_div).
    rewrite quads_n_min by done. rewrite Hm. f_equal. lia_div.
  - intros; lia.
  - intros; lia.
  - intros o n n' Hn.
    replace (Z.to_nat (n' * 6)) with (6 * Z.to_nat n')%nat by lia.
    rewrite (take_pattern_run 6) by (intros; apply length_quads_tri_pattern || lia).
    apply shift_pattern_run. intros. apply quads_tri_pattern_shift.
  - apply quads_n_step.
  - done.
  - by apply chunk_bound_quads; lia.
  - rewrite length_quads_tri_indices, quads_n_min by lia.
    unfold EMU_QUADS_BUFFER_SIZE. lia.
  - apply take_quads_tri_indices. rewrite quads_n_min by lia. lia_div.
Qed.

(** Strips to triangles: chunk [j] holds the patterns of the strip steps
    from [1024 * j] on, at most 1024 of them. *)
Lemma strip_tri_chunks_image q first count :
  4 <= count ->
  (fun p => take (Z.to_nat (p.1 * 6)) p.2) <$> strip_tri_chunks q first count
  = (fun j => pattern_run (strip_tri_pattern q first) (1024 * j)
                (Z.min (count `div` 2 - 1 - 1024 * j) 1024))
      <$> seqZ 0 ((count `div` 2 - 1) `div` 1024 + 1).
Proof.
  intros Hc. unfold strip_tri_chunks.
  pose proof (mask_count_strip count ltac:(lia)) as Hm.
  set (c := mask_count GL_QUAD_STRIP count) in *.
  assert (Hc4 : 4 <= c) by (rewrite Hm; lia_div).
  change (fun p : Z * list Z => take (Z.to_nat (p.1 * 6)) p.2)
    with (snd ∘ (fun p : Z * list Z => (p.1, take (Z.to_nat (p.1 * 6)) p.2))).
  rewrite list_fmap_compose.
  rewrite (chunks_image 2 strip_n (fun n => n * 6) ltac:(lia)
             (pattern_run (strip_tri_pattern q first))) with (o := 0).
  - rewrite <- list_fmap_compose.
    replace ((c - 2) `div` (1024 * 2) + 1) with ((count `div` 2 - 1) `div` 1024 + 1)
      by (rewrite Hm; lia_div).
    apply fmap_seqZ_ext. intros j Hj. simpl.
    assert (0 <= c - 1024 * 2 * j) by (rewrite Hm; lia_div).
    rewrite strip_n_min by done. rewrite Hm. f_equal. lia_div.
  - intros; lia.
  - intros; lia.
  - intros o n n' Hn.
    replace (Z.to_nat (n' * 6)) with (6 * Z.to_nat n')%nat by lia.
    rewrite (take_pattern_run 6) by (intros; apply length_strip_tri_pattern || lia).
    apply shift_pattern_run. intros. apply strip_tri_pattern_shift.
  - apply strip_n_step.
  - lia.
  - by apply chunk_bound_strip; lia.
  - rewrite length_strip_tri_indices, strip_n_min by lia.
    unfold EMU_QUADS_BUFFER_SIZE. lia.
  - apply take_strip_tri_indices. rewrite strip_n_min by lia. lia_div.
Qed.

(** Strips to outlines, outside flat shading with the first-vertex
    convention: chunk [j] holds the first vertex pair of the chunk, then
    the edges of the strip steps from [1024 * j] on, at most 1024 of
    them, and nothing after them. *)
Lemma strip_line_chunks_image q first count :
  flat_first_vertex q = false ->
  4 <= count ->
  (fun p => take (Z.to_nat (p.1 * 6 + 2)) p.2) <$> strip_line_chunks q first count
  = (fun j => [u32 (first + 2 * (1024 * j)); u32 (first + 2 * (1024 * j) + 1)]
              ++ pattern_run (strip_line_other first) (1024 * j)
                   (Z.min (count `div` 2 - 1 - 1024 * j) 1024))
      <$> seqZ 0 ((count `div` 2 - 1) `div` 1024 + 1).
Proof.
  intros Hq Hc. unfold strip_line_chunks.
  pose proof (mask_count_strip count ltac:(lia)) as Hm.
  set (c := mask_count GL_QUAD_STRIP count) in *.
  assert (Hc4 : 4 <= c) by (rewrite Hm; lia_div).
  change (fun p : Z * list Z => take (Z.to_nat (p.1 * 6 + 2)) p.2)
    with (snd ∘ (fun p : Z * list Z => (p.1, take (Z.to_nat (p.1 * 6 + 2)) p.2))).
  rewrite list_fmap_compose.
  rewrite (chunks_image 2 strip_n (fun n => n * 6 + 2) ltac:(lia)
             (fun o n => [u32 (first + 2 * o); u32 (first + 2 * o + 1)]
                         ++ pattern_run (strip_line_other first) o n))
    with (o := 0).
  - rewrite <- list_fmap_compose.
    replace ((c - 2) `div` (1024 * 2) + 1) with ((count `div` 2 - 1) `div` 1024 + 1)
      by (rewrite Hm; lia_div).
    apply fmap_seqZ_ext. intros j Hj. simpl.
    assert (0 <= c - 1024 * 2 * j) by (rewrite Hm; lia_div).
    rewrite strip_n_min by done. rewrite Hm, Z.add_0_l.
    by replace ((2 * count `div` 2 - 1024 * 2 * j) `div` 2 - 1)
      with (count `div` 2 - 1 - 1024 * j) by lia_div.
  - intros; lia.
  - intros; lia.
  - intros o n n' Hn.
    replace (Z.to_nat (n' * 6 + 2)) with (2 + 6 * Z.to_nat n')%nat by lia.
    rewrite (take_app_add' [_; _]) by done.
    rewrite (take_pattern_run 6) by (done || lia).
    rewrite fmap_app.
    rewrite (shift_pattern_run _ (1024 * 2) 1024)
      by (intros; apply strip_line_other_shift).
    cbn [fmap list_fmap]. rewrite !u32_add_l.
    do 2 f_equal; [f_equal; lia|]. f_equal. f_equal. lia.
  - apply strip_n_step.
  - lia.
  - by apply chunk_bound_strip; lia.
  - rewrite length_strip_line_indices, strip_n_min by lia.
    unfold EMU_QUADS_BUFFER_SIZE. lia.
  - rewrite take_strip_line_indices
      by (done || rewrite strip_n_min by lia; lia_div).
    simpl. do 2 f_equal. by rewrite Z.mul_0_r, Z.add_0_r.
Qed.

(** ** Which branch glDrawArrays takes *)

Ltac enter_draw Hmode Hc :=
  unfold glDrawArrays_result;
  replace (negb (_ =? GL_QUADS) && negb (_ =? GL_QUAD_STRIP)) with false
    by (destruct Hmode as [-> | ->]; done);
  replace (_ <? 0) with false by (symmetry; apply Z.ltb_ge; lia);
  replace (_ <? 4) with false by (symmetry; apply Z.ltb_ge; lia).

Ltac style_test :=
  match goal with
  | |- context [?a =? ?b] =>
      let e := fresh "e" in
      destruct (Z.eqb_spec a b) as [e|e]; [try rewrite e in *|]; simpl in *;
      try reflexivity; try (exfalso; solve [intuition congruence])
  end.

Lemma resolve_triangles q mode first count :
  mode = GL_QUADS \/ mode = GL_QUAD_STRIP -> 4 <= count ->
  In GL_FILL (active_styles q) ->
  glDrawArrays_result q mode first count = (true, triangles_trace q mode first count).
Proof.
  intros Hmode Hc Hin. enter_draw Hmode Hc.
  unfold active_styles, draw_flags in *.
  destruct (cullingFaces q); simpl in *; repeat style_test.
Qed.

Lemma resolve_lines q mode first count :
  mode = GL_QUADS \/ mode = GL_QUAD_STRIP -> 4 <= count ->
  ~ In GL_FILL (active_styles q) -> In GL_LINE (active_styles q) ->
  glDrawArrays_result q mode first count = (true, lines_trace q mode first count).
Proof.
  intros Hmode Hc Hfill Hin. enter_draw Hmode Hc.
  unfold active_styles, draw_flags in *.
  destruct (cullingFaces q); simpl in *; repeat style_test.
Qed.

Lemma resolve_points q mode first count :
  mode = GL_QUADS \/ mode = GL_QUAD_STRIP -> 4 <= count ->
  ~ In GL_FILL (active_styles q) -> ~ In GL_LINE (active_styles q) ->
  In GL_POINT (active_styles q) ->
  glDrawArrays_result q mode first count = (true, points_trace q mode first count).
Proof.
  intros Hmode Hc Hfill Hline Hin. enter_draw Hmode Hc.
  unfold active_styles, draw_flags in *.
  destruct (cullingFaces q); simpl in *; repeat style_test.
Qed.

Lemma resolve_nothing q mode first count :
  ~ In GL_FILL (active_styles q) -> ~ In GL_LINE (active_styles q) ->
  ~ In GL_POINT (active_styles q) ->
  (glDrawArrays_result q mode first count).2 = [].
Proof.
  intros Hfill Hline Hpoint. unfold glDrawArrays_result.
  destruct (_ && _); [done|]. destruct (count <? 0); [done|].
  destruct (count <? 4); [done|].
  unfold active_styles, draw_flags in *.
  destruct (cullingFaces q); simpl in *; repeat style_test.
Qed.

(** A draw of four or more vertices that reaches a chunk loop submits at
    least one chunk. *)
Lemma quads_tri_chunks_first q first count :
  4 <= count -> quads_tri_chunks q first count <> [].
Proof.
  intros Hc. unfold quads_tri_chunks.
  edestruct (chunks_first 4 quads_n (fun n => n * 6)) as [rest ->]; [| |done].
  - rewrite mask_count_quads by lia. lia_div.
  - apply chunk_bound_quads. lia.
Qed.

Lemma strip_tri_chunks_first q first count :
  4 <= count -> strip_tri_chunks q first count <> [].
Proof.
  intros Hc. unfold strip_tri_chunks.
  edestruct (chunks_first 2 strip_n (fun n => n * 6)) as [rest ->]; [| |done].
  - rewrite mask_count_strip by lia. lia_div.
  - apply chunk_bound_strip. lia.
Qed.

Lemma quads_line_chunks_first q first count :
  4 <= count -> quads_line_chunks q first count <> [].
Proof.
  intros Hc. unfold quads_line_chunks.
  edestruct (chunks_first 4 quads_n (fun n => n * 8)) as [rest ->]; [| |done].
  - rewrite mask_count_quads by lia. lia_div.
  - apply chunk_bound_quads. lia.
Qed.

Lemma strip_line_chunks_first q first count :
  4 <= count -> strip_line_chunks q first count <> [].
Proof.
  intros Hc. unfold strip_line_chunks.
  edestruct (chunks_first 2 strip_n (fun n => n * 6 + 2)) as [rest ->]; [| |done].
  - rewrite mask_count_strip by lia. lia_div.
  - apply chunk_bound_strip. lia.
Qed.

Lemma fmap_not_nil {A B} (f : A -> B) (l : list A) : l <> [] -> f <$> l <> [].
Proof. by destruct l. Qed.

Lemma submissions_triangles_kind q mode first count s :
  mode = GL_QUADS \/ mode = GL_QUAD_STRIP -> 4 <= count ->
  submissions (triangles_trace q mode first count) s <> []
  /\ Forall (fun sub => submission_mode sub = GL_TRIANGLES)
       (submissions (triangles_trace q mode first count) s).
Proof.
  intros [-> | ->] Hc.
  - rewrite submissions_triangles_quads. split.
    + by apply fmap_not_nil, quads_tri_chunks_first.
    + apply Forall_fmap, Forall_true. done.
  - rewrite submissions_triangles_strip. split.
    + by apply fmap_not_nil, strip_tri_chunks_first.
    + apply Forall_fmap, Forall_true. done.
Qed.

Lemma submissions_lines_kind q mode first count s :
  mode = GL_QUADS \/ mode = GL_QUAD_STRIP -> 4 <= count ->
  submissions (lines_trace q mode first count) s <> []
  /\ Forall (fun sub => submission_mode sub = GL_LINES)
       (submissions (lines_trace q mode first count) s).
Proof.
  intros [-> | ->] Hc.
  - rewrite submissions_lines_quads. split.
    + by apply fmap_not_nil, quads_line_chunks_first.
    + apply Forall_fmap, Forall_true. done.
  - rewrite submissions_lines_strip. split.
    + by apply fmap_not_nil, strip_line_chunks_first.
    + apply Forall_fmap, Forall_true. done.
Qed.

(** Only the triangle branch binds a buffer. *)
Lemma force_no_bind q style target buffer :
  ~ In (GlBindBuffer target buffer) (force q style).
Proof. unfold force. destruct (_ || _); simpl; intuition discriminate. Qed.

Lemma restore_no_bind q style target buffer :
  ~ In (GlBindBuffer target buffer) (restore q style).
Proof.
  unfold restore.
  destruct (negb (frontFaceMode q =? style)), (negb (backFaceMode q =? style));
    simpl; intuition discriminate.
Qed.

Lemma lines_calls_no_bind (len : Z -> Z) (cs : list (Z * list Z)) target buffer :
  ~ In (GlBindBuffer target buffer)
      (concat ((fun p => lines_calls (len p.1) p.2) <$> cs)).
Proof.
  induction cs as [|[n a] cs IH]; csimpl; [tauto|]. intuition discriminate.
Qed.

Lemma lines_trace_no_bind q mode first count target buffer :
  ~ In (GlBindBuffer target buffer) (lines_trace q mode first count).
Proof.
  unfold lines_trace. rewrite !in_app_iff. intros [H | [H | H]].
  - by apply force_no_bind in H.
  - destruct (mode =? GL_QUAD_STRIP).
    + by apply (lines_calls_no_bind (fun n => n * 6 + 2)) in H.
    + destruct (mode =? GL_QUADS); [|done].
      by apply (lines_calls_no_bind (fun n => n * 8)) in H.
  - by apply restore_no_bind in H.
Qed.

Lemma points_trace_no_bind q mode first count target buffer :
  ~ In (GlBindBuffer target buffer) (points_trace q mode first count).
Proof.
  unfold points_trace. rewrite !in_app_iff. intros [H | [H | H]].
  - by apply force_no_bind in H.
  - simpl in H. intuition discriminate.
  - by apply restore_no_bind in H.
Qed.

(** The binding after any draw: the triangle branch leaves the shadowed
    binding, whatever was bound before; the other branches bind nothing. *)
Lemma binding_after_draw q mode first count s :
  (binding_after (glDrawArrays_result q mode first count).2 s = element_binding s
   /\ forall target buffer,
        ~ In (GlBindBuffer target buffer) (glDrawArrays_result q mode first count).2)
  \/ binding_after (glDrawArrays_result q mode first count).2 s = elementArrayBuffer q.
Proof.
  assert (Hnone : binding_after [] s = element_binding s
                   /\ forall target buffer, ~ In (GlBindBuffer target buffer) []).
  { split; [done|]. by intros ? ? []. }
  unfold glDrawArrays_result.
  destruct (negb (mode =? GL_QUADS) && negb (mode =? GL_QUAD_STRIP)) eqn:Em;
    [by left|].
  destruct (count <? 0); [by left|]. destruct (count <? 4); [by left|].
  destruct (cullingFaces q && (cullFace q =? GL_FRONT_AND_BACK)); [by left|].
  destruct (draw_flags q) as [[[dq dl] dp]|]; [|by left]. simpl.
  destruct dq.
  - right. apply binding_after_triangles.
    destruct (Z.eqb_spec mode GL_QUADS); [by left|].
    destruct (Z.eqb_spec mode GL_QUAD_STRIP); [by right|done].
  - left. destruct dl.
    { split; [apply binding_after_lines|]. intros. apply lines_trace_no_bind. }
    destruct dp; [|done].
    split; [apply binding_after_points|]. intros. apply points_trace_no_bind.
Qed.

Ltac same_pattern :=
  intros; cbn [fmap list_fmap];
  repeat (apply (f_equal2 cons); [f_equal; lia|]); reflexivity.

(** * The claims *)

(** ** Quads::Init *)

Lemma Init_runs ctx_convention name q :
  Init ctx_convention name q
  = Some (tt, initial name (ctx_convention =? GL_TRUE), [GlGenBuffers 1]).
Proof. reflexivity. Qed.

(** ** C1: quads to triangles under smooth shading *)

(** C1, as stated, fails: on the object [Init] leaves (smooth shading, both
    faces filled), glDrawArrays(GL_QUADS, 0, 8) does not submit the index
    sequence 0,1,2,0,2,3,4,5,6,4,6,7. *)
Lemma quads_smooth_claimed_order_fails :
  ~ exists calls,
      glDrawArrays GL_QUADS 0 8 (initial 1 true) = Some (true, initial 1 true, calls)
      /\ submissions calls idle_backend
         = [Indexed GL_TRIANGLES [0; 1; 2; 0; 2; 3; 4; 5; 6; 4; 6; 7]].
Proof.
  intros (calls & Hrun & Hsub).
  vm_compute in Hrun. injection Hrun as <-. vm_compute in Hsub. discriminate.
Qed.

(** C1, amended: for a QUADS draw with smooth shading (shadeMode not FLAT)
    that resolves to triangles, the quad [i] with vertices v0..v3 =
    first+4i .. first+4i+3 is triangulated as the six indices
    (v0,v1,v2, v3,v0,v2); submission [j] carries the quads from 1024*j on,
    at most 1024 of them.  In particular glDrawArrays(GL_QUADS, 0, 8)
    issues exactly one indexed-triangle submission, with the index sequence
    0,1,2,3,0,2,4,5,6,7,4,6. *)
Theorem quads_smooth_triangles q first count s :
  shadeMode q <> GL_FLAT -> In GL_FILL (active_styles q) -> 4 <= count ->
  exists calls,
    glDrawArrays GL_QUADS first count q = Some (true, q, calls)
    /\ submissions calls s
       = (fun j =>
            Indexed GL_TRIANGLES
              (concat ((fun i => let v k := u32 (first + 4 * i + k) in
                                 [v 0; v 1; v 2; v 3; v 0; v 2])
                         <$> seqZ (1024 * j) (Z.min (count `div` 4 - 1024 * j) 1024))))
           <$> seqZ 0 ((count `div` 4 - 1) `div` 1024 + 1)
    /\ (first = 0 -> count = 8 ->
        submissions calls s
        = [Indexed GL_TRIANGLES [0; 1; 2; 3; 0; 2; 4; 5; 6; 7; 4; 6]]).
Proof.
  intros Hshade Hfill Hc.
  rewrite glDrawArrays_runs, resolve_triangles by (done || by left).
  eexists. split; [reflexivity|]. simpl snd.
  assert (Hsub : submissions (triangles_trace q GL_QUADS first count) s
    = (fun j =>
         Indexed GL_TRIANGLES
           (concat ((fun i => let v k := u32 (first + 4 * i + k) in
                              [v 0; v 1; v 2; v 3; v 0; v 2])
                      <$> seqZ (1024 * j) (Z.min (count `div` 4 - 1024 * j) 1024))))
        <$> seqZ 0 ((count `div` 4 - 1) `div` 1024 + 1)).
  { rewrite submissions_triangles_quads.
    change (fun p : Z * list Z => Indexed GL_TRIANGLES (take (Z.to_nat (p.1 * 6)) p.2))
      with (Indexed GL_TRIANGLES ∘ (fun p : Z * list Z => take (Z.to_nat (p.1 * 6)) p.2)).
    rewrite list_fmap_compose, quads_tri_chunks_image, <- list_fmap_compose by done.
    apply list_fmap_ext. intros _ j _. simpl. f_equal.
    unfold pattern_run, quads_tri_pattern.
    destruct (Z.eqb_spec (shadeMode q) GL_FLAT); [done|]. simpl negb. cbv iota.
    f_equal. apply list_fmap_ext. intros _ i _.
    unfold quads_tri_smooth. same_pattern. }
  split; [done|].
  intros -> ->. rewrite Hsub. reflexivity.
Qed.

(** The draw of the claim, on the object [Init] leaves. *)
Lemma quads_smooth_triangles_witness :
  exists calls,
    glDrawArrays GL_QUADS 0 8 (initial 1 true) = Some (true, initial 1 true, calls)
    /\ submissions calls idle_backend
       = [Indexed GL_TRIANGLES [0; 1; 2; 3; 0; 2; 4; 5; 6; 7; 4; 6]].
Proof.
  destruct (quads_smooth_triangles (initial 1 true) 0 8 idle_backend)
    as (calls & Hrun & _ & Hsub).
  - discriminate.
  - simpl. auto.
  - lia.
  - exists calls. split; [exact Hrun|]. apply Hsub; reflexivity.
Defined.

(** ** C2: quad strips to triangles under flat shading, last vertex *)

(** C2, as stated, fails: with flat shading and the last-vertex convention,
    glDrawArrays(GL_QUAD_STRIP, 0, 4) does not submit the index sequence
    0,1,2,2,1,3 for its one strip step. *)
Lemma strip_flat_last_claimed_order_fails :
  ~ exists calls,
      glDrawArrays GL_QUAD_STRIP 0 4 (set_shadeMode GL_FLAT (initial 1 true))
      = Some (true, set_shadeMode GL_FLAT (initial 1 true), calls)
      /\ submissions calls idle_backend = [Indexed GL_TRIANGLES [0; 1; 2; 2; 1; 3]].
Proof.
  intros (calls & Hrun & Hsub).
  vm_compute in Hrun. injection Hrun as <-. vm_compute in Hsub. discriminate.
Qed.

(** C2, amended: for a QUAD_STRIP draw that resolves to triangles under
    flat shading with the LAST_VERTEX convention (or with the
    quads-follow-provoking-vertex-convention capability disabled), the
    strip step [i] -- previous pair v0,v1 = first+2i, first+2i+1 and new
    pair v2,v3 -- is triangulated as the six indices (v0,v1,v3, v2,v0,v3);
    submission [j] carries the steps from 1024*j on, at most 1024 of
    them. *)
Theorem strip_flat_last_triangles q first count s :
  shadeMode q = GL_FLAT ->
  gl_quads_follow_provoking_vertex_convention q = false
  \/ provokeMode q = GL_LAST_VERTEX_CONVENTION ->
  In GL_FILL (active_styles q) -> 4 <= count ->
  exists calls,
    glDrawArrays GL_QUAD_STRIP first count q = Some (true, q, calls)
    /\ submissions calls s
       = (fun j =>
            Indexed GL_TRIANGLES
              (concat ((fun i => let v k := u32 (first + 2 * i + k) in
                                 [v 0; v 1; v 3; v 2; v 0; v 3])
                         <$> seqZ (1024 * j)
                               (Z.min (count `div` 2 - 1 - 1024 * j) 1024))))
           <$> seqZ 0 ((count `div` 2 - 1) `div` 1024 + 1).
Proof.
  intros Hshade Hlast Hfill Hc.
  rewrite glDrawArrays_runs, resolve_triangles by (done || by right).
  eexists. split; [reflexivity|]. simpl snd.
  rewrite submissions_triangles_strip.
  change (fun p : Z * list Z => Indexed GL_TRIANGLES (take (Z.to_nat (p.1 * 6)) p.2))
    with (Indexed GL_TRIANGLES ∘ (fun p : Z * list Z => take (Z.to_nat (p.1 * 6)) p.2)).
  rewrite list_fmap_compose, strip_tri_chunks_image, <- list_fmap_compose by done.
  apply list_fmap_ext. intros _ j _. simpl. f_equal.
  unfold pattern_run, strip_tri_pattern, last_vertex.
  rewrite Hshade. simpl negb. cbv iota.
  replace (negb (gl_quads_follow_provoking_vertex_convention q)
           || (provokeMode q =? GL_LAST_VERTEX_CONVENTION)) with true.
  2:{ destruct Hlast as [-> | ->]; [done|]. by rewrite orb_true_r. }
  f_equal. apply list_fmap_ext. intros _ i _.
  unfold strip_tri_flat_last. same_pattern.
Qed.

(** A strip of two steps under flat shading. *)
Lemma strip_flat_last_triangles_witness :
  exists calls,
    glDrawArrays GL_QUAD_STRIP 0 6 (set_shadeMode GL_FLAT (initial 1 true))
    = Some (true, set_shadeMode GL_FLAT (initial 1 true), calls)
    /\ submissions calls idle_backend
       = [Indexed GL_TRIANGLES [0; 1; 3; 2; 0; 3; 2; 3; 5; 4; 2; 5]].
Proof.
  destruct (strip_flat_last_triangles (set_shadeMode GL_FLAT (initial 1 true))
              0 6 idle_backend) as (calls & Hrun & Hsub).
  - reflexivity.
  - right. reflexivity.
  - simpl. auto.
  - lia.
  - exists calls. split; [exact Hrun|]. rewrite Hsub. reflexivity.
Defined.

(** ** C3: the state setters and unrecognised enumerants *)

(** Four setters test their argument and leave the object alone when it
    is not one of the values they know. *)
Lemma glFrontFace_unknown mode q :
  mode <> GL_CW -> mode <> GL_CCW -> glFrontFace mode q = Some (tt, q, []).
Proof.
  intros H1 H2. unfold glFrontFace.
  by destruct (Z.eqb_spec mode GL_CW), (Z.eqb_spec mode GL_CCW).
Qed.

Lemma glShadeModel_unknown mode q :
  mode <> GL_SMOOTH -> mode <> GL_FLAT -> glShadeModel mode q = Some (tt, q, []).
Proof.
  intros H1 H2. unfold glShadeModel.
  by destruct (Z.eqb_spec mode GL_SMOOTH), (Z.eqb_spec mode GL_FLAT).
Qed.

Lemma glProvokingVertex_unknown mode q :
  mode <> GL_FIRST_VERTEX_CONVENTION -> mode <> GL_LAST_VERTEX_CONVENTION ->
  glProvokingVertex mode q = Some (tt, q, []).
Proof.
  intros H1 H2. unfold glProvokingVertex.
  by destruct (Z.eqb_spec mode GL_FIRST_VERTEX_CONVENTION),
       (Z.eqb_spec mode GL_LAST_VERTEX_CONVENTION).
Qed.

Lemma glCullFace_unknown face q :
  face <> GL_FRONT -> face <> GL_BACK -> face <> GL_FRONT_AND_BACK ->
  glCullFace face q = Some (tt, q, []).
Proof.
  intros H1 H2 H3. unfold glCullFace.
  by destruct (Z.eqb_spec face GL_FRONT), (Z.eqb_spec face GL_BACK),
       (Z.eqb_spec face GL_FRONT_AND_BACK).
Qed.

(** glPolygonMode tests its face argument in the same way ... *)
Lemma glPolygonMode_unknown_face f m q :
  f <> GL_FRONT -> f <> GL_BACK -> f <> GL_FRONT_AND_BACK ->
  glPolygonMode f m q = Some (tt, q, []).
Proof.
  intros H1 H2 H3. unfold glPolygonMode.
  by destruct (Z.eqb_spec f GL_FRONT), (Z.eqb_spec f GL_BACK),
       (Z.eqb_spec f GL_FRONT_AND_BACK).
Qed.

(** ... but stores any style. *)
Lemma glPolygonMode_stores m q :
  glPolygonMode GL_FRONT m q = Some (tt, set_frontFaceMode m q, [])
  /\ glPolygonMode GL_BACK m q = Some (tt, set_backFaceMode m q, [])
  /\ glPolygonMode GL_FRONT_AND_BACK m q
     = Some (tt, set_frontFaceMode m (set_backFaceMode m q), []).
Proof. done. Qed.

(** C3: every state setter validates its enum argument; in particular
    glPolygonMode with a style outside FILL, LINE, POINT leaves
    frontFaceMode and backFaceMode unchanged.  The code does not do this:
    glPolygonMode(GL_FRONT_AND_BACK, 0x1234) on the object [Init] leaves
    stores 0x1234, which is none of GL_FILL, GL_LINE, GL_POINT, into both
    members. *)
Theorem glPolygonMode_stores_unknown_style :
  0x1234 <> GL_FILL /\ 0x1234 <> GL_LINE /\ 0x1234 <> GL_POINT
  /\ exists q',
       glPolygonMode GL_FRONT_AND_BACK 0x1234 (initial 1 true) = Some (tt, q', [])
       /\ frontFaceMode (initial 1 true) = GL_FILL
       /\ backFaceMode (initial 1 true) = GL_FILL
       /\ frontFaceMode q' = 0x1234
       /\ backFaceMode q' = 0x1234.
Proof. repeat split; try discriminate. by eexists. Qed.

(** ** C4: Quads::Cleanup *)

Lemma Cleanup_runs q : Cleanup q = Some (tt, q, []).
Proof. reflexivity. Qed.

(** C4: Cleanup releases the scratch index buffer that Init allocated.
    The code does not do this: after Init has stored the buffer name that
    glGenBuffers generated into quadIndexBuffer, Cleanup makes no call at
    all through the dispatch table, so no glDeleteBuffers for that name,
    and leaves the name in place. *)
Theorem Cleanup_leaves_scratch_buffer q0 ctx_convention name :
  exists q,
    Init ctx_convention name q0 = Some (tt, q, [GlGenBuffers 1])
    /\ quadIndexBuffer q = name
    /\ Cleanup q = Some (tt, q, [])
    /\ ~ In (GlDeleteBuffers [name]) [].
Proof.
  exists (initial name (ctx_convention =? GL_TRUE)).
  split; [apply Init_runs|]. split; [reflexivity|]. split; [apply Cleanup_runs|].
  intros [].
Qed.

(** ** C5: quad strips to outlines *)

(** C5, as stated, fails: with smooth shading and both faces in LINE
    style, glDrawArrays(GL_QUAD_STRIP, 0, 4) submits the first pair and the
    three edges of its one step, and no further pair after them. *)
Lemma strip_outline_closing_pair_fails :
  ~ exists calls a b,
      glDrawArrays GL_QUAD_STRIP 0 4
        (set_backFaceMode GL_LINE (set_frontFaceMode GL_LINE (initial 1 true)))
      = Some (true,
              set_backFaceMode GL_LINE (set_frontFaceMode GL_LINE (initial 1 true)),
              calls)
      /\ submissions calls idle_backend
         = [Indexed GL_LINES ([0; 1] ++ [0; 2; 2; 3; 1; 3] ++ [a; b])].
Proof.
  intros (calls & a & b & Hrun & Hsub).
  vm_compute in Hrun. injection Hrun as <-. vm_compute in Hsub. discriminate.
Qed.

(** C5, amended: for a QUAD_STRIP draw that resolves to line outlines
    under smooth shading or the LAST_VERTEX convention (any state but flat
    shading with the first-vertex convention in force), a submission is the
    pair (v0,v1) of its first step followed, per strip step, by the three
    edges (v0,v2, v2,v3, v1,v3), and nothing is appended after the final
    step; submission [j] carries the steps from 1024*j on, at most 1024
    of them. *)
Theorem strip_outline_lines q first count s :
  shadeMode q <> GL_FLAT
  \/ gl_quads_follow_provoking_vertex_convention q = false
  \/ provokeMode q <> GL_FIRST_VERTEX_CONVENTION ->
  ~ In GL_FILL (active_styles q) -> In GL_LINE (active_styles q) -> 4 <= count ->
  exists calls,
    glDrawArrays GL_QUAD_STRIP first count q = Some (true, q, calls)
    /\ submissions calls s
       = (fun j =>
            let v i k := u32 (first + 2 * i + k) in
            Indexed GL_LINES
              ([v (1024 * j) 0; v (1024 * j) 1]
               ++ concat ((fun i => [v i 0; v i 2; v i 2; v i 3; v i 1; v i 3])
                            <$> seqZ (1024 * j)
                                  (Z.min (count `div` 2 - 1 - 1024 * j) 1024))))
           <$> seqZ 0 ((count `div` 2 - 1) `div` 1024 + 1).
Proof.
  intros Hstate Hfill Hline Hc.
  assert (Hq : flat_first_vertex q = false).
  { unfold flat_first_vertex.
    destruct Hstate as [H | [H | H]].
    - by destruct (Z.eqb_spec (shadeMode q) GL_FLAT).
    - rewrite H. by rewrite andb_false_r.
    - destruct (Z.eqb_spec (provokeMode q) GL_FIRST_VERTEX_CONVENTION); [done|].
      by rewrite andb_false_r. }
  rewrite glDrawArrays_runs, resolve_lines by (done || by right).
  eexists. split; [reflexivity|]. simpl snd.
  rewrite submissions_lines_strip.
  change (fun p : Z * list Z => Indexed GL_LINES (take (Z.to_nat (p.1 * 6 + 2)) p.2))
    with (Indexed GL_LINES ∘ (fun p : Z * list Z => take (Z.to_nat (p.1 * 6 + 2)) p.2)).
  rewrite list_fmap_compose, strip_line_chunks_image, <- list_fmap_compose by done.
  apply list_fmap_ext. intros _ j _. simpl. do 2 f_equal; [f_equal; lia|].
  f_equal. unfold pattern_run. f_equal. apply list_fmap_ext. intros _ i _.
  unfold strip_line_other. same_pattern.
Qed.

(** A strip of two steps with both faces in LINE style. *)
Lemma strip_outline_lines_witness :
  exists calls,
    glDrawArrays GL_QUAD_STRIP 0 6
      (set_backFaceMode GL_LINE (set_frontFaceMode GL_LINE (initial 1 true)))
    = Some (true,
            set_backFaceMode GL_LINE (set_frontFaceMode GL_LINE (initial 1 true)),
            calls)
    /\ submissions calls idle_backend
       = [Indexed GL_LINES [0; 1; 0; 2; 2; 3; 1; 3; 2; 4; 4; 5; 3; 5]].
Proof.
  destruct (strip_outline_lines
              (set_backFaceMode GL_LINE (set_frontFaceMode GL_LINE (initial 1 true)))
              0 6 idle_backend) as (calls & Hrun & Hsub).
  - left. discriminate.
  - simpl. intros [H | [H | []]]; discriminate.
  - simpl. auto.
  - lia.
  - exists calls. split; [exact Hrun|]. rewrite Hsub. reflexivity.
Defined.

(** ** C6: the element array binding after a draw *)

(** Whenever the scratch buffer is used -- the draw resolves to triangles
    -- the shadowed binding is bound at the end, whatever was bound
    before the draw. *)
Lemma draw_triangles_rebinds q mode first count s :
  mode = GL_QUADS \/ mode = GL_QUAD_STRIP -> 4 <= count ->
  In GL_FILL (active_styles q) ->
  exists calls,
    glDrawArrays mode first count q = Some (true, q, calls)
    /\ In (GlBindBuffer GL_ELEMENT_ARRAY_BUFFER (quadIndexBuffer q)) calls
    /\ binding_after calls s = elementArrayBuffer q.
Proof.
  intros Hmode Hc Hfill.
  rewrite glDrawArrays_runs, resolve_triangles by done.
  eexists. split; [reflexivity|]. simpl snd. split.
  - unfold triangles_trace. apply in_or_app. right. apply in_or_app. left.
    destruct Hmode as [-> | ->]; by left.
  - by apply binding_after_triangles.
Qed.

(** The two cases of a draw: it binds nothing and leaves the binding as
    it was, or it binds the scratch buffer and then the shadowed binding. *)
Lemma binding_after_draw_cases q mode first count s :
  (binding_after (glDrawArrays_result q mode first count).2 s = element_binding s
   /\ forall target buffer,
        ~ In (GlBindBuffer target buffer) (glDrawArrays_result q mode first count).2)
  \/ (binding_after (glDrawArrays_result q mode first count).2 s = elementArrayBuffer q
      /\ In (GlBindBuffer GL_ELEMENT_ARRAY_BUFFER (quadIndexBuffer q))
           (glDrawArrays_result q mode first count).2).
Proof.
  assert (Hnone : binding_after [] s = element_binding s
                   /\ forall target buffer, ~ In (GlBindBuffer target buffer) []).
  { split; [done|]. by intros ? ? []. }
  unfold glDrawArrays_result.
  destruct (negb (mode =? GL_QUADS) && negb (mode =? GL_QUAD_STRIP)) eqn:Em;
    [by left|].
  destruct (count <? 0); [by left|]. destruct (count <? 4); [by left|].
  destruct (cullingFaces q && (cullFace q =? GL_FRONT_AND_BACK)); [by left|].
  destruct (draw_flags q) as [[[dq dl] dp]|]; [|by left]. simpl.
  destruct dq.
  - right.
    assert (Hmode : mode = GL_QUADS \/ mode = GL_QUAD_STRIP).
    { destruct (Z.eqb_spec mode GL_QUADS); [by left|].
      destruct (Z.eqb_spec mode GL_QUAD_STRIP); [by right|done]. }
    split; [by apply binding_after_triangles|].
    unfold triangles_trace. apply in_or_app. right. apply in_or_app. left.
    destruct Hmode as [-> | ->]; by left.
  - left. destruct dl.
    { split; [apply binding_after_lines|]. intros. apply lines_trace_no_bind. }
    destruct dp; [|done].
    split; [apply binding_after_points|]. intros. apply points_trace_no_bind.
Qed.

(** C6, as stated, fails in two ways.  After Init has generated the
    scratch buffer name 1 and the application has called
    glBindBuffer(GL_ELEMENT_ARRAY_BUFFER, 1), a quads draw leaves the
    binding at 1, which is the scratch buffer's handle.  And a draw that
    resolves to lines binds nothing: with 5 recorded in elementArrayBuffer
    and 0 bound in the backend, the binding after the draw is 0, not 5. *)
Lemma draw_binding_claim_fails :
  (Init GL_TRUE 1 ;; glBindBuffer GL_ELEMENT_ARRAY_BUFFER 1) (initial 0 false)
  = Some (tt, set_elementArrayBuffer 1 (initial 1 true), [GlGenBuffers 1])
  /\ ~ (exists calls,
          glDrawArrays GL_QUADS 0 4 (set_elementArrayBuffer 1 (initial 1 true))
          = Some (true, set_elementArrayBuffer 1 (initial 1 true), calls)
          /\ binding_after calls (mkBackend 1 (fun _ => []))
             <> quadIndexBuffer (set_elementArrayBuffer 1 (initial 1 true)))
  /\ ~ (exists calls,
          glDrawArrays GL_QUADS 0 4
            (set_elementArrayBuffer 5
               (set_backFaceMode GL_LINE (set_frontFaceMode GL_LINE (initial 1 true))))
          = Some (true,
                  set_elementArrayBuffer 5
                    (set_backFaceMode GL_LINE
                       (set_frontFaceMode GL_LINE (initial 1 true))),
                  calls)
          /\ binding_after calls idle_backend
             = elementArrayBuffer
                 (set_elementArrayBuffer 5
                    (set_backFaceMode GL_LINE
                       (set_frontFaceMode GL_LINE (initial 1 true))))).
Proof.
  split; [reflexivity|]. split.
  - intros (calls & Hrun & Hbind). vm_compute in Hrun. injection Hrun as <-.
    apply Hbind. reflexivity.
  - intros (calls & Hrun & Hbind). vm_compute in Hrun. injection Hrun as <-.
    vm_compute in Hbind. discriminate.
Qed.

(** C6, amended: after every draw call -- for any state, primitive kind,
    first and count -- the element array binding of the backend is the
    handle recorded in elementArrayBuffer by the intercepted glBindBuffer
    whenever the draw bound the scratch buffer quadIndexBuffer, and
    otherwise is what it was before the draw.  So it equals the recorded
    handle whenever it did before the draw, and it is the scratch buffer's
    handle only if the recorded handle or the binding before the draw
    already was. *)
Theorem draw_keeps_element_binding q mode first count s :
  exists handled calls,
    glDrawArrays mode first count q = Some (handled, q, calls)
    /\ (In (GlBindBuffer GL_ELEMENT_ARRAY_BUFFER (quadIndexBuffer q)) calls ->
        binding_after calls s = elementArrayBuffer q)
    /\ (~ In (GlBindBuffer GL_ELEMENT_ARRAY_BUFFER (quadIndexBuffer q)) calls ->
        binding_after calls s = element_binding s)
    /\ (element_binding s = elementArrayBuffer q ->
        binding_after calls s = elementArrayBuffer q)
    /\ (elementArrayBuffer q <> quadIndexBuffer q ->
        element_binding s <> quadIndexBuffer q ->
        binding_after calls s <> quadIndexBuffer q).
Proof.
  rewrite glDrawArrays_runs. do 2 eexists. split; [reflexivity|].
  destruct (binding_after_draw_cases q mode first count s)
    as [[-> Hno] | [-> Hin]].
  - split; [intros Hin; by apply Hno in Hin|]. split; [done|]. split; [done|].
    intros _ Hs. exact Hs.
  - split; [done|]. split; [intros Hno; by destruct Hno|]. split; [done|].
    intros Hq _. exact Hq.
Qed.

(** A quads draw while the application has buffer 5 bound: the scratch
    buffer 1 is bound during the draw and buffer 5 after it, whether the
    backend had 0 or 5 bound before. *)
Lemma draw_keeps_element_binding_witness :
  exists handled calls,
    glDrawArrays GL_QUADS 0 8 (set_elementArrayBuffer 5 (initial 1 true))
    = Some (handled, set_elementArrayBuffer 5 (initial 1 true), calls)
    /\ binding_after calls idle_backend = 5
    /\ binding_after calls (mkBackend 5 (fun _ => [])) = 5
    /\ binding_after calls (mkBackend 5 (fun _ => [])) <> 1.
Proof.
  destruct (draw_keeps_element_binding (set_elementArrayBuffer 5 (initial 1 true))
              GL_QUADS 0 8 idle_backend)
    as (handled & calls & Hrun & Hscratch & _).
  destruct (draw_keeps_element_binding (set_elementArrayBuffer 5 (initial 1 true))
              GL_QUADS 0 8 (mkBackend 5 (fun _ => [])))
    as (handled' & calls' & Hrun' & _ & _ & Hbound & Hnever).
  exists handled, calls. split; [exact Hrun|].
  assert (Hsame : calls' = calls) by congruence.
  split; [|split].
  - apply Hscratch. vm_compute in Hrun. injection Hrun as _ <-. simpl. auto.
  - rewrite <- Hsame. apply Hbound. reflexivity.
  - rewrite <- Hsame. apply Hnever; discriminate.
Defined.

(** ** C8: the chunk boundary *)

(** The first quad of every triangle pattern, when [first] is a
    non-negative GLint: adding 4096 does not wrap. *)
Lemma quads_tri_pattern_no_wrap q first :
  0 <= first < 2 ^ 31 ->
  (fun x => u32 (x + 1024 * 4)) <$> (u32 <$> quads_tri_pattern q first 0)
  = (fun x => x + 4 * 1024) <$> (u32 <$> quads_tri_pattern q first 0).
Proof.
  intros Hfirst. unfold quads_tri_pattern.
  destruct (negb (shadeMode q =? GL_FLAT)), (last_vertex q);
    unfold quads_tri_smooth, quads_tri_flat_last, quads_tri_flat_first;
    cbn [fmap list_fmap];
    repeat (apply (f_equal2 cons);
            [rewrite u32_add_l, (u32_small (_ + 1024 * 4)), u32_small; lia|]);
    reflexivity.
Qed.

(** C8: with chunk capacity K = EMU_QUADS_BUFFER_SIZE = 1024, a QUADS draw
    that resolves to triangles with count = 4 * (K + 1) issues exactly two
    indexed-triangle submissions: the first of 6 * K indices, the second
    of the first six indices of the first, each shifted upward by 4 * K
    (as GLuint values; for a non-negative [first] that is plain
    addition). *)
Theorem quads_chunk_boundary q first s :
  In GL_FILL (active_styles q) ->
  exists calls I1 I2,
    glDrawArrays GL_QUADS first (4 * (EMU_QUADS_BUFFER_SIZE + 1)) q
    = Some (true, q, calls)
    /\ submissions calls s = [Indexed GL_TRIANGLES I1; Indexed GL_TRIANGLES I2]
    /\ Z.of_nat (length I1) = 6 * EMU_QUADS_BUFFER_SIZE
    /\ I2 = (fun x => u32 (x + 4 * EMU_QUADS_BUFFER_SIZE)) <$> take 6 I1
    /\ (0 <= first < 2 ^ 31 ->
        I2 = (fun x => x + 4 * EMU_QUADS_BUFFER_SIZE) <$> take 6 I1).
Proof.
  intros Hfill. change (4 * (EMU_QUADS_BUFFER_SIZE + 1)) with 4100.
  unfold EMU_QUADS_BUFFER_SIZE.
  rewrite glDrawArrays_runs, resolve_triangles by (done || by left).
  exists (triangles_trace q GL_QUADS first 4100),
    (pattern_run (quads_tri_pattern q first) 0 1024),
    (pattern_run (quads_tri_pattern q first) 1024 1).
  split; [reflexivity|].
  assert (Htake : take 6 (pattern_run (quads_tri_pattern q first) 0 1024)
                  = pattern_run (quads_tri_pattern q first) 0 1).
  { apply (take_pattern_run 6 _ (length_quads_tri_pattern q first) 0 1024 1). lia. }
  repeat split.
  - rewrite submissions_triangles_quads.
    change (fun p : Z * list Z => Indexed GL_TRIANGLES (take (Z.to_nat (p.1 * 6)) p.2))
      with (Indexed GL_TRIANGLES ∘ (fun p : Z * list Z => take (Z.to_nat (p.1 * 6)) p.2)).
    by rewrite list_fmap_compose, quads_tri_chunks_image by done.
  - rewrite (length_pattern_run 6) by (apply length_quads_tri_pattern || done). done.
  - rewrite Htake. symmetry.
    apply (shift_pattern_run _ (4 * 1024) 1024 0 1).
    intros. apply quads_tri_pattern_shift.
  - intros Hfirst. rewrite Htake.
    rewrite <- (shift_pattern_run _ (1024 * 4) 1024 0 1)
      by (intros; apply quads_tri_pattern_shift).
    unfold pattern_run. simpl. rewrite !app_nil_r.
    by apply quads_tri_pattern_no_wrap.
Qed.

(** 1025 quads from vertex 0 on the object [Init] leaves. *)
Lemma quads_chunk_boundary_witness :
  In GL_FILL (active_styles (initial 1 true))
  /\ exists calls I1 I2,
       glDrawArrays GL_QUADS 0 (4 * (EMU_QUADS_BUFFER_SIZE + 1)) (initial 1 true)
       = Some (true, initial 1 true, calls)
       /\ submissions calls idle_backend
          = [Indexed GL_TRIANGLES I1; Indexed GL_TRIANGLES I2]
       /\ Z.of_nat (length I1) = 6 * EMU_QUADS_BUFFER_SIZE
       /\ I2 = (fun x => u32 (x + 4 * EMU_QUADS_BUFFER_SIZE)) <$> take 6 I1
       /\ (0 <= 0 < 2 ^ 31 ->
           I2 = (fun x => x + 4 * EMU_QUADS_BUFFER_SIZE) <$> take 6 I1).
Proof.
  split.
  - simpl. auto.
  - apply (quads_chunk_boundary (initial 1 true) 0 idle_backend). simpl. auto.
Defined.

(** ** C9: negative counts *)

(** C9: for mode QUADS or QUAD_STRIP, every first and every state, a draw
    with count < 0 returns false and makes no call through the dispatch
    table, so nothing is submitted. *)
Theorem draw_negative_count q mode first count :
  mode = GL_QUADS \/ mode = GL_QUAD_STRIP -> count < 0 ->
  glDrawArrays mode first count q = Some (false, q, []).
Proof.
  intros Hmode Hc.
  rewrite glDrawArrays_runs. unfold glDrawArrays_result.
  replace (negb (mode =? GL_QUADS) && negb (mode =? GL_QUAD_STRIP)) with false
    by (destruct Hmode as [-> | ->]; done).
  by replace (count <? 0) with true by (symmetry; apply Z.ltb_lt; lia).
Qed.

(** A strip draw with count -1. *)
Lemma draw_negative_count_witness :
  glDrawArrays GL_QUAD_STRIP 3 (-1) (initial 1 true) = Some (false, initial 1 true, []).
Proof.
  apply (draw_negative_count (initial 1 true) GL_QUAD_STRIP 3 (-1)).
  - right. reflexivity.
  - lia.
Defined.

(** ** C10: a draw leaves the object alone *)

(** C10: for every mode, first, count and every starting state,
    glDrawArrays returns, and the object afterwards is the object before:
    each of elementArrayBuffer, quadIndexBuffer, windingMode,
    frontFaceMode, backFaceMode, shadeMode, provokeMode, cullFace,
    gl_quads_follow_provoking_vertex_convention and cullingFaces has the
    value it had. *)
Theorem draw_keeps_state q mode first count :
  exists handled q' calls,
    glDrawArrays mode first count q = Some (handled, q', calls)
    /\ elementArrayBuffer q' = elementArrayBuffer q
    /\ quadIndexBuffer q' = quadIndexBuffer q
    /\ windingMode q' = windingMode q
    /\ frontFaceMode q' = frontFaceMode q
    /\ backFaceMode q' = backFaceMode q
    /\ shadeMode q' = shadeMode q
    /\ provokeMode q' = provokeMode q
    /\ cullFace q' = cullFace q
    /\ gl_quads_follow_provoking_vertex_convention q'
       = gl_quads_follow_provoking_vertex_convention q
    /\ cullingFaces q' = cullingFaces q.
Proof.
  rewrite glDrawArrays_runs. do 3 eexists. split; [reflexivity|]. by repeat split.
Qed.

(** * Further properties of the layer *)

(** ** glDrawArrays: what is handled and when nothing is issued *)

Lemma glDrawArrays_result_quiet q mode first count :
  (mode <> GL_QUADS /\ mode <> GL_QUAD_STRIP)
  \/ count < 4
  \/ (cullingFaces q = true /\ cullFace q = GL_FRONT_AND_BACK) ->
  (glDrawArrays_result q mode first count).2 = [].
Proof.
  intros H. unfold glDrawArrays_result.
  destruct (Z.eqb_spec mode GL_QUADS), (Z.eqb_spec mode GL_QUAD_STRIP);
    simpl; try done.
  all: destruct (Z.ltb_spec count 0); [done|].
  all: destruct (Z.ltb_spec count 4); [done|].
  all: destruct H as [[? ?] | [? | [Hc Hf]]]; [done|lia|].
  all: by rewrite Hc, Hf.
Qed.

Lemma glDrawArrays_result_handled q mode first count :
  (glDrawArrays_result q mode first count).1 = true
  <-> (mode = GL_QUADS \/ mode = GL_QUAD_STRIP) /\ 0 <= count.
Proof.
  unfold glDrawArrays_result.
  destruct (Z.eqb_spec mode GL_QUADS), (Z.eqb_spec mode GL_QUAD_STRIP); simpl.
  4:{ split; [done|]. intros [[?|?] _]; done. }
  all: destruct (Z.ltb_spec count 0); simpl; [split; [done|lia]|].
  all: destruct (Z.ltb_spec count 4); simpl; [split; auto|].
  all: destruct (cullingFaces q && (cullFace q =? GL_FRONT_AND_BACK));
    simpl; [split; auto|].
  all: destruct (draw_flags q) as [[[dq dl] dp]|]; simpl; split; auto.
Qed.

(** glDrawArrays reports a call as handled exactly when the mode is
    GL_QUADS or GL_QUAD_STRIP and the count is not negative -- whatever
    the state, also when nothing is drawn. *)
Theorem draw_handled_iff q mode first count :
  exists handled calls,
    glDrawArrays mode first count q = Some (handled, q, calls)
    /\ (handled = true <-> (mode = GL_QUADS \/ mode = GL_QUAD_STRIP) /\ 0 <= count).
Proof.
  rewrite glDrawArrays_runs. do 2 eexists. split; [reflexivity|].
  apply glDrawArrays_result_handled.
Qed.

(** No call reaches the dispatch table -- no polygon mode change, no
    bind, no draw -- when the mode is not a quad mode, when count is below
    4, or when culling is enabled with cull face FRONT_AND_BACK. *)
Theorem draw_issues_nothing q mode first count :
  (mode <> GL_QUADS /\ mode <> GL_QUAD_STRIP)
  \/ count < 4
  \/ (cullingFaces q = true /\ cullFace q = GL_FRONT_AND_BACK) ->
  exists handled, glDrawArrays mode first count q = Some (handled, q, []).
Proof.
  intros H. rewrite glDrawArrays_runs.
  rewrite (glDrawArrays_result_quiet q mode first count H). by eexists.
Qed.

(** Three vertices of a quad list. *)
Lemma draw_issues_nothing_witness :
  exists handled, glDrawArrays GL_QUADS 0 3 (initial 1 true) = Some (handled, initial 1 true, []).
Proof.
  apply (draw_issues_nothing (initial 1 true) GL_QUADS 0 3). right. left. lia.
Defined.

(** A strip draw of five vertices is handled. *)
Lemma draw_handled_iff_witness :
  exists calls,
    glDrawArrays GL_QUAD_STRIP 0 5 (initial 1 true) = Some (true, initial 1 true, calls).
Proof.
  destruct (draw_handled_iff (initial 1 true) GL_QUAD_STRIP 0 5)
    as (handled & calls & Hrun & Hiff).
  exists calls. rewrite Hrun. do 3 f_equal. apply Hiff. split; [by right|lia].
Defined.

(** ** The polygon mode around a draw *)

Lemma polygon_after_app t1 t2 pm :
  polygon_after (t1 ++ t2) pm = polygon_after t2 (polygon_after t1 pm).
Proof. unfold polygon_after. apply foldl_app. Qed.

Lemma polygon_after_triangles_calls (cs : list (Z * list Z)) pm :
  polygon_after (concat ((fun p => triangles_calls p.1 p.2) <$> cs)) pm = pm.
Proof. induction cs as [|[n a] cs IH]; [done|]. csimpl. apply IH. Qed.

Lemma polygon_after_lines_calls (len : Z -> Z) (cs : list (Z * list Z)) pm :
  polygon_after (concat ((fun p => lines_calls (len p.1) p.2) <$> cs)) pm = pm.
Proof. induction cs as [|[n a] cs IH]; [done|]. csimpl. apply IH. Qed.

(** Forcing a style and restoring the faces that differ from it gives
    back the recorded styles, when the body between them leaves the
    polygon mode alone. *)
Lemma polygon_after_wrapped q style body :
  (forall pm, polygon_after body pm = pm) ->
  polygon_after (force q style ++ body ++ restore q style)
                (frontFaceMode q, backFaceMode q)
  = (frontFaceMode q, backFaceMode q).
Proof.
  intros Hbody. rewrite !polygon_after_app, Hbody.
  unfold force, restore.
  destruct (Z.eqb_spec (frontFaceMode q) style) as [Ef|Ef],
    (Z.eqb_spec (backFaceMode q) style) as [Eb|Eb]; simpl.
  - done.
  - by rewrite <- Ef.
  - by rewrite <- Eb.
  - done.
Qed.

Lemma polygon_after_draw q mode first count :
  polygon_after (glDrawArrays_result q mode first count).2
                (frontFaceMode q, backFaceMode q)
  = (frontFaceMode q, backFaceMode q).
Proof.
  unfold glDrawArrays_result.
  destruct (negb (mode =? GL_QUADS) && negb (mode =? GL_QUAD_STRIP)); [done|].
  destruct (count <? 0); [done|]. destruct (count <? 4); [done|].
  destruct (cullingFaces q && (cullFace q =? GL_FRONT_AND_BACK)); [done|].
  destruct (draw_flags q) as [[[dq dl] dp]|]; [|done]. simpl.
  destruct dq; [|destruct dl; [|destruct dp; [|done]]].
  - apply polygon_after_wrapped. intros pm.
    destruct (mode =? GL_QUAD_STRIP); [|destruct (mode =? GL_QUADS); [|done]].
    + change (GlBindBuffer ?t ?b :: ?l) with ([GlBindBuffer t b] ++ l).
      by rewrite !polygon_after_app, polygon_after_triangles_calls.
    + change (GlBindBuffer ?t ?b :: ?l) with ([GlBindBuffer t b] ++ l).
      by rewrite !polygon_after_app, polygon_after_triangles_calls.
  - apply polygon_after_wrapped. intros pm.
    destruct (mode =? GL_QUAD_STRIP); [|destruct (mode =? GL_QUADS); [|done]].
    + apply (polygon_after_lines_calls (fun n => n * 6 + 2)).
    + apply (polygon_after_lines_calls (fun n => n * 8)).
  - by apply polygon_after_wrapped.
Qed.

(** A draw leaves the polygon mode of the backend as the object records
    it: whatever style it forces on both faces for its triangles, lines or
    points, it sets each face back to frontFaceMode and backFaceMode before
    it returns. *)
Theorem draw_restores_polygon_mode q mode first count :
  exists handled calls,
    glDrawArrays mode first count q = Some (handled, q, calls)
    /\ polygon_after calls (frontFaceMode q, backFaceMode q)
       = (frontFaceMode q, backFaceMode q).
Proof.
  rewrite glDrawArrays_runs. do 2 eexists. split; [reflexivity|].
  apply polygon_after_draw.
Qed.

(** ** The points branch *)

(** A draw that resolves to points forwards the vertex range as one
    glDrawArrays(GL_POINTS) call, with the count rounded down to a whole
    number of quads (a multiple of 4) or of strip vertex pairs (a multiple
    of 2); the range drawn lies within the range asked for. *)
Theorem draw_points_range q mode first count s :
  mode = GL_QUADS \/ mode = GL_QUAD_STRIP -> 4 <= count ->
  ~ In GL_FILL (active_styles q) -> ~ In GL_LINE (active_styles q) ->
  In GL_POINT (active_styles q) ->
  exists calls,
    glDrawArrays mode first count q = Some (true, q, calls)
    /\ submissions calls s
       = [Arrays GL_POINTS first
            (if mode =? GL_QUADS then 4 * (count `div` 4) else 2 * (count `div` 2))]
    /\ (if mode =? GL_QUADS then 4 * (count `div` 4) else 2 * (count `div` 2)) <= count.
Proof.
  intros Hmode Hc Hfill Hline Hpoint.
  rewrite glDrawArrays_runs, resolve_points by done.
  eexists. split; [reflexivity|]. simpl snd. rewrite submissions_points.
  destruct Hmode as [-> | ->]; simpl.
  - rewrite mask_count_quads by lia. split; [done|]. lia_div.
  - rewrite mask_count_strip by lia. split; [done|]. lia_div.
Qed.

(** Seven vertices of a quad list in POINT style: four are drawn. *)
Lemma draw_points_range_witness :
  exists calls,
    glDrawArrays GL_QUADS 2 7
      (set_backFaceMode GL_POINT (set_frontFaceMode GL_POINT (initial 1 true)))
    = Some (true,
            set_backFaceMode GL_POINT (set_frontFaceMode GL_POINT (initial 1 true)),
            calls)
    /\ submissions calls idle_backend = [Arrays GL_POINTS 2 4].
Proof.
  destruct (draw_points_range
              (set_backFaceMode GL_POINT (set_frontFaceMode GL_POINT (initial 1 true)))
              GL_QUADS 2 7 idle_backend) as (calls & Hrun & Hsub & _).
  - left. reflexivity.
  - lia.
  - simpl. intros [H | [H | []]]; discriminate.
  - simpl. intros [H | [H | []]]; discriminate.
  - simpl. auto.
  - exists calls. split; [exact Hrun|]. rewrite Hsub. reflexivity.
Defined.

(** ** The submissions of each branch *)

Lemma length_quads_line_pattern q first ii : length (quads_line_pattern q first ii) = 8%nat.
Proof. unfold quads_line_pattern. by destruct (flat_first_vertex q). Qed.

Lemma quads_line_indices_fill q first n :
  quads_line_indices q first n
  = for_ii n (fun ii => store_at (ii * 8) (quads_line_pattern q first ii))
      (local_array (EMU_QUADS_BUFFER_SIZE * 8)).
Proof.
  unfold quads_line_indices, quads_line_pattern. by destruct (flat_first_vertex q).
Qed.

Lemma length_quads_line_indices q first n :
  length (quads_line_indices q first n) = Z.to_nat (EMU_QUADS_BUFFER_SIZE * 8).
Proof.
  rewrite quads_line_indices_fill, length_for_ii_store. by apply length_local_array.
Qed.

Lemma take_quads_line_indices q first n :
  0 <= n <= 1024 ->
  take (Z.to_nat (n * 8)) (quads_line_indices q first n)
  = pattern_run (quads_line_pattern q first) 0 n.
Proof.
  intros Hn. rewrite quads_line_indices_fill.
  replace (Z.to_nat (n * 8)) with (8 * Z.to_nat n)%nat by lia.
  apply (take_for_ii_store 8); [apply length_quads_line_pattern|lia|].
  rewrite length_local_array by done. unfold EMU_QUADS_BUFFER_SIZE. lia.
Qed.

Lemma quads_line_pattern_shift q first ii :
  (fun x => u32 (x + 1024 * 4)) <$> (u32 <$> quads_line_pattern q first ii)
  = u32 <$> quads_line_pattern q first (ii + 1024).
Proof.
  unfold quads_line_pattern.
  destruct (flat_first_vertex q);
    unfold quads_line_flat_first, quads_line_other; shift_pattern.
Qed.

Lemma quads_line_chunks_image q first count :
  4 <= count ->
  (fun p => take (Z.to_nat (p.1 * 8)) p.2) <$> quads_line_chunks q first count
  = (fun j => pattern_run (quads_line_pattern q first) (1024 * j)
                (Z.min (count `div` 4 - 1024 * j) 1024))
      <$> seqZ 0 ((count `div` 4 - 1) `div` 1024 + 1).
Proof.
  intros Hc. unfold quads_line_chunks.
  pose proof (mask_count_quads count ltac:(lia)) as Hm.
  set (c := mask_count GL_QUADS count) in *.
  assert (Hc4 : 4 <= c) by (rewrite Hm; lia_div).
  change (fun p : Z * list Z => take (Z.to_nat (p.1 * 8)) p.2)
    with (snd ∘ (fun p : Z * list Z => (p.1, take (Z.to_nat (p.1 * 8)) p.2))).
  rewrite list_fmap_compose.
  rewrite (chunks_image 4 quads_n (fun n => n * 8) ltac:(lia)
             (pattern_run (quads_line_pattern q first))) with (o := 0).
  - rewrite <- list_fmap_compose.
    replace ((c - 4) `div` (1024 * 4) + 1) with ((count `div` 4 - 1) `div` 1024 + 1)
      by (rewrite Hm; lia_div).
    apply fmap_seqZ_ext. intros j Hj. simpl.
    assert (0 <= c - 1024 * 4 * j) by (rewrite Hm; lia_div).
    rewrite quads_n_min by done. rewrite Hm. f_equal. lia_div.
  - intros; lia.
  - intros; lia.
  - intros o n n' Hn.
    replace (Z.to_nat (n' * 8)) with (8 * Z.to_nat n')%nat by lia.
    rewrite (take_pattern_run 8) by (intros; apply length_quads_line_pattern || lia).
    apply shift_pattern_run. intros. apply quads_line_pattern_shift.
  - apply quads_n_step.
  - done.
  - by apply chunk_bound_quads; lia.
  - rewrite length_quads_line_indices, quads_n_min by lia.
    unfold EMU_QUADS_BUFFER_SIZE. lia.
  - apply take_quads_line_indices. rewrite quads_n_min by lia. lia_div.
Qed.

(** A quads draw that resolves to triangles submits, chunk by chunk, the
    pattern of the shading state for each quad. *)
Lemma quads_triangles_submissions q first count s :
  4 <= count -> In GL_FILL (active_styles q) ->
  glDrawArrays GL_QUADS first count q
  = Some (true, q, (glDrawArrays_result q GL_QUADS first count).2)
  /\ submissions (glDrawArrays_result q GL_QUADS first count).2 s
     = (fun j => Indexed GL_TRIANGLES
                   (pattern_run (quads_tri_pattern q first) (1024 * j)
                      (Z.min (count `div` 4 - 1024 * j) 1024)))
         <$> seqZ 0 ((count `div` 4 - 1) `div` 1024 + 1).
Proof.
  intros Hc Hfill. rewrite glDrawArrays_runs, resolve_triangles by (done || by left).
  split; [done|]. simpl snd. rewrite submissions_triangles_quads.
  change (fun p : Z * list Z => Indexed GL_TRIANGLES (take (Z.to_nat (p.1 * 6)) p.2))
    with (Indexed GL_TRIANGLES ∘ (fun p : Z * list Z => take (Z.to_nat (p.1 * 6)) p.2)).
  by rewrite list_fmap_compose, quads_tri_chunks_image, <- list_fmap_compose.
Qed.

Lemma strip_triangles_submissions q first count s :
  4 <= count -> In GL_FILL (active_styles q) ->
  glDrawArrays GL_QUAD_STRIP first count q
  = Some (true, q, (glDrawArrays_result q GL_QUAD_STRIP first count).2)
  /\ submissions (glDrawArrays_result q GL_QUAD_STRIP first count).2 s
     = (fun j => Indexed GL_TRIANGLES
                   (pattern_run (strip_tri_pattern q first) (1024 * j)
                      (Z.min (count `div` 2 - 1 - 1024 * j) 1024)))
         <$> seqZ 0 ((count `div` 2 - 1) `div` 1024 + 1).
Proof.
  intros Hc Hfill. rewrite glDrawArrays_runs, resolve_triangles by (done || by right).
  split; [done|]. simpl snd. rewrite submissions_triangles_strip.
  change (fun p : Z * list Z => Indexed GL_TRIANGLES (take (Z.to_nat (p.1 * 6)) p.2))
    with (Indexed GL_TRIANGLES ∘ (fun p : Z * list Z => take (Z.to_nat (p.1 * 6)) p.2)).
  by rewrite list_fmap_compose, strip_tri_chunks_image, <- list_fmap_compose.
Qed.

Lemma quads_lines_submissions q first count s :
  4 <= count -> ~ In GL_FILL (active_styles q) -> In GL_LINE (active_styles q) ->
  glDrawArrays GL_QUADS first count q
  = Some (true, q, (glDrawArrays_result q GL_QUADS first count).2)
  /\ submissions (glDrawArrays_result q GL_QUADS first count).2 s
     = (fun j => Indexed GL_LINES
                   (pattern_run (quads_line_pattern q first) (1024 * j)
                      (Z.min (count `div` 4 - 1024 * j) 1024)))
         <$> seqZ 0 ((count `div` 4 - 1) `div` 1024 + 1).
Proof.
  intros Hc Hfill Hline.
  rewrite glDrawArrays_runs, resolve_lines by (done || by left).
  split; [done|]. simpl snd. rewrite submissions_lines_quads.
  change (fun p : Z * list Z => Indexed GL_LINES (take (Z.to_nat (p.1 * 8)) p.2))
    with (Indexed GL_LINES ∘ (fun p : Z * list Z => take (Z.to_nat (p.1 * 8)) p.2)).
  by rewrite list_fmap_compose, quads_line_chunks_image, <- list_fmap_compose.
Qed.

Lemma pattern_run_ext (pat f : Z -> list Z) o n :
  (forall i, u32 <$> pat i = f i) -> pattern_run pat o n = concat (f <$> seqZ o n).
Proof.
  intros H. unfold pattern_run. f_equal. apply list_fmap_ext. intros _ i _. apply H.
Qed.

Lemma last_vertex_true q :
  gl_quads_follow_provoking_vertex_convention q = false
  \/ provokeMode q = GL_LAST_VERTEX_CONVENTION ->
  last_vertex q = true.
Proof.
  unfold last_vertex. intros [-> | ->]; [done|]. by rewrite orb_true_r.
Qed.

Lemma last_vertex_false q :
  gl_quads_follow_provoking_vertex_convention q = true ->
  provokeMode q <> GL_LAST_VERTEX_CONVENTION ->
  last_vertex q = false.
Proof.
  unfold last_vertex. intros -> H.
  by destruct (Z.eqb_spec (provokeMode q) GL_LAST_VERTEX_CONVENTION).
Qed.

Lemma flat_first_vertex_true q :
  shadeMode q = GL_FLAT -> gl_quads_follow_provoking_vertex_convention q = true ->
  provokeMode q = GL_FIRST_VERTEX_CONVENTION ->
  flat_first_vertex q = true.
Proof. unfold flat_first_vertex. by intros -> -> ->. Qed.

Lemma flat_first_vertex_false q :
  shadeMode q <> GL_FLAT
  \/ gl_quads_follow_provoking_vertex_convention q = false
  \/ provokeMode q <> GL_FIRST_VERTEX_CONVENTION ->
  flat_first_vertex q = false.
Proof.
  unfold flat_first_vertex. intros [H | [H | H]].
  - by destruct (Z.eqb_spec (shadeMode q) GL_FLAT).
  - rewrite H. by rewrite andb_false_r.
  - destruct (Z.eqb_spec (provokeMode q) GL_FIRST_VERTEX_CONVENTION); [done|].
    by rewrite andb_false_r.
Qed.

(** ** Quads to triangles under flat shading *)

(** Under flat shading with the LAST_VERTEX convention (or with the
    convention capability off) the quad [i] with vertices v0..v3 =
    first+4i .. first+4i+3 becomes the triangles (v0,v1,v3) and (v1,v2,v3):
    both end in v3, the last vertex of the quad.  Submission [j] carries
    the quads from 1024*j on, at most 1024 of them. *)
Theorem quads_flat_last_triangles q first count s :
  shadeMode q = GL_FLAT ->
  gl_quads_follow_provoking_vertex_convention q = false
  \/ provokeMode q = GL_LAST_VERTEX_CONVENTION ->
  In GL_FILL (active_styles q) -> 4 <= count ->
  exists calls,
    glDrawArrays GL_QUADS first count q = Some (true, q, calls)
    /\ submissions calls s
       = (fun j =>
            Indexed GL_TRIANGLES
              (concat ((fun i => let v k := u32 (first + 4 * i + k) in
                                 [v 0; v 1; v 3; v 1; v 2; v 3])
                         <$> seqZ (1024 * j) (Z.min (count `div` 4 - 1024 * j) 1024))))
           <$> seqZ 0 ((count `div` 4 - 1) `div` 1024 + 1).
Proof.
  intros Hshade Hlast Hfill Hc.
  destruct (quads_triangles_submissions q first count s Hc Hfill) as [Hrun Hsub].
  eexists. split; [exact Hrun|]. rewrite Hsub.
  apply list_fmap_ext. intros _ j _. simpl. f_equal.
  unfold quads_tri_pattern. rewrite Hshade, (last_vertex_true q Hlast). simpl.
  apply pattern_run_ext. unfold quads_tri_flat_last. same_pattern.
Qed.

(** Two quads from vertex 10 under flat shading. *)
Lemma quads_flat_last_triangles_witness :
  exists calls,
    glDrawArrays GL_QUADS 10 8 (set_shadeMode GL_FLAT (initial 1 true))
    = Some (true, set_shadeMode GL_FLAT (initial 1 true), calls)
    /\ submissions calls idle_backend
       = [Indexed GL_TRIANGLES [10; 11; 13; 11; 12; 13; 14; 15; 17; 15; 16; 17]].
Proof.
  destruct (quads_flat_last_triangles (set_shadeMode GL_FLAT (initial 1 true))
              10 8 idle_backend) as (calls & Hrun & Hsub).
  - reflexivity.
  - right. reflexivity.
  - simpl. auto.
  - lia.
  - exists calls. split; [exact Hrun|]. rewrite Hsub. reflexivity.
Defined.

(** Under flat shading with the convention capability on and a provoking
    mode other than LAST_VERTEX, the quad [i] becomes the triangles
    (v1,v2,v0) and (v2,v3,v0): both end in v0, the first vertex of the
    quad. *)
Theorem quads_flat_first_triangles q first count s :
  shadeMode q = GL_FLAT ->
  gl_quads_follow_provoking_vertex_convention q = true ->
  provokeMode q <> GL_LAST_VERTEX_CONVENTION ->
  In GL_FILL (active_styles q) -> 4 <= count ->
  exists calls,
    glDrawArrays GL_QUADS first count q = Some (true, q, calls)
    /\ submissions calls s
       = (fun j =>
            Indexed GL_TRIANGLES
              (concat ((fun i => let v k := u32 (first + 4 * i + k) in
                                 [v 1; v 2; v 0; v 2; v 3; v 0])
                         <$> seqZ (1024 * j) (Z.min (count `div` 4 - 1024 * j) 1024))))
           <$> seqZ 0 ((count `div` 4 - 1) `div` 1024 + 1).
Proof.
  intros Hshade Hconv Hprov Hfill Hc.
  destruct (quads_triangles_submissions q first count s Hc Hfill) as [Hrun Hsub].
  eexists. split; [exact Hrun|]. rewrite Hsub.
  apply list_fmap_ext. intros _ j _. simpl. f_equal.
  unfold quads_tri_pattern. rewrite Hshade, (last_vertex_false q Hconv Hprov). simpl.
  apply pattern_run_ext. unfold quads_tri_flat_first. same_pattern.
Qed.

(** One quad under flat shading with the first-vertex convention. *)
Lemma quads_flat_first_triangles_witness :
  exists calls,
    glDrawArrays GL_QUADS 0 4
      (set_provokeMode GL_FIRST_VERTEX_CONVENTION
         (set_shadeMode GL_FLAT (initial 1 true)))
    = Some (true,
            set_provokeMode GL_FIRST_VERTEX_CONVENTION
              (set_shadeMode GL_FLAT (initial 1 true)),
            calls)
    /\ submissions calls idle_backend = [Indexed GL_TRIANGLES [1; 2; 0; 2; 3; 0]].
Proof.
  destruct (quads_flat_first_triangles
              (set_provokeMode GL_FIRST_VERTEX_CONVENTION
                 (set_shadeMode GL_FLAT (initial 1 true)))
              0 4 idle_backend) as (calls & Hrun & Hsub).
  - reflexivity.
  - reflexivity.
  - discriminate.
  - simpl. auto.
  - lia.
  - exists calls. split; [exact Hrun|]. rewrite Hsub. reflexivity.
Defined.

(** ** Quad strips to triangles: smooth shading and the first vertex *)

(** Under smooth shading the strip step [i] -- v0,v1 = first+2i,
    first+2i+1 and v2,v3 the next pair -- becomes the triangles (v1,v3,v0)
    and (v2,v0,v3). *)
Theorem strip_smooth_triangles q first count s :
  shadeMode q <> GL_FLAT -> In GL_FILL (active_styles q) -> 4 <= count ->
  exists calls,
    glDrawArrays GL_QUAD_STRIP first count q = Some (true, q, calls)
    /\ submissions calls s
       = (fun j =>
            Indexed GL_TRIANGLES
              (concat ((fun i => let v k := u32 (first + 2 * i + k) in
                                 [v 1; v 3; v 0; v 2; v 0; v 3])
                         <$> seqZ (1024 * j)
                               (Z.min (count `div` 2 - 1 - 1024 * j) 1024))))
           <$> seqZ 0 ((count `div` 2 - 1) `div` 1024 + 1).
Proof.
  intros Hshade Hfill Hc.
  destruct (strip_triangles_submissions q first count s Hc Hfill) as [Hrun Hsub].
  eexists. split; [exact Hrun|]. rewrite Hsub.
  apply list_fmap_ext. intros _ j _. simpl. f_equal.
  unfold strip_tri_pattern.
  destruct (Z.eqb_spec (shadeMode q) GL_FLAT); [done|]. simpl.
  apply pattern_run_ext. unfold strip_tri_smooth. same_pattern.
Qed.

(** A strip of two steps on the object [Init] leaves. *)
Lemma strip_smooth_triangles_witness :
  exists calls,
    glDrawArrays GL_QUAD_STRIP 0 6 (initial 1 true) = Some (true, initial 1 true, calls)
    /\ submissions calls idle_backend
       = [Indexed GL_TRIANGLES [1; 3; 0; 2; 0; 3; 3; 5; 2; 4; 2; 5]].
Proof.
  destruct (strip_smooth_triangles (initial 1 true) 0 6 idle_backend)
    as (calls & Hrun & Hsub).
  - discriminate.
  - simpl. auto.
  - lia.
  - exists calls. split; [exact Hrun|]. rewrite Hsub. reflexivity.
Defined.

(** Under flat shading with the convention capability on and a provoking
    mode other than LAST_VERTEX, the strip step [i] becomes the triangles
    (v1,v3,v0) and (v3,v2,v0): both end in v0, the first vertex of the
    step. *)
Theorem strip_flat_first_triangles q first count s :
  shadeMode q = GL_FLAT ->
  gl_quads_follow_provoking_vertex_convention q = true ->
  provokeMode q <> GL_LAST_VERTEX_CONVENTION ->
  In GL_FILL (active_styles q) -> 4 <= count ->
  exists calls,
    glDrawArrays GL_QUAD_STRIP first count q = Some (true, q, calls)
    /\ submissions calls s
       = (fun j =>
            Indexed GL_TRIANGLES
              (concat ((fun i => let v k := u32 (first + 2 * i + k) in
                                 [v 1; v 3; v 0; v 3; v 2; v 0])
                         <$> seqZ (1024 * j)
                               (Z.min (count `div` 2 - 1 - 1024 * j) 1024))))
           <$> seqZ 0 ((count `div` 2 - 1) `div` 1024 + 1).
Proof.
  intros Hshade Hconv Hprov Hfill Hc.
  destruct (strip_triangles_submissions q first count s Hc Hfill) as [Hrun Hsub].
  eexists. split; [exact Hrun|]. rewrite Hsub.
  apply list_fmap_ext. intros _ j _. simpl. f_equal.
  unfold strip_tri_pattern. rewrite Hshade, (last_vertex_false q Hconv Hprov). simpl.
  apply pattern_run_ext. unfold strip_tri_flat_first. same_pattern.
Qed.

(** One strip step under flat shading with the first-vertex convention. *)
Lemma strip_flat_first_triangles_witness :
  exists calls,
    glDrawArrays GL_QUAD_STRIP 0 4
      (set_provokeMode GL_FIRST_VERTEX_CONVENTION
         (set_shadeMode GL_FLAT (initial 1 true)))
    = Some (true,
            set_provokeMode GL_FIRST_VERTEX_CONVENTION
              (set_shadeMode GL_FLAT (initial 1 true)),
            calls)
    /\ submissions calls idle_backend = [Indexed GL_TRIANGLES [1; 3; 0; 3; 2; 0]].
Proof.
  destruct (strip_flat_first_triangles
              (set_provokeMode GL_FIRST_VERTEX_CONVENTION
                 (set_shadeMode GL_FLAT (initial 1 true)))
              0 4 idle_backend) as (calls & Hrun & Hsub).
  - reflexivity.
  - reflexivity.
  - discriminate.
  - simpl. auto.
  - lia.
  - exists calls. split; [exact Hrun|]. rewrite Hsub. reflexivity.
Defined.

(** ** Quads to outlines *)

(** Outside flat shading with the first-vertex convention in force, a
    quads draw that resolves to lines submits, for the quad [i], the four
    edges (v1,v0), (v0,v3), (v1,v2), (v2,v3): eight indices, the diagonal
    is not among them. *)
Theorem quads_outline_lines q first count s :
  shadeMode q <> GL_FLAT
  \/ gl_quads_follow_provoking_vertex_convention q = false
  \/ provokeMode q <> GL_FIRST_VERTEX_CONVENTION ->
  ~ In GL_FILL (active_styles q) -> In GL_LINE (active_styles q) -> 4 <= count ->
  exists calls,
    glDrawArrays GL_QUADS first count q = Some (true, q, calls)
    /\ submissions calls s
       = (fun j =>
            Indexed GL_LINES
              (concat ((fun i => let v k := u32 (first + 4 * i + k) in
                                 [v 1; v 0; v 0; v 3; v 1; v 2; v 2; v 3])
                         <$> seqZ (1024 * j) (Z.min (count `div` 4 - 1024 * j) 1024))))
           <$> seqZ 0 ((count `div` 4 - 1) `div` 1024 + 1).
Proof.
  intros Hstate Hfill Hline Hc.
  destruct (quads_lines_submissions q first count s Hc Hfill Hline) as [Hrun Hsub].
  eexists. split; [exact Hrun|]. rewrite Hsub.
  apply list_fmap_ext. intros _ j _. simpl. f_equal.
  unfold quads_line_pattern. rewrite (flat_first_vertex_false q Hstate).
  apply pattern_run_ext. unfold quads_line_other. same_pattern.
Qed.

(** One quad with both faces in LINE style. *)
Lemma quads_outline_lines_witness :
  exists calls,
    glDrawArrays GL_QUADS 0 4
      (set_backFaceMode GL_LINE (set_frontFaceMode GL_LINE (initial 1 true)))
    = Some (true,
            set_backFaceMode GL_LINE (set_frontFaceMode GL_LINE (initial 1 true)),
            calls)
    /\ submissions calls idle_backend = [Indexed GL_LINES [1; 0; 0; 3; 1; 2; 2; 3]].
Proof.
  destruct (quads_outline_lines
              (set_backFaceMode GL_LINE (set_frontFaceMode GL_LINE (initial 1 true)))
              0 4 idle_backend) as (calls & Hrun & Hsub).
  - left. discriminate.
  - simpl. intros [H | [H | []]]; discriminate.
  - simpl. auto.
  - lia.
  - exists calls. split; [exact Hrun|]. rewrite Hsub. reflexivity.
Defined.

(** Under flat shading with the first-vertex convention in force the four
    edges of the quad [i] are submitted as (v0,v1), (v0,v3), (v1,v2),
    (v3,v2). *)
Theorem quads_outline_flat_first_lines q first count s :
  shadeMode q = GL_FLAT ->
  gl_quads_follow_provoking_vertex_convention q = true ->
  provokeMode q = GL_FIRST_VERTEX_CONVENTION ->
  ~ In GL_FILL (active_styles q) -> In GL_LINE (active_styles q) -> 4 <= count ->
  exists calls,
    glDrawArrays GL_QUADS first count q = Some (true, q, calls)
    /\ submissions calls s
       = (fun j =>
            Indexed GL_LINES
              (concat ((fun i => let v k := u32 (first + 4 * i + k) in
                                 [v 0; v 1; v 0; v 3; v 1; v 2; v 3; v 2])
                         <$> seqZ (1024 * j) (Z.min (count `div` 4 - 1024 * j) 1024))))
           <$> seqZ 0 ((count `div` 4 - 1) `div` 1024 + 1).
Proof.
  intros Hshade Hconv Hprov Hfill Hline Hc.
  destruct (quads_lines_submissions q first count s Hc Hfill Hline) as [Hrun Hsub].
  eexists. split; [exact Hrun|]. rewrite Hsub.
  apply list_fmap_ext. intros _ j _. simpl. f_equal.
  unfold quads_line_pattern. rewrite (flat_first_vertex_true q Hshade Hconv Hprov).
  apply pattern_run_ext. unfold quads_line_flat_first. same_pattern.
Qed.

(** One quad in LINE style under flat shading, first-vertex convention. *)
Lemma quads_outline_flat_first_lines_witness :
  exists calls,
    glDrawArrays GL_QUADS 0 4
      (set_provokeMode GL_FIRST_VERTEX_CONVENTION
         (set_shadeMode GL_FLAT
            (set_backFaceMode GL_LINE (set_frontFaceMode GL_LINE (initial 1 true)))))
    = Some (true,
            set_provokeMode GL_FIRST_VERTEX_CONVENTION
              (set_shadeMode GL_FLAT
                 (set_backFaceMode GL_LINE (set_frontFaceMode GL_LINE (initial 1 true)))),
            calls)
    /\ submissions calls idle_backend = [Indexed GL_LINES [0; 1; 0; 3; 1; 2; 3; 2]].
Proof.
  destruct (quads_outline_flat_first_lines
              (set_provokeMode GL_FIRST_VERTEX_CONVENTION
                 (set_shadeMode GL_FLAT
                    (set_backFaceMode GL_LINE
                       (set_frontFaceMode GL_LINE (initial 1 true)))))
              0 4 idle_backend) as (calls & Hrun & Hsub).
  - reflexivity.
  - reflexivity.
  - reflexivity.
  - simpl. intros [H | [H | []]]; discriminate.
  - simpl. auto.
  - lia.
  - exists calls. split; [exact Hrun|]. rewrite Hsub. reflexivity.
Defined.

(** ** Chunking and the index stream *)

(** Full chunks of 1024 primitives, laid end to end. *)
Lemma concat_full_chunks (pat : Z -> list Z) (T : Z) (k : nat) :
  1024 * Z.of_nat k <= T ->
  concat ((fun j => pattern_run pat (1024 * j) (Z.min (T - 1024 * j) 1024))
            <$> seqZ 0 (Z.of_nat k))
  = pattern_run pat 0 (1024 * Z.of_nat k).
Proof.
  induction k as [|k IH]; intros HT; [done|].
  rewrite seqZ_S, fmap_app, concat_app, IH by lia. simpl.
  rewrite app_nil_r, Z.min_r by lia.
  replace (1024 * Z.of_nat (S k)) with (1024 * Z.of_nat k + 1024) by lia.
  by rewrite pattern_run_app by lia.
Qed.

(** The chunks of a draw of [T] primitives, laid end to end, are the
    patterns of the primitives 0 .. T-1 in order. *)
Lemma concat_chunks (pat : Z -> list Z) (T J : Z) :
  1 <= J -> 1024 * (J - 1) <= T <= 1024 * J ->
  concat ((fun j => pattern_run pat (1024 * j) (Z.min (T - 1024 * j) 1024))
            <$> seqZ 0 J)
  = pattern_run pat 0 T.
Proof.
  intros HJ HT.
  replace J with (Z.of_nat (S (Z.to_nat (J - 1)))) by lia.
  rewrite seqZ_S, fmap_app, concat_app, concat_full_chunks by lia. simpl.
  rewrite app_nil_r, Z.min_l by lia.
  rewrite <- pattern_run_app by lia. f_equal. lia.
Qed.

Lemma concat_indexed {A} (mode : Z) (f : A -> list Z) (l : list A) :
  concat (submission_indices <$> ((fun x => Indexed mode (f x)) <$> l))
  = concat (f <$> l).
Proof. induction l as [|x l IH]; [done|]. csimpl. by rewrite IH. Qed.

Lemma quads_triangles_indices q first count s :
  In GL_FILL (active_styles q) -> 4 <= count ->
  glDrawArrays GL_QUADS first count q
  = Some (true, q, (glDrawArrays_result q GL_QUADS first count).2)
  /\ concat (submission_indices
              <$> submissions (glDrawArrays_result q GL_QUADS first count).2 s)
     = pattern_run (quads_tri_pattern q first) 0 (count `div` 4).
Proof.
  intros Hfill Hc.
  destruct (quads_triangles_submissions q first count s Hc Hfill) as [Hrun Hsub].
  split; [exact Hrun|]. rewrite Hsub, concat_indexed. apply concat_chunks; lia_div.
Qed.

Lemma strip_triangles_indices q first count s :
  In GL_FILL (active_styles q) -> 4 <= count ->
  glDrawArrays GL_QUAD_STRIP first count q
  = Some (true, q, (glDrawArrays_result q GL_QUAD_STRIP first count).2)
  /\ concat (submission_indices
              <$> submissions (glDrawArrays_result q GL_QUAD_STRIP first count).2 s)
     = pattern_run (strip_tri_pattern q first) 0 (count `div` 2 - 1).
Proof.
  intros Hfill Hc.
  destruct (strip_triangles_submissions q first count s Hc Hfill) as [Hrun Hsub].
  split; [exact Hrun|]. rewrite Hsub, concat_indexed. apply concat_chunks; lia_div.
Qed.

Lemma quads_lines_indices q first count s :
  ~ In GL_FILL (active_styles q) -> In GL_LINE (active_styles q) -> 4 <= count ->
  glDrawArrays GL_QUADS first count q
  = Some (true, q, (glDrawArrays_result q GL_QUADS first count).2)
  /\ concat (submission_indices
              <$> submissions (glDrawArrays_result q GL_QUADS first count).2 s)
     = pattern_run (quads_line_pattern q first) 0 (count `div` 4).
Proof.
  intros Hfill Hline Hc.
  destruct (quads_lines_submissions q first count s Hc Hfill Hline) as [Hrun Hsub].
  split; [exact Hrun|]. rewrite Hsub, concat_indexed. apply concat_chunks; lia_div.
Qed.

(** Chunking does not show in the index stream of a quads-to-triangles
    draw: the indices of its submissions, in order, are the patterns of the
    quads 0 .. count/4 - 1, each quad once, 6 * (count/4) indices in
    all -- whatever the shading state and however many chunks. *)
Theorem quads_triangles_stream q first count s :
  In GL_FILL (active_styles q) -> 4 <= count ->
  exists calls,
    glDrawArrays GL_QUADS first count q = Some (true, q, calls)
    /\ concat (submission_indices <$> submissions calls s)
       = concat ((fun i => u32 <$> quads_tri_pattern q first i)
                   <$> seqZ 0 (count `div` 4))
    /\ Z.of_nat (length (concat (submission_indices <$> submissions calls s)))
       = 6 * (count `div` 4).
Proof.
  intros Hfill Hc.
  destruct (quads_triangles_indices q first count s Hfill Hc) as [Hrun Hidx].
  eexists. split; [exact Hrun|]. rewrite Hidx. split; [done|].
  rewrite (length_pattern_run 6) by (apply length_quads_tri_pattern || lia_div).
  lia_div.
Qed.

(** 1025 quads: two chunks, one stream of 6150 indices. *)
Lemma quads_triangles_stream_witness :
  exists calls,
    glDrawArrays GL_QUADS 0 4100 (initial 1 true) = Some (true, initial 1 true, calls)
    /\ Z.of_nat (length (concat (submission_indices <$> submissions calls idle_backend)))
       = 6150.
Proof.
  destruct (quads_triangles_stream (initial 1 true) 0 4100 idle_backend)
    as (calls & Hrun & _ & Hlen).
  - simpl. auto.
  - lia.
  - exists calls. split; [exact Hrun|]. rewrite Hlen. reflexivity.
Defined.

(** The same for strips: the indices submitted are the patterns of the
    strip steps 0 .. count/2 - 2, each step once, 6 * (count/2 - 1)
    indices in all. *)
Theorem strip_triangles_stream q first count s :
  In GL_FILL (active_styles q) -> 4 <= count ->
  exists calls,
    glDrawArrays GL_QUAD_STRIP first count q = Some (true, q, calls)
    /\ concat (submission_indices <$> submissions calls s)
       = concat ((fun i => u32 <$> strip_tri_pattern q first i)
                   <$> seqZ 0 (count `div` 2 - 1))
    /\ Z.of_nat (length (concat (submission_indices <$> submissions calls s)))
       = 6 * (count `div` 2 - 1).
Proof.
  intros Hfill Hc.
  destruct (strip_triangles_indices q first count s Hfill Hc) as [Hrun Hidx].
  eexists. split; [exact Hrun|]. rewrite Hidx. split; [done|].
  rewrite (length_pattern_run 6) by (apply length_strip_tri_pattern || lia_div).
  lia_div.
Qed.

(** A strip of 1024 steps: a full chunk and an empty one, 6144 indices. *)
Lemma strip_triangles_stream_witness :
  exists calls,
    glDrawArrays GL_QUAD_STRIP 0 2050 (initial 1 true)
    = Some (true, initial 1 true, calls)
    /\ Z.of_nat (length (concat (submission_indices <$> submissions calls idle_backend)))
       = 6144.
Proof.
  destruct (strip_triangles_stream (initial 1 true) 0 2050 idle_backend)
    as (calls & Hrun & _ & Hlen).
  - simpl. auto.
  - lia.
  - exists calls. split; [exact Hrun|]. rewrite Hlen. reflexivity.
Defined.

(** And for quad outlines: 8 * (count/4) indices, the edges of each quad
    once. *)
Theorem quads_lines_stream q first count s :
  ~ In GL_FILL (active_styles q) -> In GL_LINE (active_styles q) -> 4 <= count ->
  exists calls,
    glDrawArrays GL_QUADS first count q = Some (true, q, calls)
    /\ concat (submission_indices <$> submissions calls s)
       = concat ((fun i => u32 <$> quads_line_pattern q first i)
                   <$> seqZ 0 (count `div` 4))
    /\ Z.of_nat (length (concat (submission_indices <$> submissions calls s)))
       = 8 * (count `div` 4).
Proof.
  intros Hfill Hline Hc.
  destruct (quads_lines_indices q first count s Hfill Hline Hc) as [Hrun Hidx].
  eexists. split; [exact Hrun|]. rewrite Hidx. split; [done|].
  rewrite (length_pattern_run 8) by (apply length_quads_line_pattern || lia_div).
  lia_div.
Qed.

(** 1025 quads in LINE style: 8200 indices. *)
Lemma quads_lines_stream_witness :
  exists calls,
    glDrawArrays GL_QUADS 0 4100
      (set_backFaceMode GL_LINE (set_frontFaceMode GL_LINE (initial 1 true)))
    = Some (true,
            set_backFaceMode GL_LINE (set_frontFaceMode GL_LINE (initial 1 true)),
            calls)
    /\ Z.of_nat (length (concat (submission_indices <$> submissions calls idle_backend)))
       = 8200.
Proof.
  destruct (quads_lines_stream
              (set_backFaceMode GL_LINE (set_frontFaceMode GL_LINE (initial 1 true)))
              0 4100 idle_backend) as (calls & Hrun & _ & Hlen).
  - simpl. intros [H | [H | []]]; discriminate.
  - simpl. auto.
  - lia.
  - exists calls. split; [exact Hrun|]. rewrite Hlen. reflexivity.
Defined.

(** ** The indices stay within the vertex range of the draw *)

Lemma Forall_pattern_run (P : Z -> Prop) (pat : Z -> list Z) o n :
  (forall i, o <= i < o + n -> Forall P (u32 <$> pat i)) ->
  Forall P (pattern_run pat o n).
Proof.
  intros H. unfold pattern_run. apply Forall_concat, Forall_fmap, Forall_seqZ.
  intros i Hi. by apply H.
Qed.

Ltac in_range :=
  cbn [fmap list_fmap];
  repeat (apply Forall_cons; split; [rewrite u32_small by lia; lia|]);
  apply Forall_nil_2.

Lemma quads_tri_pattern_in_range q first count i :
  0 <= first -> first + count <= 2 ^ 32 -> 0 <= i < count `div` 4 ->
  Forall (fun x => first <= x < first + count) (u32 <$> quads_tri_pattern q first i).
Proof.
  intros Hf Hl Hi. assert (4 * (count `div` 4) <= count) by lia_div.
  unfold quads_tri_pattern.
  destruct (negb (shadeMode q =? GL_FLAT)), (last_vertex q);
    unfold quads_tri_smooth, quads_tri_flat_last, quads_tri_flat_first; in_range.
Qed.

Lemma strip_tri_pattern_in_range q first count i :
  0 <= first -> first + count <= 2 ^ 32 -> 0 <= i < count `div` 2 - 1 ->
  Forall (fun x => first <= x < first + count) (u32 <$> strip_tri_pattern q first i).
Proof.
  intros Hf Hl Hi. assert (2 * (count `div` 2) <= count) by lia_div.
  unfold strip_tri_pattern.
  destruct (negb (shadeMode q =? GL_FLAT)), (last_vertex q);
    unfold strip_tri_smooth, strip_tri_flat_last, strip_tri_flat_first; in_range.
Qed.

Lemma quads_line_pattern_in_range q first count i :
  0 <= first -> first + count <= 2 ^ 32 -> 0 <= i < count `div` 4 ->
  Forall (fun x => first <= x < first + count) (u32 <$> quads_line_pattern q first i).
Proof.
  intros Hf Hl Hi. assert (4 * (count `div` 4) <= count) by lia_div.
  unfold quads_line_pattern.
  destruct (flat_first_vertex q);
    unfold quads_line_flat_first, quads_line_other; in_range.
Qed.

Lemma strip_line_other_in_range first count i :
  0 <= first -> first + count <= 2 ^ 32 -> 0 <= i < count `div` 2 - 1 ->
  Forall (fun x => first <= x < first + count) (u32 <$> strip_line_other first i).
Proof.
  intros Hf Hl Hi. assert (2 * (count `div` 2) <= count) by lia_div.
  unfold strip_line_other. in_range.
Qed.

(** Every index of a draw that resolves to triangles names a vertex of
    the range drawn, first .. first + count - 1, in every shading state and
    in every chunk: the shift between chunks never carries an index past the
    end.  ([first] is a valid vertex offset: not negative, and the range
    fits the GLuint indices.) *)
Theorem triangles_indices_in_range q mode first count s :
  mode = GL_QUADS \/ mode = GL_QUAD_STRIP ->
  In GL_FILL (active_styles q) -> 4 <= count ->
  0 <= first -> first + count <= 2 ^ 32 ->
  exists calls,
    glDrawArrays mode first count q = Some (true, q, calls)
    /\ Forall (fun x => first <= x < first + count)
         (concat (submission_indices <$> submissions calls s)).
Proof.
  intros [-> | ->] Hfill Hc Hf Hl.
  - destruct (quads_triangles_indices q first count s Hfill Hc) as [Hrun Hidx].
    eexists. split; [exact Hrun|]. rewrite Hidx.
    apply Forall_pattern_run. intros i Hi.
    apply quads_tri_pattern_in_range; lia.
  - destruct (strip_triangles_indices q first count s Hfill Hc) as [Hrun Hidx].
    eexists. split; [exact Hrun|]. rewrite Hidx.
    apply Forall_pattern_run. intros i Hi.
    apply strip_tri_pattern_in_range; lia.
Qed.

(** A strip of 1500 steps from vertex 7, under flat shading. *)
Lemma triangles_indices_in_range_witness :
  exists calls,
    glDrawArrays GL_QUAD_STRIP 7 3002 (set_shadeMode GL_FLAT (initial 1 true))
    = Some (true, set_shadeMode GL_FLAT (initial 1 true), calls)
    /\ Forall (fun x => 7 <= x < 7 + 3002)
         (concat (submission_indices <$> submissions calls idle_backend)).
Proof.
  apply (triangles_indices_in_range (set_shadeMode GL_FLAT (initial 1 true))
           GL_QUAD_STRIP 7 3002 idle_backend).
  - right. reflexivity.
  - simpl. auto.
  - lia.
  - lia.
  - lia.
Defined.

(** The same for outlines, of quads in every shading state and of strips
    outside flat shading with the first-vertex convention in force. *)
Theorem outline_indices_in_range q mode first count s :
  mode = GL_QUADS
  \/ (mode = GL_QUAD_STRIP
      /\ (shadeMode q <> GL_FLAT
          \/ gl_quads_follow_provoking_vertex_convention q = false
          \/ provokeMode q <> GL_FIRST_VERTEX_CONVENTION)) ->
  ~ In GL_FILL (active_styles q) -> In GL_LINE (active_styles q) -> 4 <= count ->
  0 <= first -> first + count <= 2 ^ 32 ->
  exists calls,
    glDrawArrays mode first count q = Some (true, q, calls)
    /\ Forall (fun x => first <= x < first + count)
         (concat (submission_indices <$> submissions calls s)).
Proof.
  intros [-> | [-> Hstate]] Hfill Hline Hc Hf Hl.
  - destruct (quads_lines_indices q first count s Hfill Hline Hc) as [Hrun Hidx].
    eexists. split; [exact Hrun|]. rewrite Hidx.
    apply Forall_pattern_run. intros i Hi.
    apply quads_line_pattern_in_range; lia.
  - rewrite glDrawArrays_runs, resolve_lines by (done || by right).
    eexists. split; [reflexivity|]. simpl snd.
    rewrite submissions_lines_strip.
    rewrite (concat_indexed GL_LINES
               (fun p : Z * list Z => take (Z.to_nat (p.1 * 6 + 2)) p.2)).
    rewrite strip_line_chunks_image by (done || by apply flat_first_vertex_false).
    assert (2 * (count `div` 2) <= count) by lia_div.
    apply Forall_concat, Forall_fmap, Forall_seqZ. intros j Hj. simpl.
    assert (1024 * j <= count `div` 2 - 1) by lia_div.
    apply Forall_cons; split; [rewrite u32_small by lia; lia|].
    apply Forall_cons; split; [rewrite u32_small by lia; lia|].
    apply Forall_pattern_run. intros i Hi.
    apply strip_line_other_in_range; lia.
Qed.

(** A strip of 1500 steps from vertex 7, both faces in LINE style. *)
Lemma outline_indices_in_range_witness :
  exists calls,
    glDrawArrays GL_QUAD_STRIP 7 3002
      (set_backFaceMode GL_LINE (set_frontFaceMode GL_LINE (initial 1 true)))
    = Some (true,
            set_backFaceMode GL_LINE (set_frontFaceMode GL_LINE (initial 1 true)),
            calls)
    /\ Forall (fun x => 7 <= x < 7 + 3002)
         (concat (submission_indices <$> submissions calls idle_backend)).
Proof.
  apply (outline_indices_in_range
           (set_backFaceMode GL_LINE (set_frontFaceMode GL_LINE (initial 1 true)))
           GL_QUAD_STRIP 7 3002 idle_backend).
  - right. split; [reflexivity|]. left. discriminate.
  - simpl. intros [H | [H | []]]; discriminate.
  - simpl. auto.
  - lia.
  - lia.
  - lia.
Defined.

(** ** Quad strips to outlines under flat shading, first vertex *)

Lemma chunks_single v next_n len fuel c n a :
  v <= c -> c - EMU_QUADS_BUFFER_SIZE * v < v -> (0 < fuel)%nat ->
  chunks v next_n len fuel c n a = [(n, a)].
Proof.
  intros Hc Hlast Hfuel. destruct fuel as [|fuel]; [lia|]. simpl.
  destruct (Z.ltb_spec c v); [lia|].
  destruct (Z.geb_spec (c - EMU_QUADS_BUFFER_SIZE * v) v); [lia|].
  by rewrite chunks_done by lia.
Qed.

(** With the first-vertex convention in force under flat shading, the
    strip outline array holds the edges of each step and then the pair
    [first + 2n + 1], [first + 2n]. *)
Lemma take_strip_line_indices_flat_first q first n :
  flat_first_vertex q = true -> 0 <= n <= 1024 ->
  take (Z.to_nat (n * 6 + 2)) (strip_line_indices q first n)
  = pattern_run (strip_line_flat_first first) 0 n
    ++ [u32 (first + n * 2 + 1); u32 (first + n * 2 + 0)].
Proof.
  intros Hq Hn. unfold strip_line_indices. rewrite Hq.
  rewrite (for_ii_store 0 6); [|intros; lia|done|lia|].
  2:{ rewrite length_local_array by done. unfold EMU_QUADS_BUFFER_SIZE. lia. }
  fold (pattern_run (strip_line_flat_first first) 0 n).
  rewrite take_0, app_nil_l, Nat.add_0_l.
  set (rest := drop _ _).
  assert (Hrun : length (pattern_run (strip_line_flat_first first) 0 n)
                 = (6 * Z.to_nat n)%nat)
    by (apply (length_pattern_run 6); (done || lia)).
  assert (Hrest : length rest = Z.to_nat (EMU_QUADS_BUFFER_SIZE * 6 + 2 - n * 6)).
  { unfold rest. rewrite length_drop, length_local_array by done.
    unfold EMU_QUADS_BUFFER_SIZE. lia. }
  unfold store_at.
  replace (Z.to_nat (n * 6)) with (6 * Z.to_nat n)%nat by lia.
  rewrite store_take_drop.
  2:{ rewrite length_app, Hrun, Hrest. cbn [length].
      unfold EMU_QUADS_BUFFER_SIZE. lia. }
  rewrite (take_app_length' _ _ _ (eq_sym Hrun)).
  rewrite app_assoc. apply take_app_length'.
  rewrite length_app, Hrun. cbn [fmap list_fmap length]. lia.
Qed.

(** With the first-vertex convention in force under flat shading, a strip
    outline of up to 1023 steps is one submission: per step the three edges
    (v3,v1), (v1,v0), (v2,v0), then one closing pair, the far edge (v3,v2)
    of the last step. *)
Theorem strip_outline_flat_first_lines q first count s :
  shadeMode q = GL_FLAT ->
  gl_quads_follow_provoking_vertex_convention q = true ->
  provokeMode q = GL_FIRST_VERTEX_CONVENTION ->
  ~ In GL_FILL (active_styles q) -> In GL_LINE (active_styles q) ->
  4 <= count < 2050 ->
  exists calls,
    glDrawArrays GL_QUAD_STRIP first count q = Some (true, q, calls)
    /\ submissions calls s
       = [Indexed GL_LINES
            (concat ((fun i => let v k := u32 (first + 2 * i + k) in
                               [v 3; v 1; v 1; v 0; v 2; v 0])
                       <$> seqZ 0 (count `div` 2 - 1))
             ++ [u32 (first + 2 * (count `div` 2 - 2) + 3);
                 u32 (first + 2 * (count `div` 2 - 2) + 2)])].
Proof.
  intros Hshade Hconv Hprov Hfill Hline Hc.
  pose proof (flat_first_vertex_true q Hshade Hconv Hprov) as Hq.
  rewrite glDrawArrays_runs, resolve_lines by (done || by right || lia).
  eexists. split; [reflexivity|]. simpl snd.
  rewrite submissions_lines_strip. unfold strip_line_chunks.
  pose proof (mask_count_strip count ltac:(lia)) as Hm.
  rewrite chunks_single.
  2:{ rewrite Hm. lia_div. }
  2:{ rewrite Hm. unfold EMU_QUADS_BUFFER_SIZE. lia_div. }
  2:{ unfold chunk_bound. rewrite Z.quot_div_nonneg by lia. lia_div. }
  csimpl. rewrite strip_n_min by (rewrite Hm; lia_div).
  rewrite Hm.
  replace ((2 * count `div` 2) `div` 2 - 1) with (count `div` 2 - 1) by lia_div.
  rewrite Z.min_l by lia_div.
  rewrite take_strip_line_indices_flat_first by (done || lia_div).
  do 3 f_equal.
  - apply pattern_run_ext. unfold strip_line_flat_first. same_pattern.
  - f_equal; [f_equal; lia|]. f_equal. f_equal. lia.
Qed.

(** A strip of two steps in LINE style, flat shading, first vertex. *)
Lemma strip_outline_flat_first_lines_witness :
  exists calls,
    glDrawArrays GL_QUAD_STRIP 0 6
      (set_provokeMode GL_FIRST_VERTEX_CONVENTION
         (set_shadeMode GL_FLAT
            (set_backFaceMode GL_LINE (set_frontFaceMode GL_LINE (initial 1 true)))))
    = Some (true,
            set_provokeMode GL_FIRST_VERTEX_CONVENTION
              (set_shadeMode GL_FLAT
                 (set_backFaceMode GL_LINE (set_frontFaceMode GL_LINE (initial 1 true)))),
            calls)
    /\ submissions calls idle_backend
       = [Indexed GL_LINES [3; 1; 1; 0; 2; 0; 5; 3; 3; 2; 4; 2; 5; 4]].
Proof.
  destruct (strip_outline_flat_first_lines
              (set_provokeMode GL_FIRST_VERTEX_CONVENTION
                 (set_shadeMode GL_FLAT
                    (set_backFaceMode GL_LINE
                       (set_frontFaceMode GL_LINE (initial 1 true)))))
              0 6 idle_backend) as (calls & Hrun & Hsub).
  - reflexivity.
  - reflexivity.
  - reflexivity.
  - simpl. intros [H | [H | []]]; discriminate.
  - simpl. auto.
  - lia.
  - exists calls. split; [exact Hrun|]. rewrite Hsub. reflexivity.
Defined.

Lemma u32_u32 (x : Z) : u32 (u32 x) = u32 x.
Proof. unfold u32. apply Z.mod_mod. lia. Qed.

Lemma shift_zero_pattern_run (pat : Z -> list Z) o n :
  (fun x => u32 (x + 2 * 0)) <$> pattern_run pat o n = pattern_run pat o n.
Proof.
  unfold pattern_run. generalize (seqZ o n). intros l.
  induction l as [|i l IH]; [done|]. csimpl. rewrite fmap_app, IH. f_equal.
  rewrite <- list_fmap_compose. apply list_fmap_ext. intros _ x _. simpl.
  by rewrite Z.add_0_r, u32_u32.
Qed.

(** The cells a strip chunk loop submits in its chunk [j] are the cells
    the fill loop wrote, each advanced by 2048 * j. *)
Lemma strip_line_chunks_shifted q first count :
  flat_first_vertex q = true -> 2050 <= count ->
  (fun p => take (Z.to_nat (p.1 * 6 + 2)) p.2) <$> strip_line_chunks q first count
  = (fun j => (fun x => u32 (x + 2 * (1024 * j)))
                <$> take (Z.to_nat (Z.min (count `div` 2 - 1 - 1024 * j) 1024 * 6 + 2))
                      (strip_line_indices q first 1024))
      <$> seqZ 0 ((count `div` 2 - 1) `div` 1024 + 1).
Proof.
  intros Hq Hc. unfold strip_line_chunks.
  pose proof (mask_count_strip count ltac:(lia)) as Hm.
  set (c := mask_count GL_QUAD_STRIP count) in *.
  assert (Hc4 : 2050 <= c) by (rewrite Hm; lia_div).
  assert (Hn0 : strip_n c = 1024) by (rewrite strip_n_min by lia; lia_div).
  change (fun p : Z * list Z => take (Z.to_nat (p.1 * 6 + 2)) p.2)
    with (snd ∘ (fun p : Z * list Z => (p.1, take (Z.to_nat (p.1 * 6 + 2)) p.2))).
  rewrite list_fmap_compose.
  rewrite (chunks_image 2 strip_n (fun n => n * 6 + 2) ltac:(lia)
             (fun o n => (fun x => u32 (x + 2 * o))
                           <$> take (Z.to_nat (n * 6 + 2))
                                 (strip_line_indices q first 1024)))
    with (o := 0).
  - rewrite <- list_fmap_compose.
    replace ((c - 2) `div` (1024 * 2) + 1) with ((count `div` 2 - 1) `div` 1024 + 1)
      by (rewrite Hm; lia_div).
    apply fmap_seqZ_ext. intros j Hj. simpl.
    assert (0 <= c - 1024 * 2 * j) by (rewrite Hm; lia_div).
    rewrite strip_n_min by done. rewrite Hm, Z.add_0_l.
    by replace ((2 * count `div` 2 - 1024 * 2 * j) `div` 2 - 1)
      with (count `div` 2 - 1 - 1024 * j) by lia_div.
  - intros; lia.
  - intros; lia.
  - intros o n n' Hn.
    rewrite <- fmap_take, take_take.
    replace (Z.to_nat (n' * 6 + 2) `min` Z.to_nat (n * 6 + 2))%nat
      with (Z.to_nat (n' * 6 + 2)) by lia.
    rewrite <- list_fmap_compose. apply list_fmap_ext. intros _ x _. simpl.
    rewrite u32_add_l. f_equal. lia.
  - apply strip_n_step.
  - lia.
  - by apply chunk_bound_strip; lia.
  - rewrite length_strip_line_indices, Hn0. unfold EMU_QUADS_BUFFER_SIZE. lia.
  - rewrite Hn0, take_strip_line_indices_flat_first by (done || lia).
    rewrite fmap_app, shift_zero_pattern_run.
    cbn [fmap list_fmap]. by rewrite !Z.add_0_r, !u32_u32.
Qed.

(** With the first-vertex convention in force under flat shading, a strip
    outline of 1024 steps or more is submitted in several chunks, and the
    last chunk does not close with the far edge of the last step: its
    final pair is (first + 2T + 3, first + 2T + 1) for a strip of T =
    count/2 - 1 steps, left there by the in-place shift of the steps of the
    first chunk, and its first index lies past the last vertex of the
    draw. *)
Theorem strip_outline_flat_first_last_chunk q first count s :
  shadeMode q = GL_FLAT ->
  gl_quads_follow_provoking_vertex_convention q = true ->
  provokeMode q = GL_FIRST_VERTEX_CONVENTION ->
  ~ In GL_FILL (active_styles q) -> In GL_LINE (active_styles q) ->
  2050 <= count ->
  exists calls before body,
    glDrawArrays GL_QUAD_STRIP first count q = Some (true, q, calls)
    /\ submissions calls s
       = before
         ++ [Indexed GL_LINES
               (body ++ [u32 (first + 2 * (count `div` 2 - 1) + 3);
                         u32 (first + 2 * (count `div` 2 - 1) + 1)])]
    /\ before <> []
    /\ first + count <= first + 2 * (count `div` 2 - 1) + 3.
Proof.
  intros Hshade Hconv Hprov Hfill Hline Hc.
  pose proof (flat_first_vertex_true q Hshade Hconv Hprov) as Hq.
  rewrite glDrawArrays_runs, resolve_lines by (done || by right || lia).
  set (T := count `div` 2 - 1).
  assert (HT : 1024 <= T) by (unfold T; lia_div).
  set (J := T `div` 1024).
  assert (HJ : 1 <= J /\ 1024 * J <= T < 1024 * J + 1024) by (unfold J; lia_div).
  set (r := T - 1024 * J).
  exists (lines_trace q GL_QUAD_STRIP first count),
    ((fun j => Indexed GL_LINES
                 ((fun x => u32 (x + 2 * (1024 * j)))
                    <$> take (Z.to_nat (Z.min (T - 1024 * j) 1024 * 6 + 2))
                          (strip_line_indices q first 1024)))
       <$> seqZ 0 J),
    ((fun x => u32 (x + 2 * (1024 * J)))
       <$> pattern_run (strip_line_flat_first first) 0 r).
  split; [reflexivity|]. split; [|split].
  - rewrite submissions_lines_strip.
    change (fun p : Z * list Z => Indexed GL_LINES (take (Z.to_nat (p.1 * 6 + 2)) p.2))
      with (Indexed GL_LINES
              ∘ (fun p : Z * list Z => take (Z.to_nat (p.1 * 6 + 2)) p.2)).
    rewrite list_fmap_compose, strip_line_chunks_shifted, <- list_fmap_compose by done.
    fold T. fold J.
    replace (J + 1) with (Z.of_nat (S (Z.to_nat J))) by lia.
    rewrite seqZ_S, fmap_app, Z2Nat.id by lia. f_equal.
    simpl. do 2 f_equal. rewrite Z.add_0_l.
    fold r. rewrite Z.min_l by (unfold r; lia).
    assert (Htake : take (Z.to_nat (r * 6 + 2)) (strip_line_indices q first 1024)
                    = pattern_run (strip_line_flat_first first) 0 r
                      ++ [u32 (first + r * 2 + 3); u32 (first + r * 2 + 1)]).
    { replace (Z.to_nat (r * 6 + 2))
        with (Z.to_nat (r * 6 + 2) `min` Z.to_nat (1024 * 6 + 2))%nat
        by (unfold r; lia).
      rewrite <- take_take, take_strip_line_indices_flat_first by (done || lia).
      assert (Hsplit : pattern_run (strip_line_flat_first first) 0 1024
                       = pattern_run (strip_line_flat_first first) 0 r
                         ++ pattern_run (strip_line_flat_first first) (0 + r) 1
                         ++ pattern_run (strip_line_flat_first first) (0 + r + 1)
                              (1023 - r)).
      { rewrite <- !pattern_run_app by (unfold r; lia). f_equal. lia. }
      rewrite Hsplit, <- !app_assoc.
      replace (Z.to_nat (r * 6 + 2)) with (6 * Z.to_nat r + 2)%nat
        by (unfold r; lia).
      rewrite take_app_add'
        by (rewrite (length_pattern_run 6) by (done || unfold r; lia); done).
      f_equal. }
    rewrite Htake, fmap_app. f_equal.
    cbn [fmap list_fmap]. rewrite !u32_add_l.
    f_equal; [f_equal; unfold r; lia|]. f_equal. f_equal. unfold r. lia.
  - apply fmap_not_nil. rewrite seqZ_cons by lia. done.
  - unfold T. lia_div.
Qed.

(** A strip of 1024 steps (2050 vertices from vertex 0): the second
    submission is the single pair (2051, 2049). *)
Lemma strip_outline_flat_first_last_chunk_witness :
  exists calls before body,
    glDrawArrays GL_QUAD_STRIP 0 2050
      (set_provokeMode GL_FIRST_VERTEX_CONVENTION
         (set_shadeMode GL_FLAT
            (set_backFaceMode GL_LINE (set_frontFaceMode GL_LINE (initial 1 true)))))
    = Some (true,
            set_provokeMode GL_FIRST_VERTEX_CONVENTION
              (set_shadeMode GL_FLAT
                 (set_backFaceMode GL_LINE (set_frontFaceMode GL_LINE (initial 1 true)))),
            calls)
    /\ submissions calls idle_backend
       = before ++ [Indexed GL_LINES (body ++ [2051; 2049])].
Proof.
  destruct (strip_outline_flat_first_last_chunk
              (set_provokeMode GL_FIRST_VERTEX_CONVENTION
                 (set_shadeMode GL_FLAT
                    (set_backFaceMode GL_LINE
                       (set_frontFaceMode GL_LINE (initial 1 true)))))
              0 2050 idle_backend) as (calls & before & body & Hrun & Hsub & _).
  - reflexivity.
  - reflexivity.
  - reflexivity.
  - simpl. intros [H | [H | []]]; discriminate.
  - simpl. auto.
  - lia.
  - exists calls, before, body. split; [exact Hrun|]. exact Hsub.
Defined.

(** ** Sequences of calls *)

Lemma run_op_keeps (op : Op) q :
  exists q' t,
    run_op op q = Some (tt, q', t)
    /\ (enums_valid q -> enums_valid q')
    /\ quadIndexBuffer q' = quadIndexBuffer q
    /\ gl_quads_follow_provoking_vertex_convention q'
       = gl_quads_follow_provoking_vertex_convention q
    /\ (match op with OpPolygonMode _ m => style_valid m | _ => True end ->
        style_valid (frontFaceMode q) /\ style_valid (backFaceMode q) ->
        style_valid (frontFaceMode q') /\ style_valid (backFaceMode q')).
Proof.
  destruct op as [target buffer|mode|f m|mode|mode|face|cap|cap|mode first count];
    simpl.
  - unfold glBindBuffer, when. destruct (target =? GL_ELEMENT_ARRAY_BUFFER);
      do 2 eexists; (split; [reflexivity|]); unfold enums_valid; simpl; tauto.
  - unfold glFrontFace.
    destruct (Z.eqb_spec mode GL_CW), (Z.eqb_spec mode GL_CCW);
      do 2 eexists; (split; [reflexivity|]); unfold enums_valid; simpl; tauto.
  - unfold glPolygonMode.
    destruct (Z.eqb_spec f GL_FRONT);
      [|destruct (Z.eqb_spec f GL_BACK); [|destruct (Z.eqb_spec f GL_FRONT_AND_BACK)]];
      do 2 eexists; (split; [reflexivity|]); unfold enums_valid; simpl; tauto.
  - unfold glShadeModel, when.
    destruct (Z.eqb_spec mode GL_SMOOTH), (Z.eqb_spec mode GL_FLAT);
      do 2 eexists; (split; [reflexivity|]); unfold enums_valid; simpl; tauto.
  - unfold glProvokingVertex, when.
    destruct (Z.eqb_spec mode GL_FIRST_VERTEX_CONVENTION),
      (Z.eqb_spec mode GL_LAST_VERTEX_CONVENTION);
      do 2 eexists; (split; [reflexivity|]); unfold enums_valid; simpl; tauto.
  - unfold glCullFace.
    destruct (Z.eqb_spec face GL_FRONT), (Z.eqb_spec face GL_BACK),
      (Z.eqb_spec face GL_FRONT_AND_BACK);
      do 2 eexists; (split; [reflexivity|]); unfold enums_valid; simpl; tauto.
  - unfold glEnable, when. destruct (cap =? GL_CULL_FACE);
      do 2 eexists; (split; [reflexivity|]); unfold enums_valid; simpl; tauto.
  - unfold glDisable, when. destruct (cap =? GL_CULL_FACE);
      do 2 eexists; (split; [reflexivity|]); unfold enums_valid; simpl; tauto.
  - unfold Emu_bind. rewrite glDrawArrays_runs. simpl.
    do 2 eexists. split; [reflexivity|]. tauto.
Qed.

Lemma run_ops_keeps (ops : list Op) q :
  exists q' t,
    run_ops ops q = Some (tt, q', t)
    /\ (enums_valid q -> enums_valid q')
    /\ quadIndexBuffer q' = quadIndexBuffer q
    /\ gl_quads_follow_provoking_vertex_convention q'
       = gl_quads_follow_provoking_vertex_convention q
    /\ (styles_valid ops ->
        style_valid (frontFaceMode q) /\ style_valid (backFaceMode q) ->
        style_valid (frontFaceMode q') /\ style_valid (backFaceMode q')).
Proof.
  revert q. induction ops as [|op ops IH]; intros q; simpl.
  - do 2 eexists. split; [reflexivity|]. tauto.
  - destruct (run_op_keeps op q) as (q1 & t1 & Hop & He1 & Hb1 & Hc1 & Hs1).
    destruct (IH q1) as (q2 & t2 & Hops & He2 & Hb2 & Hc2 & Hs2).
    exists q2, (t1 ++ t2). split; [by apply (Emu_bind_runs _ _ _ _ _ _ _ _ _ Hop)|].
    split; [tauto|]. split; [congruence|]. split; [congruence|].
    intros Hv Hq. apply Forall_cons in Hv as [Hv1 Hv2]. tauto.
Qed.

(** Whatever calls follow Init, in whatever order and with whatever
    arguments, the object stays within the values the setters accept:
    windingMode is CW or CCW, shadeMode SMOOTH or FLAT, provokeMode one of
    the two conventions, cullFace FRONT, BACK or FRONT_AND_BACK; the
    scratch buffer name and the convention flag are those Init stored.  (The
    face styles are not in this list: glPolygonMode stores what it gets.) *)
Theorem calls_keep_enums ctx_convention name (ops : list Op) q0 :
  exists q t,
    (Init ctx_convention name ;; run_ops ops) q0 = Some (tt, q, t)
    /\ enums_valid q
    /\ quadIndexBuffer q = name
    /\ gl_quads_follow_provoking_vertex_convention q = (ctx_convention =? GL_TRUE).
Proof.
  destruct (run_ops_keeps ops (initial name (ctx_convention =? GL_TRUE)))
    as (q & t & Hops & He & Hb & Hc & _).
  exists q, ([GlGenBuffers 1] ++ t).
  split; [by apply (Emu_bind_runs _ _ _ _ _ _ _ _ _ (Init_runs _ _ _))|].
  split; [|by split].
  apply He. unfold enums_valid. simpl. tauto.
Qed.

(** In a state reached from Init through the entry points, the
    [else return true] of lines 165-166 is never taken: when culling is
    enabled and the cull face is not FRONT_AND_BACK, it is BACK or FRONT. *)
Theorem calls_keep_cull_face_known ctx_convention name (ops : list Op) q0 :
  exists q t,
    (Init ctx_convention name ;; run_ops ops) q0 = Some (tt, q, t)
    /\ (cullingFaces q && (cullFace q =? GL_FRONT_AND_BACK) = true
        \/ draw_flags q <> None).
Proof.
  destruct (run_ops_keeps ops (initial name (ctx_convention =? GL_TRUE)))
    as (q & t & Hops & He & _).
  exists q, ([GlGenBuffers 1] ++ t).
  split; [by apply (Emu_bind_runs _ _ _ _ _ _ _ _ _ (Init_runs _ _ _))|].
  destruct He as (_ & _ & _ & Hcull); [unfold enums_valid; simpl; tauto|].
  unfold draw_flags. destruct (cullingFaces q); simpl; [|by right].
  destruct Hcull as [-> | [-> | ->]]; simpl; auto.
Qed.

Lemma styles_draw_something q mode first count s :
  mode = GL_QUADS \/ mode = GL_QUAD_STRIP -> 4 <= count ->
  style_valid (frontFaceMode q) -> style_valid (backFaceMode q) ->
  cullFace q = GL_FRONT \/ cullFace q = GL_BACK \/ cullFace q = GL_FRONT_AND_BACK ->
  (cullingFaces q = true /\ cullFace q = GL_FRONT_AND_BACK)
  \/ submissions (glDrawArrays_result q mode first count).2 s <> [].
Proof.
  intros Hmode Hc Hf Hb Hcull.
  destruct (cullingFaces q) eqn:Ec.
  - destruct Hcull as [Hcf | [Hcf | Hcf]]; [right|right|by left].
    + assert (Ha : active_styles q = [backFaceMode q])
        by (unfold active_styles; by rewrite Ec, Hcf).
      destruct Hb as [Hb | [Hb | Hb]].
      * rewrite resolve_triangles by (done || rewrite Ha, Hb; by left).
        by apply submissions_triangles_kind.
      * rewrite resolve_lines
          by (done || rewrite Ha, Hb; simpl; intuition discriminate).
        by apply submissions_lines_kind.
      * rewrite resolve_points
          by (done || rewrite Ha, Hb; simpl; intuition discriminate).
        simpl snd. by rewrite submissions_points.
    + assert (Ha : active_styles q = [frontFaceMode q])
        by (unfold active_styles; by rewrite Ec, Hcf).
      destruct Hf as [Hf | [Hf | Hf]].
      * rewrite resolve_triangles by (done || rewrite Ha, Hf; by left).
        by apply submissions_triangles_kind.
      * rewrite resolve_lines
          by (done || rewrite Ha, Hf; simpl; intuition discriminate).
        by apply submissions_lines_kind.
      * rewrite resolve_points
          by (done || rewrite Ha, Hf; simpl; intuition discriminate).
        simpl snd. by rewrite submissions_points.
  - right.
    assert (Ha : active_styles q = [frontFaceMode q; backFaceMode q])
      by (unfold active_styles; by rewrite Ec).
    destruct (in_dec Z.eq_dec GL_FILL (active_styles q)) as [Hfill|Hfill].
    { rewrite resolve_triangles by done. by apply submissions_triangles_kind. }
    destruct (in_dec Z.eq_dec GL_LINE (active_styles q)) as [Hline|Hline].
    { rewrite resolve_lines by done. by apply submissions_lines_kind. }
    rewrite resolve_points; [simpl snd; by rewrite submissions_points|done..|].
    rewrite Ha in *. simpl in *.
    destruct Hf as [Hf | [Hf | Hf]]; [tauto|tauto|]. left. done.
Qed.

(** When the application passes only FILL, LINE or POINT to
    glPolygonMode, every draw of four or more quad or strip vertices,
    after any sequence of calls, reaches the backend with at least one draw
    -- unless culling is enabled with cull face FRONT_AND_BACK. *)
Theorem calls_then_draw ctx_convention name (ops : list Op) q0 mode first count s :
  styles_valid ops ->
  mode = GL_QUADS \/ mode = GL_QUAD_STRIP -> 4 <= count ->
  exists q t calls,
    (Init ctx_convention name ;; run_ops ops) q0 = Some (tt, q, t)
    /\ glDrawArrays mode first count q = Some (true, q, calls)
    /\ ((cullingFaces q = true /\ cullFace q = GL_FRONT_AND_BACK)
        \/ submissions calls s <> []).
Proof.
  intros Hstyles Hmode Hc.
  destruct (run_ops_keeps ops (initial name (ctx_convention =? GL_TRUE)))
    as (q & t & Hops & He & _ & _ & Hs).
  destruct He as (_ & _ & _ & Hcull); [unfold enums_valid; simpl; tauto|].
  destruct (Hs Hstyles) as [Hf Hb]; [split; by left|].
  exists q, ([GlGenBuffers 1] ++ t), (glDrawArrays_result q mode first count).2.
  split; [by apply (Emu_bind_runs _ _ _ _ _ _ _ _ _ (Init_runs _ _ _))|].
  split.
  - rewrite glDrawArrays_runs. do 3 f_equal.
    apply glDrawArrays_result_handled. split; [done|lia].
  - by apply styles_draw_something.
Qed.

(** Culling enabled, front faces culled, back faces as points. *)
Lemma calls_then_draw_witness :
  exists q t calls,
    (Init GL_TRUE 1 ;;
     run_ops [OpEnable GL_CULL_FACE; OpCullFace GL_FRONT;
              OpPolygonMode GL_BACK GL_POINT; OpShadeModel 0])
      (initial 0 false)
    = Some (tt, q, t)
    /\ glDrawArrays GL_QUADS 0 4 q = Some (true, q, calls)
    /\ submissions calls idle_backend = [Arrays GL_POINTS 0 4].
Proof.
  destruct (calls_then_draw GL_TRUE 1
              [OpEnable GL_CULL_FACE; OpCullFace GL_FRONT;
               OpPolygonMode GL_BACK GL_POINT; OpShadeModel 0]
              (initial 0 false) GL_QUADS 0 4 idle_backend)
    as (q & t & calls & Hinit & Hrun & _).
  - unfold styles_valid.
    apply Forall_cons_2; [exact I|]. apply Forall_cons_2; [exact I|].
    apply Forall_cons_2; [right; right; reflexivity|].
    apply Forall_cons_2; [exact I|]. apply Forall_nil_2.
  - left. reflexivity.
  - lia.
  - exists q, t, calls. split; [exact Hinit|]. split; [exact Hrun|].
    vm_compute in Hinit. injection Hinit as <- _.
    vm_compute in Hrun. injection Hrun as <-. reflexivity.
Defined.

(** ** Binding, winding and the draw *)

(** After glBindBuffer(GL_ELEMENT_ARRAY_BUFFER, buffer) a draw that uses
    the scratch buffer leaves [buffer] bound; a glBindBuffer to any other
    target does not change what the draw binds at its end. *)
Theorem bind_then_draw q target buffer mode first count s :
  mode = GL_QUADS \/ mode = GL_QUAD_STRIP -> 4 <= count ->
  In GL_FILL (active_styles q) ->
  exists q1 calls,
    glBindBuffer target buffer q = Some (tt, q1, [])
    /\ glDrawArrays mode first count q1 = Some (true, q1, calls)
    /\ binding_after calls s
       = (if target =? GL_ELEMENT_ARRAY_BUFFER then buffer else elementArrayBuffer q).
Proof.
  intros Hmode Hc Hfill. unfold glBindBuffer, when.
  destruct (target =? GL_ELEMENT_ARRAY_BUFFER).
  - exists (set_elementArrayBuffer buffer q). eexists. split; [reflexivity|].
    rewrite glDrawArrays_runs, resolve_triangles by done.
    split; [reflexivity|]. simpl snd. by rewrite binding_after_triangles.
  - exists q. eexists. split; [reflexivity|].
    rewrite glDrawArrays_runs, resolve_triangles by done.
    split; [reflexivity|]. simpl snd. by rewrite binding_after_triangles.
Qed.

(** Buffer 9 bound by the application, then two quads. *)
Lemma bind_then_draw_witness :
  exists q1 calls,
    glBindBuffer GL_ELEMENT_ARRAY_BUFFER 9 (initial 1 true) = Some (tt, q1, [])
    /\ glDrawArrays GL_QUADS 0 8 q1 = Some (true, q1, calls)
    /\ binding_after calls idle_backend = 9.
Proof.
  apply (bind_then_draw (initial 1 true) GL_ELEMENT_ARRAY_BUFFER 9 GL_QUADS 0 8
           idle_backend).
  - left. reflexivity.
  - lia.
  - simpl. auto.
Defined.

Lemma glDrawArrays_result_winding q w mode first count :
  glDrawArrays_result (set_windingMode w q) mode first count
  = glDrawArrays_result q mode first count.
Proof. reflexivity. Qed.

(** The winding order has no influence on a draw: whatever glFrontFace
    is called with, the next glDrawArrays returns the same result and
    issues the same calls as without it. *)
Theorem glFrontFace_then_draw q w mode first count :
  exists q1 handled calls,
    glFrontFace w q = Some (tt, q1, [])
    /\ glDrawArrays mode first count q1 = Some (handled, q1, calls)
    /\ glDrawArrays mode first count q = Some (handled, q, calls).
Proof.
  unfold glFrontFace. destruct ((w =? GL_CW) || (w =? GL_CCW)).
  - exists (set_windingMode w q). do 2 eexists. split; [reflexivity|].
    rewrite !glDrawArrays_runs, glDrawArrays_result_winding. by split.
  - exists q. do 2 eexists. split; [reflexivity|].
    rewrite !glDrawArrays_runs. by split.
Qed.

(** ** The sizes of the chunks *)

(** A quads-to-triangles draw of count vertices issues
    (count/4 - 1)/1024 + 1 submissions, each of 6 * n indices for some n
    from 1 to 1024: none is empty and none exceeds the index array. *)
Theorem quads_chunk_sizes q first count s :
  In GL_FILL (active_styles q) -> 4 <= count ->
  exists calls,
    glDrawArrays GL_QUADS first count q = Some (true, q, calls)
    /\ Z.of_nat (length (submissions calls s)) = (count `div` 4 - 1) `div` 1024 + 1
    /\ Forall (fun sub => exists n, 1 <= n <= EMU_QUADS_BUFFER_SIZE
                            /\ Z.of_nat (length (submission_indices sub)) = 6 * n)
         (submissions calls s).
Proof.
  intros Hfill Hc.
  destruct (quads_triangles_submissions q first count s Hc Hfill) as [Hrun Hsub].
  eexists. split; [exact Hrun|]. rewrite Hsub. split.
  - rewrite length_fmap, length_seqZ. lia_div.
  - apply Forall_fmap, Forall_seqZ. intros j Hj. simpl.
    exists (Z.min (count `div` 4 - 1024 * j) 1024).
    unfold EMU_QUADS_BUFFER_SIZE. split; [lia_div|].
    rewrite (length_pattern_run 6) by (apply length_quads_tri_pattern || lia_div).
    lia_div.
Qed.

(** 4100 vertices: two submissions. *)
Lemma quads_chunk_sizes_witness :
  exists calls,
    glDrawArrays GL_QUADS 0 4100 (initial 1 true) = Some (true, initial 1 true, calls)
    /\ Z.of_nat (length (submissions calls idle_backend)) = 2.
Proof.
  destruct (quads_chunk_sizes (initial 1 true) 0 4100 idle_backend)
    as (calls & Hrun & Hlen & _).
  - simpl. auto.
  - lia.
  - exists calls. split; [exact Hrun|]. rewrite Hlen. reflexivity.
Defined.

(** A strip whose number of steps, count/2 - 1, is a multiple of 1024
    gets one submission more than it has chunks of steps: the loop runs
    once more on the last vertex pair alone and uploads and draws an empty
    index list. *)
Theorem strip_trailing_empty_chunk q first count s :
  In GL_FILL (active_styles q) -> 4 <= count ->
  (count `div` 2 - 1) `mod` 1024 = 0 ->
  exists calls before,
    glDrawArrays GL_QUAD_STRIP first count q = Some (true, q, calls)
    /\ submissions calls s = before ++ [Indexed GL_TRIANGLES []]
    /\ Z.of_nat (length before) = (count `div` 2 - 1) `div` 1024.
Proof.
  intros Hfill Hc Hmod.
  destruct (strip_triangles_submissions q first count s Hc Hfill) as [Hrun Hsub].
  set (T := count `div` 2 - 1) in *.
  assert (HT : 1 <= T) by (unfold T; lia_div).
  set (m := T `div` 1024) in *.
  assert (Hm : T = 1024 * m /\ 1 <= m) by (unfold m; lia_div).
  eexists. eexists. split; [exact Hrun|]. rewrite Hsub.
  replace (m + 1) with (Z.of_nat (S (Z.to_nat m))) by lia.
  rewrite seqZ_S, fmap_app, Z2Nat.id by lia. split.
  - f_equal. simpl. rewrite Z.add_0_l.
    replace (T - 1024 * m) with 0 by lia. reflexivity.
  - rewrite length_fmap, length_seqZ. lia.
Qed.

(** A strip of 1024 steps: one full submission and an empty one. *)
Lemma strip_trailing_empty_chunk_witness :
  exists calls before,
    glDrawArrays GL_QUAD_STRIP 0 2050 (initial 1 true)
    = Some (true, initial 1 true, calls)
    /\ submissions calls idle_backend = before ++ [Indexed GL_TRIANGLES []]
    /\ Z.of_nat (length before) = 1.
Proof.
  destruct (strip_trailing_empty_chunk (initial 1 true) 0 2050 idle_backend)
    as (calls & before & Hrun & Hsub & Hlen).
  - simpl. auto.
  - lia.
  - reflexivity.
  - exists calls, before. split; [exact Hrun|]. split; [exact Hsub|].
    rewrite Hlen. reflexivity.
Defined.

(** * The priority of the face styles *)

Section ChunkCounts.
Variable v : Z.
Variable next_n : Z -> Z.
Variable len : Z -> Z.
Hypothesis v_pos : 0 < v.

(** The values of [n] a chunk loop goes through; the array keeps its
    length. *)
Lemma chunks_counts fuel c a :
  v <= c -> c < v + Z.of_nat fuel * (EMU_QUADS_BUFFER_SIZE * v) ->
  (fun p => (p.1, length p.2)) <$> chunks v next_n len fuel c (next_n c) a
  = (fun j => (next_n (c - 1024 * v * j), length a))
      <$> seqZ 0 ((c - v) `div` (1024 * v) + 1).
Proof.
  unfold EMU_QUADS_BUFFER_SIZE.
  revert c a. induction fuel as [|fuel IH]; intros c a Hc Hfuel; [lia|].
  simpl. destruct (c <? v) eqn:E; [apply Z.ltb_lt in E; lia|]. clear E.
  unfold EMU_QUADS_BUFFER_SIZE.
  destruct (c - 1024 * v >=? v) eqn:E.
  - rewrite Z.geb_leb in E. apply Z.leb_le in E.
    assert (HJ : (c - v) `div` (1024 * v) = (c - 1024 * v - v) `div` (1024 * v) + 1).
    { replace (c - v) with ((c - 1024 * v - v) + 1 * (1024 * v)) by lia.
      apply Z.div_add. lia. }
    assert (0 <= (c - 1024 * v - v) `div` (1024 * v))
      by (apply Z.div_pos; lia).
    rewrite seqZ_cons by lia. simpl.
    rewrite Z.mul_0_r, Z.sub_0_r. f_equal.
    rewrite IH by lia. rewrite length_advance.
    replace (Z.pred ((c - v) `div` (1024 * v) + 1))
      with ((c - 1024 * v - v) `div` (1024 * v) + 1) by lia.
    change (Z.succ 0) with 1.
    rewrite <- (fmap_add_seqZ 1 0), <- list_fmap_compose.
    apply list_fmap_ext. intros _ j _. simpl. do 2 f_equal. lia.
  - rewrite Z.geb_leb in E. apply Z.leb_gt in E.
    rewrite chunks_done by lia.
    rewrite Z.div_small by lia. simpl. unfold seqZ. simpl.
    by rewrite Z.mul_0_r, Z.sub_0_r.
Qed.
End ChunkCounts.

Lemma submission_sizes_indexed {A} (mode : Z) (f : A -> list Z) (l : list A) :
  submission_sizes ((fun x => Indexed mode (f x)) <$> l)
  = (fun x => Z.of_nat (length (f x))) <$> l.
Proof.
  unfold submission_sizes. rewrite <- list_fmap_compose. by apply list_fmap_ext.
Qed.

Lemma Forall_indexed_mode {A} (mode : Z) (f : A -> list Z) (l : list A) :
  Forall (fun sub => submission_mode sub = mode) ((fun x => Indexed mode (f x)) <$> l).
Proof. apply Forall_fmap, Forall_true. done. Qed.

(** A strip outline submits 6 * n + 2 indices for a chunk of n steps, in
    either branch of the fill. *)
Lemma strip_line_chunks_sizes q first count :
  4 <= count ->
  (fun p => Z.of_nat (length (take (Z.to_nat (p.1 * 6 + 2)) p.2)))
    <$> strip_line_chunks q first count
  = (fun j => 6 * Z.min (count `div` 2 - 1 - 1024 * j) 1024 + 2)
      <$> seqZ 0 ((count `div` 2 - 1) `div` 1024 + 1).
Proof.
  intros Hc. unfold strip_line_chunks.
  pose proof (mask_count_strip count ltac:(lia)) as Hm.
  set (c := mask_count GL_QUAD_STRIP count) in *.
  assert (Hc4 : 4 <= c) by (rewrite Hm; lia_div).
  transitivity
    ((fun p : Z * nat => Z.of_nat (Z.to_nat (p.1 * 6 + 2) `min` p.2))
       <$> ((fun p : Z * list Z => (p.1, length p.2))
              <$> chunks 2 strip_n (fun n => n * 6 + 2) (chunk_bound count) c
                    (strip_n c) (strip_line_indices q first (strip_n c)))).
  { rewrite <- list_fmap_compose. apply list_fmap_ext. intros _ [n a] _.
    simpl. by rewrite length_take. }
  rewrite (chunks_counts 2 strip_n (fun n => n * 6 + 2) ltac:(lia))
    by (lia || by apply chunk_bound_strip; lia).
  rewrite <- list_fmap_compose.
  replace ((c - 2) `div` (1024 * 2) + 1) with ((count `div` 2 - 1) `div` 1024 + 1)
    by (rewrite Hm; lia_div).
  apply fmap_seqZ_ext. intros j Hj. simpl.
  assert (0 <= c - 1024 * 2 * j) by (rewrite Hm; lia_div).
  rewrite strip_n_min by done. rewrite length_strip_line_indices.
  unfold EMU_QUADS_BUFFER_SIZE. rewrite Hm.
  replace ((2 * count `div` 2 - 1024 * 2 * j) `div` 2 - 1)
    with (count `div` 2 - 1 - 1024 * j) by lia_div.
  lia_div.
Qed.

Lemma triangles_sizes q mode first count s :
  mode = GL_QUADS \/ mode = GL_QUAD_STRIP -> 4 <= count ->
  In GL_FILL (active_styles q) ->
  submission_sizes (submissions (glDrawArrays_result q mode first count).2 s)
  = (fun j => 6 * pass_primitives mode count j) <$> seqZ 0 (passes mode count).
Proof.
  unfold pass_primitives, passes, primitives, EMU_QUADS_BUFFER_SIZE.
  intros [-> | ->] Hc Hfill.
  - destruct (quads_triangles_submissions q first count s Hc Hfill) as [_ ->].
    rewrite submission_sizes_indexed. change (GL_QUADS =? GL_QUADS) with true.
    cbv iota. apply fmap_seqZ_ext. intros j Hj.
    rewrite (length_pattern_run 6 _ (length_quads_tri_pattern q first))
      by lia_div.
    lia_div.
  - destruct (strip_triangles_submissions q first count s Hc Hfill) as [_ ->].
    rewrite submission_sizes_indexed. change (GL_QUAD_STRIP =? GL_QUADS) with false.
    cbv iota. apply fmap_seqZ_ext. intros j Hj.
    rewrite (length_pattern_run 6 _ (length_strip_tri_pattern q first))
      by lia_div.
    lia_div.
Qed.

Lemma lines_sizes q mode first count s :
  mode = GL_QUADS \/ mode = GL_QUAD_STRIP -> 4 <= count ->
  ~ In GL_FILL (active_styles q) -> In GL_LINE (active_styles q) ->
  submission_sizes (submissions (glDrawArrays_result q mode first count).2 s)
  = (fun j => if mode =? GL_QUADS then 8 * pass_primitives mode count j
              else 6 * pass_primitives mode count j + 2)
      <$> seqZ 0 (passes mode count).
Proof.
  unfold pass_primitives, passes, primitives, EMU_QUADS_BUFFER_SIZE.
  intros [-> | ->] Hc Hfill Hline.
  - destruct (quads_lines_submissions q first count s Hc Hfill Hline) as [_ ->].
    rewrite submission_sizes_indexed. change (GL_QUADS =? GL_QUADS) with true.
    cbv iota. apply fmap_seqZ_ext. intros j Hj.
    rewrite (length_pattern_run 8 _ (length_quads_line_pattern q first))
      by lia_div.
    lia_div.
  - rewrite resolve_lines by (done || by right). simpl snd.
    rewrite submissions_lines_strip, submission_sizes_indexed.
    change (GL_QUAD_STRIP =? GL_QUADS) with false. cbv iota.
    by apply strip_line_chunks_sizes.
Qed.

(** C7, as stated, fails where neither FILL nor LINE is in the active
    set and POINT is not either.  After glPolygonMode(GL_FRONT_AND_BACK,
    0x1234), which records 0x1234 for both faces, a quads draw of four
    vertices is handled and submits nothing, no points.  Likewise after
    glEnable(GL_CULL_FACE) and glCullFace(GL_FRONT_AND_BACK), where no
    face is active, with the face styles still GL_FILL. *)
Lemma draw_else_points_fails :
  glPolygonMode GL_FRONT_AND_BACK 0x1234 (initial 1 true)
  = Some (tt, set_backFaceMode 0x1234 (set_frontFaceMode 0x1234 (initial 1 true)), [])
  /\ ~ In GL_FILL
         (active_styles (set_backFaceMode 0x1234 (set_frontFaceMode 0x1234 (initial 1 true))))
  /\ ~ In GL_LINE
         (active_styles (set_backFaceMode 0x1234 (set_frontFaceMode 0x1234 (initial 1 true))))
  /\ ~ (exists calls,
          glDrawArrays GL_QUADS 0 4
            (set_backFaceMode 0x1234 (set_frontFaceMode 0x1234 (initial 1 true)))
          = Some (true,
                  set_backFaceMode 0x1234 (set_frontFaceMode 0x1234 (initial 1 true)),
                  calls)
          /\ submissions calls idle_backend <> [])
  /\ (glEnable GL_CULL_FACE ;; glCullFace GL_FRONT_AND_BACK) (initial 1 true)
     = Some (tt, set_cullFace GL_FRONT_AND_BACK (set_cullingFaces true (initial 1 true)), [])
  /\ active_styles (set_cullFace GL_FRONT_AND_BACK (set_cullingFaces true (initial 1 true)))
     = []
  /\ ~ (exists calls,
          glDrawArrays GL_QUADS 0 4
            (set_cullFace GL_FRONT_AND_BACK (set_cullingFaces true (initial 1 true)))
          = Some (true,
                  set_cullFace GL_FRONT_AND_BACK (set_cullingFaces true (initial 1 true)),
                  calls)
          /\ submissions calls idle_backend <> []).
Proof.
  split; [reflexivity|]. split; [|split; [|split; [|split; [|split]]]].
  - vm_compute. intros [H | [H | []]]; discriminate.
  - vm_compute. intros [H | [H | []]]; discriminate.
  - intros (calls & Hrun & Hsub). vm_compute in Hrun. injection Hrun as <-.
    by apply Hsub.
  - reflexivity.
  - reflexivity.
  - intros (calls & Hrun & Hsub). vm_compute in Hrun. injection Hrun as <-.
    by apply Hsub.
Qed.

(** C7, amended: over the active face-style set the priority is FILL >
    LINE > POINT.  A draw of four or more vertices submits triangles
    whenever FILL is in the set: one indexed GL_TRIANGLES draw for each
    pass of the chunk loop, of six indices for every quad or strip step of
    the pass, so that every quad or step is drawn.  Else, if LINE is in
    the set, it submits lines: one indexed GL_LINES draw for each pass, of
    eight indices for every quad, or of six for every strip step and two
    more.  Else, if POINT is in the set, it submits the one array draw of
    GL_POINTS over the vertices, and when the set holds none of the three
    styles it issues no call at all.  In particular with frontFaceMode =
    LINE, backFaceMode = FILL and culling disabled, triangles are drawn,
    not lines. *)
Theorem draw_style_priority q mode first count s :
  mode = GL_QUADS \/ mode = GL_QUAD_STRIP -> 4 <= count ->
  exists calls,
    glDrawArrays mode first count q = Some (true, q, calls)
    /\ (In GL_FILL (active_styles q) ->
        submissions calls s <> []
        /\ Forall (fun sub => submission_mode sub = GL_TRIANGLES) (submissions calls s)
        /\ submission_sizes (submissions calls s)
           = (fun j => 6 * pass_primitives mode count j) <$> seqZ 0 (passes mode count))
    /\ (~ In GL_FILL (active_styles q) -> In GL_LINE (active_styles q) ->
        submissions calls s <> []
        /\ Forall (fun sub => submission_mode sub = GL_LINES) (submissions calls s)
        /\ submission_sizes (submissions calls s)
           = (fun j => if mode =? GL_QUADS then 8 * pass_primitives mode count j
                       else 6 * pass_primitives mode count j + 2)
               <$> seqZ 0 (passes mode count))
    /\ (~ In GL_FILL (active_styles q) -> ~ In GL_LINE (active_styles q) ->
        In GL_POINT (active_styles q) ->
        submissions calls s = [Arrays GL_POINTS first (mask_count mode count)])
    /\ (~ In GL_FILL (active_styles q) -> ~ In GL_LINE (active_styles q) ->
        ~ In GL_POINT (active_styles q) ->
        calls = [])
    /\ (frontFaceMode q = GL_LINE -> backFaceMode q = GL_FILL ->
        cullingFaces q = false ->
        submissions calls s <> []
        /\ Forall (fun sub => submission_mode sub = GL_TRIANGLES) (submissions calls s)
        /\ submission_sizes (submissions calls s)
           = (fun j => 6 * pass_primitives mode count j) <$> seqZ 0 (passes mode count)).
Proof.
  intros Hmode Hc. rewrite glDrawArrays_runs.
  assert (Hh : (glDrawArrays_result q mode first count).1 = true).
  { enter_draw Hmode Hc.
    destruct (cullingFaces q && (cullFace q =? GL_FRONT_AND_BACK)); [done|].
    by destruct (draw_flags q) as [[[dq dl] dp]|]. }
  rewrite Hh. eexists. split; [reflexivity|].
  assert (Htri : In GL_FILL (active_styles q) ->
    submissions (glDrawArrays_result q mode first count).2 s <> []
    /\ Forall (fun sub => submission_mode sub = GL_TRIANGLES)
         (submissions (glDrawArrays_result q mode first count).2 s)
    /\ submission_sizes (submissions (glDrawArrays_result q mode first count).2 s)
       = (fun j => 6 * pass_primitives mode count j) <$> seqZ 0 (passes mode count)).
  { intros H. apply and_assoc. split; [|by apply triangles_sizes].
    rewrite resolve_triangles by done. by apply submissions_triangles_kind. }
  split; [exact Htri|]. split; [|split; [|split]].
  - intros Hfill Hline. apply and_assoc. split; [|by apply lines_sizes].
    rewrite resolve_lines by done. by apply submissions_lines_kind.
  - intros Hfill Hline Hpoint. rewrite resolve_points by done.
    apply submissions_points.
  - intros Hfill Hline Hpoint. by apply resolve_nothing.
  - intros Hfront Hback Hcull. apply Htri.
    unfold active_styles. rewrite Hcull, Hback. simpl. auto.
Qed.

(** Front face LINE, back face FILL, no culling: the one quad is drawn as
    one submission of six triangle indices. *)
Lemma draw_style_priority_witness :
  exists calls,
    glDrawArrays GL_QUADS 0 4 (set_frontFaceMode GL_LINE (initial 1 true))
    = Some (true, set_frontFaceMode GL_LINE (initial 1 true), calls)
    /\ submissions calls idle_backend <> []
    /\ Forall (fun sub => submission_mode sub = GL_TRIANGLES)
         (submissions calls idle_backend)
    /\ submission_sizes (submissions calls idle_backend) = [6].
Proof.
  destruct (draw_style_priority (set_frontFaceMode GL_LINE (initial 1 true))
              GL_QUADS 0 4 idle_backend) as (calls & Hrun & _ & _ & _ & _ & Htri).
  - left. reflexivity.
  - lia.
  - exists calls. split; [exact Hrun|]. apply Htri; reflexivity.
Defined.
